(** * Bronze DBO Trans HST2 webhook: message normalisation and record store

    A shallow embedding of [main.py]: the Confluent message parser
    ([ConfluentMessageParser]), the module-level record store
    ([record_counter], [bronze_storage]) and the request handlers that
    read and write it.

    Python text ([str]) is a list of Unicode code points, a request body
    ([bytes]) a list of bytes.  Values that travel through the parser
    before the model validates them are [pyval]s.  Exceptions are explicit:
    a computation that can raise returns a [result]. *)

From Stdlib Require Import ZArith NArith List Bool Ascii String Lia SpecFloat.
From stdpp Require Import base list gmap.

Import ListNotations.
Local Open Scope N_scope.

(** ** Text *)

Definition codepoint := N.
Definition str := list codepoint.

Definition QUOTE : codepoint := 34.
Definition BACKSLASH : codepoint := 92.

(** Text literals of this development are written with an apostrophe
    standing for the double quote, which is what [py] puts back. *)
Definition py_char (a : ascii) : codepoint :=
  let c := N_of_ascii a in if N.eqb c 39 then QUOTE else c.

Definition py (s : string) : str := List.map py_char (list_ascii_of_string s).

Definition str_eqb (a b : str) : bool := bool_decide (a = b).

(** A text in which every code point is a Unicode scalar value: it holds
    no lone surrogate.  Text decoded from UTF-8 is such; a JSON string
    with an escape like \uD800 is not. *)
Definition is_scalar (c : codepoint) : bool :=
  (c <? 0xD800) || ((0xDFFF <? c) && (c <? 0x110000)).

Definition scalar_text (s : str) : bool := forallb is_scalar s.

(** [needle in haystack] on text. *)
Fixpoint startswith (p s : str) : bool :=
  match p, s with
  | [], _ => true
  | _ :: _, [] => false
  | a :: p', b :: s' => N.eqb a b && startswith p' s'
  end.

Fixpoint str_contains (needle hay : str) : bool :=
  startswith needle hay ||
  match hay with
  | [] => false
  | _ :: hay' => str_contains needle hay'
  end.

(** Decimal rendering of an integer, [str(n)]. *)
Fixpoint digits_pos_fuel (fuel : nat) (n : N) (acc : str) : str :=
  match fuel with
  | O => acc
  | S fuel' =>
      let acc' := (48 + n mod 10) :: acc in
      if N.ltb n 10 then acc' else digits_pos_fuel fuel' (n / 10) acc'
  end.

Definition str_of_N (n : N) : str := digits_pos_fuel (S (N.to_nat (N.log2 n))) n [].

Definition str_of_Z (z : Z) : str :=
  match z with
  | Zneg p => 45 :: str_of_N (Npos p)
  | _ => str_of_N (Z.to_N z)
  end.

(** ** Python values and exceptions *)

(** [float] is IEEE 754 binary64. *)
Definition prec : Z := 53.
Definition emax : Z := 1024.
Definition pyfloat := spec_float.

(** What [json.loads] can return, and what the keyword arguments of the
    model constructor can hold.  A dict keeps insertion order. *)
#[warnings="-register-all"]
Inductive pyval :=
| PNone
| PBool (b : bool)
| PInt (n : Z)
| PFloat (f : pyfloat)
| PStr (s : str)
| PList (l : list pyval)
| PDict (d : list (str * pyval)).

(** The operation a [TypeError] comes from. *)
Inductive type_error_site := NotIterable | BadIndex.

Inductive exn :=
| JSONDecodeError
| RecursionError
| ValueError
| OverflowError
| KeyError (key : str)
| TypeError (site : type_error_site) (v : pyval)
| AttributeError (v : pyval)
| ValidationError (errors : list (str * pyval))
| UnicodeDecodeError.

Inductive result (A : Type) :=
| Ok (a : A)
| Raise (e : exn).
Arguments Ok {A} a.
Arguments Raise {A} e.

Definition bind {A B} (r : result A) (k : A -> result B) : result B :=
  match r with
  | Ok a => k a
  | Raise e => Raise e
  end.

Notation "'let*' x ':=' r 'in' k" := (bind r (fun x => k))
  (at level 10, x pattern, r at level 100, k at level 200).

(** [bool(v)]. *)
Definition truthy (v : pyval) : bool :=
  match v with
  | PNone => false
  | PBool b => b
  | PInt n => negb (Z.eqb n 0)
  | PFloat f => match f with S754_zero _ => false | _ => true end
  | PStr s => match s with [] => false | _ => true end
  | PList l => match l with [] => false | _ => true end
  | PDict d => match d with [] => false | _ => true end
  end.

(** [d.get(key)] and [d[key] = v] on a dict. *)
Fixpoint dict_lookup (key : str) (d : list (str * pyval)) : option pyval :=
  match d with
  | [] => None
  | (k, v) :: d' => if str_eqb key k then Some v else dict_lookup key d'
  end.

Fixpoint dict_setitem (key : str) (v : pyval) (d : list (str * pyval))
  : list (str * pyval) :=
  match d with
  | [] => [(key, v)]
  | (k, w) :: d' =>
      if str_eqb key k then (k, v) :: d' else (k, w) :: dict_setitem key v d'
  end.

(** ** The data model *)

(** A naive local [datetime], as microseconds. *)
Inductive datetime := Datetime (micros : Z).

(** [BronzeTransHst2]: the 21 fields of the Delta table and the metadata. *)
Record BronzeTransHst2 := {
  authorizer_usrnbr : option Z;
  creat_time : option str;
  creat_usrnbr : option Z;
  data : option str;
  description : option str;
  description2 : option str;
  external_user : option str;
  four_eye_on : option Z;
  name : option str;
  next_seqnbr : option Z;
  oper : option Z;
  owner_usrnbr : option Z;
  protection : option Z;
  record_id : option Z;
  seqnbr : option Z;
  size : option Z;
  transnbr : option Z;
  trans_record_type : option Z;
  updat_time : option str;
  updat_usrnbr : option Z;
  version : option Z;
  received_at : datetime;
  processing_id : str
}.

(** The keyword arguments of a [BronzeTransHst2(...)] call; an argument
    left out is [PNone], the default of every field. *)
Record kwargs := {
  kw_authorizer_usrnbr : pyval;
  kw_creat_time : pyval;
  kw_creat_usrnbr : pyval;
  kw_data : pyval;
  kw_description : pyval;
  kw_description2 : pyval;
  kw_external_user : pyval;
  kw_four_eye_on : pyval;
  kw_name : pyval;
  kw_next_seqnbr : pyval;
  kw_oper : pyval;
  kw_owner_usrnbr : pyval;
  kw_protection : pyval;
  kw_record_id : pyval;
  kw_seqnbr : pyval;
  kw_size : pyval;
  kw_transnbr : pyval;
  kw_trans_record_type : pyval;
  kw_updat_time : pyval;
  kw_updat_usrnbr : pyval;
  kw_version : pyval
}.

(** The 21 fields, in the order of the model. *)
Inductive field :=
| F_authorizer_usrnbr
| F_creat_time
| F_creat_usrnbr
| F_data
| F_description
| F_description2
| F_external_user
| F_four_eye_on
| F_name
| F_next_seqnbr
| F_oper
| F_owner_usrnbr
| F_protection
| F_record_id
| F_seqnbr
| F_size
| F_transnbr
| F_trans_record_type
| F_updat_time
| F_updat_usrnbr
| F_version.

Definition all_fields : list field :=
  [F_authorizer_usrnbr; F_creat_time; F_creat_usrnbr;
   F_data; F_description; F_description2;
   F_external_user; F_four_eye_on; F_name;
   F_next_seqnbr; F_oper; F_owner_usrnbr;
   F_protection; F_record_id; F_seqnbr;
   F_size; F_transnbr; F_trans_record_type;
   F_updat_time; F_updat_usrnbr; F_version].

Definition field_name (f : field) : string :=
  match f with
  | F_authorizer_usrnbr => "authorizer_usrnbr"
  | F_creat_time => "creat_time"
  | F_creat_usrnbr => "creat_usrnbr"
  | F_data => "data"
  | F_description => "description"
  | F_description2 => "description2"
  | F_external_user => "external_user"
  | F_four_eye_on => "four_eye_on"
  | F_name => "name"
  | F_next_seqnbr => "next_seqnbr"
  | F_oper => "oper"
  | F_owner_usrnbr => "owner_usrnbr"
  | F_protection => "protection"
  | F_record_id => "record_id"
  | F_seqnbr => "seqnbr"
  | F_size => "size"
  | F_transnbr => "transnbr"
  | F_trans_record_type => "trans_record_type"
  | F_updat_time => "updat_time"
  | F_updat_usrnbr => "updat_usrnbr"
  | F_version => "version"
  end.

(** The two fields that hold a timestamp. *)
Definition is_timestamp (f : field) : bool :=
  match f with
  | F_creat_time | F_updat_time => true
  | _ => false
  end.

(** The keyword argument given for a field. *)
Definition kw_of (f : field) (k : kwargs) : pyval :=
  match f with
  | F_authorizer_usrnbr => kw_authorizer_usrnbr k
  | F_creat_time => kw_creat_time k
  | F_creat_usrnbr => kw_creat_usrnbr k
  | F_data => kw_data k
  | F_description => kw_description k
  | F_description2 => kw_description2 k
  | F_external_user => kw_external_user k
  | F_four_eye_on => kw_four_eye_on k
  | F_name => kw_name k
  | F_next_seqnbr => kw_next_seqnbr k
  | F_oper => kw_oper k
  | F_owner_usrnbr => kw_owner_usrnbr k
  | F_protection => kw_protection k
  | F_record_id => kw_record_id k
  | F_seqnbr => kw_seqnbr k
  | F_size => kw_size k
  | F_transnbr => kw_transnbr k
  | F_trans_record_type => kw_trans_record_type k
  | F_updat_time => kw_updat_time k
  | F_updat_usrnbr => kw_updat_usrnbr k
  | F_version => kw_version k
  end.

(** What the clock and the uuid generator hand out during one call:
    [datetime.now().isoformat()] of the error record, and the two
    [default_factory] values of the metadata fields. *)
Record Ambient := {
  now_isoformat : str;
  now_received : datetime;
  uuid4 : str;
  now_isoformat_scalar : scalar_text now_isoformat = true
}.

(** An argument of [datetime.fromtimestamp]. *)
Inductive pynum :=
| NumInt (n : Z)
| NumFloat (f : pyfloat).

(** The libraries and the interpreter under the program, as far as the
    program's results depend on their version, platform or configuration.

    - [validate_int], [validate_str]: pydantic's validation of an
      [Optional[int]] and of an [Optional[str]] field; [None] is a
      rejected value.  Which values are coerced depends on the pydantic
      version.  What every version does is all that is assumed: a
      missing value is taken, an [int] of 64 bits is taken for an integer
      field, and a text without lone surrogate is taken for a text field.
    - [fromtimestamp_isoformat]: [datetime.fromtimestamp(x).isoformat()]
      in the local time zone; [None] when [fromtimestamp] raises.
    - [repr_other]: [str(v)] of a float, list or dict.
    - [str_exn]: [str(e)] of an exception, a text without lone surrogate.
    - [recursion_depth]: how many nested JSON containers the decoder
      enters before [RecursionError].
    - [int_max_str_digits]: the limit on the length of a decimal integer
      literal ([None]: unlimited). *)
Record Runtime := {
  validate_int : pyval -> option (option Z);
  validate_str : pyval -> option (option str);
  fromtimestamp_isoformat : pynum -> option str;
  repr_other : pyval -> str;
  str_exn : exn -> str;
  recursion_depth : nat;
  int_max_str_digits : option nat;
  validate_int_None : validate_int PNone = Some None;
  validate_int_int :
    forall n, (- 2 ^ 63 <= n < 2 ^ 63)%Z -> validate_int (PInt n) = Some (Some n);
  validate_str_None : validate_str PNone = Some None;
  validate_str_str :
    forall s, scalar_text s = true -> validate_str (PStr s) = Some (Some s);
  str_exn_scalar : forall e, scalar_text (str_exn e) = true
}.

(** [str(v)]. *)
Definition py_str (R : Runtime) (v : pyval) : str :=
  match v with
  | PNone => py "None"
  | PBool true => py "True"
  | PBool false => py "False"
  | PInt n => str_of_Z n
  | PStr s => s
  | _ => repr_other R v
  end.

(** The constructor of the model: every field is validated, and all the
    rejected ones are reported in one [ValidationError]. *)
Section Constructor.
Context (R : Runtime) (amb : Ambient).

Definition rejected {A} (field : string) (v : pyval) (o : option (option A))
  : list (str * pyval) :=
  match o with
  | None => [(py field, v)]
  | Some _ => []
  end.

Definition accepted {A} (o : option (option A)) : option A :=
  match o with
  | Some x => x
  | None => None
  end.

Definition int_field (field : string) (v : pyval) :=
  (accepted (validate_int R v), rejected field v (validate_int R v)).

Definition str_field (field : string) (v : pyval) :=
  (accepted (validate_str R v), rejected field v (validate_str R v)).

Definition BronzeTransHst2_new (k : kwargs) : result BronzeTransHst2 :=
  let f1 := int_field "authorizer_usrnbr" (kw_authorizer_usrnbr k) in
  let f2 := str_field "creat_time" (kw_creat_time k) in
  let f3 := int_field "creat_usrnbr" (kw_creat_usrnbr k) in
  let f4 := str_field "data" (kw_data k) in
  let f5 := str_field "description" (kw_description k) in
  let f6 := str_field "description2" (kw_description2 k) in
  let f7 := str_field "external_user" (kw_external_user k) in
  let f8 := int_field "four_eye_on" (kw_four_eye_on k) in
  let f9 := str_field "name" (kw_name k) in
  let f10 := int_field "next_seqnbr" (kw_next_seqnbr k) in
  let f11 := int_field "oper" (kw_oper k) in
  let f12 := int_field "owner_usrnbr" (kw_owner_usrnbr k) in
  let f13 := int_field "protection" (kw_protection k) in
  let f14 := int_field "record_id" (kw_record_id k) in
  let f15 := int_field "seqnbr" (kw_seqnbr k) in
  let f16 := int_field "size" (kw_size k) in
  let f17 := int_field "transnbr" (kw_transnbr k) in
  let f18 := int_field "trans_record_type" (kw_trans_record_type k) in
  let f19 := str_field "updat_time" (kw_updat_time k) in
  let f20 := int_field "updat_usrnbr" (kw_updat_usrnbr k) in
  let f21 := int_field "version" (kw_version k) in
  let errors :=
    snd f1 ++ snd f2 ++ snd f3 ++ snd f4 ++ snd f5 ++ snd f6 ++ snd f7 ++
    snd f8 ++ snd f9 ++ snd f10 ++ snd f11 ++ snd f12 ++ snd f13 ++
    snd f14 ++ snd f15 ++ snd f16 ++ snd f17 ++ snd f18 ++ snd f19 ++
    snd f20 ++ snd f21 in
  match errors with
  | [] =>
      Ok {| authorizer_usrnbr := fst f1; creat_time := fst f2;
            creat_usrnbr := fst f3; data := fst f4; description := fst f5;
            description2 := fst f6; external_user := fst f7;
            four_eye_on := fst f8; name := fst f9; next_seqnbr := fst f10;
            oper := fst f11; owner_usrnbr := fst f12; protection := fst f13;
            record_id := fst f14; seqnbr := fst f15; size := fst f16;
            transnbr := fst f17; trans_record_type := fst f18;
            updat_time := fst f19; updat_usrnbr := fst f20;
            version := fst f21;
            received_at := now_received amb; processing_id := uuid4 amb |}
  | _ :: _ => Raise (ValidationError errors)
  end.
End Constructor.

(** No keyword argument given. *)
Definition no_kwargs : kwargs :=
  {| kw_authorizer_usrnbr := PNone; kw_creat_time := PNone;
     kw_creat_usrnbr := PNone; kw_data := PNone; kw_description := PNone;
     kw_description2 := PNone; kw_external_user := PNone;
     kw_four_eye_on := PNone; kw_name := PNone; kw_next_seqnbr := PNone;
     kw_oper := PNone; kw_owner_usrnbr := PNone; kw_protection := PNone;
     kw_record_id := PNone; kw_seqnbr := PNone; kw_size := PNone;
     kw_transnbr := PNone; kw_trans_record_type := PNone;
     kw_updat_time := PNone; kw_updat_usrnbr := PNone; kw_version := PNone |}.

(** ** Numbers in text *)

Definition is_ascii_digit (c : codepoint) : bool := (48 <=? c) && (c <=? 57).

(** The value of a run of ASCII digits. *)
Definition N_of_digits (ds : str) : N :=
  fold_left (fun acc c => 10 * acc + (c - 48)) ds 0.

(** The longest prefix of [s] made of characters of the class [cls], and
    what follows it. *)
Fixpoint span (cls : codepoint -> bool) (s : str) : str * str :=
  match s with
  | [] => ([], [])
  | c :: s' =>
      if cls c then let '(run, rest) := span cls s' in (c :: run, rest)
      else ([], s)
  end.

(** The float nearest to [m * 10 ^ e10] (ties to even), as [float(text)]
    computes it. *)
Definition float_of_decimal (neg : bool) (m : N) (e10 : Z) : pyfloat :=
  match m with
  | N0 => S754_zero neg
  | Npos p =>
      match e10 with
      | Zneg e =>
          SFdiv prec emax (S754_finite neg p 0)
                (S754_finite false (Pos.pow 10 e) 0)
      | _ => binary_round prec emax neg (p * Z.to_pos (10 ^ e10)) 0
      end
  end.

(** Whether a literal of [digits] decimal digits passes the interpreter's
    limit on integer conversion. *)
Definition within_digit_limit (R : Runtime) (digits : nat) : bool :=
  match int_max_str_digits R with
  | Some limit => (digits <=? limit)%nat
  | None => true
  end.

(** ** [json.loads] *)

Module Json.

Definition is_ws (c : codepoint) : bool :=
  (c =? 32) || (c =? 9) || (c =? 10) || (c =? 13).

Definition hex_value (c : codepoint) : option N :=
  if (48 <=? c) && (c <=? 57) then Some (c - 48)
  else if (97 <=? c) && (c <=? 102) then Some (c - 87)
  else if (65 <=? c) && (c <=? 70) then Some (c - 55)
  else None.

Definition hex4 (a b c d : codepoint) : option N :=
  match hex_value a, hex_value b, hex_value c, hex_value d with
  | Some x, Some y, Some z, Some w => Some (4096 * x + 256 * y + 16 * z + w)
  | _, _, _, _ => None
  end.

Definition is_high_surrogate (u : N) : bool := (0xD800 <=? u) && (u <=? 0xDBFF).
Definition is_low_surrogate (u : N) : bool := (0xDC00 <=? u) && (u <=? 0xDFFF).
Definition join_surrogates (hi lo : N) : N :=
  0x10000 + (hi - 0xD800) * 0x400 + (lo - 0xDC00).

(** The character a one-letter escape stands for. *)
Definition simple_escape (c : codepoint) : option codepoint :=
  if c =? QUOTE then Some QUOTE
  else if c =? BACKSLASH then Some BACKSLASH
  else if c =? 47 then Some 47
  else if c =? 98 then Some 8
  else if c =? 102 then Some 12
  else if c =? 110 then Some 10
  else if c =? 114 then Some 13
  else if c =? 116 then Some 9
  else None.

Definition cons_char (c : codepoint) (r : option (str * nat)) (used : nat)
  : option (str * nat) :=
  match r with
  | Some (txt, n) => Some (c :: txt, (used + n)%nat)
  | None => None
  end.

(** The string literal whose opening quote has just been read (strict
    mode): the decoded text and the number of code points up to and
    including the closing quote. [None] is a [JSONDecodeError]. *)
Fixpoint scanstring (s : str) : option (str * nat) :=
  match s with
  | [] => None
  | c :: s1 =>
      if c =? QUOTE then Some ([], 1%nat)
      else if c =? BACKSLASH then
        match s1 with
        | [] => None
        | e :: s2 =>
            if e =? 117 then
              match s2 with
              | h1 :: h2 :: h3 :: h4 :: s3 =>
                  match hex4 h1 h2 h3 h4 with
                  | None => None
                  | Some u =>
                      let lone := cons_char u (scanstring s3) 6 in
                      if is_high_surrogate u then
                        match s3 with
                        | b :: s4 =>
                            if b =? BACKSLASH then
                              match s4 with
                              | v :: l1 :: l2 :: l3 :: l4 :: s5 =>
                                  if v =? 117 then
                                    match hex4 l1 l2 l3 l4 with
                                    | None => None
                                    | Some u2 =>
                                        if is_low_surrogate u2 then
                                          cons_char (join_surrogates u u2)
                                                    (scanstring s5) 12
                                        else lone
                                    end
                                  else lone
                              | _ => lone
                              end
                            else lone
                        | [] => lone
                        end
                      else lone
                  end
              | _ => None
              end
            else
              match simple_escape e with
              | Some ch => cons_char ch (scanstring s2) 2
              | None => None
              end
        end
      else if c <=? 0x1f then None
      else cons_char c (scanstring s1) 1
  end.

(** A number literal: sign, integer digits, fraction digits, exponent. *)
Record number := {
  negative : bool;
  int_digits : str;
  frac_digits : option str;
  exponent : option (bool * str)
}.

(** The longest number literal at the start of [s] and its length. *)
Definition match_number (s : str) : option (number * nat) :=
  let '(neg, s1) :=
    match s with
    | 45 :: s1 => (true, s1)
    | _ => (false, s)
    end in
  let sign_len := if neg then 1%nat else 0%nat in
  let int_part :=
    match s1 with
    | 48 :: s2 => Some ([48], s2)
    | c :: _ => if is_ascii_digit c then Some (span is_ascii_digit s1) else None
    | [] => None
    end in
  match int_part with
  | None => None
  | Some (ds, s2) =>
      let '(frac, s3) :=
        match s2 with
        | 46 :: s2' =>
            match span is_ascii_digit s2' with
            | ([], _) => (None, s2)
            | (fs, rest) => (Some fs, rest)
            end
        | _ => (None, s2)
        end in
      let frac_len :=
        match frac with Some fs => S (length fs) | None => 0%nat end in
      let '(ex, exp_len) :=
        match s3 with
        | e :: s3' =>
            if (e =? 101) || (e =? 69) then
              let '(eneg, signed, s4) :=
                match s3' with
                | 45 :: s4 => (true, 1%nat, s4)
                | 43 :: s4 => (false, 1%nat, s4)
                | _ => (false, 0%nat, s3')
                end in
              match span is_ascii_digit s4 with
              | ([], _) => (None, 0%nat)
              | (es, _) => (Some (eneg, es), (1 + signed + length es)%nat)
              end
            else (None, 0%nat)
        | [] => (None, 0%nat)
        end in
      Some ({| negative := neg; int_digits := ds;
               frac_digits := frac; exponent := ex |},
            (sign_len + length ds + frac_len + exp_len)%nat)
  end.

(** The Python number a literal denotes: a float if it has a fraction
    or an exponent, else an int. *)
Definition number_value (R : Runtime) (n : number) : result pyval :=
  match frac_digits n, exponent n with
  | None, None =>
      if within_digit_limit R (length (int_digits n)) then
        let m := Z.of_N (N_of_digits (int_digits n)) in
        Ok (PInt (if negative n then - m else m)%Z)
      else Raise ValueError
  | _, _ =>
      let fs := match frac_digits n with Some fs => fs | None => [] end in
      let e :=
        match exponent n with
        | Some (true, es) => (- Z.of_N (N_of_digits es))%Z
        | Some (false, es) => Z.of_N (N_of_digits es)
        | None => 0%Z
        end in
      Ok (PFloat (float_of_decimal (negative n)
                    (N_of_digits (int_digits n ++ fs))
                    (e - Z.of_nat (length fs))%Z))
  end.

(** The containers being read, innermost first. *)
Inductive frame :=
| FArray (rev_items : list pyval)
| FObject (members : list (str * pyval))
| FMember (members : list (str * pyval)) (key : str).

(** What the scanner expects next. *)
Inductive mode :=
| Value
| ValueOrEnd
| KeyOrEnd
| Key
| Colon
| Next.

Inductive state :=
| Scanning (m : mode) (stack : list frame)
| Done (v : pyval)
| Halt (e : exn).

(** A value is complete: it is the document, an item of the enclosing
    array or the value of the pending member. *)
Definition deliver (v : pyval) (stack : list frame) : state :=
  match stack with
  | [] => Done v
  | FArray items :: st => Scanning Next (FArray (v :: items) :: st)
  | FMember d key :: st => Scanning Next (FObject (dict_setitem key v d) :: st)
  | FObject _ :: _ => Halt JSONDecodeError
  end.

Definition enter (R : Runtime) (f : frame) (m : mode) (stack : list frame)
  : state :=
  if (length stack <? recursion_depth R)%nat then Scanning m (f :: stack)
  else Halt RecursionError.

Definition constant (word : string) (v : pyval) (stack : list frame)
  (c : codepoint) (rest : str) (otherwise : state * nat) : state * nat :=
  if startswith (py word) (c :: rest)
  then (deliver v stack, pred (length (py word)))
  else otherwise.

(** A value starts at [c :: rest]. *)
Definition scan_value (R : Runtime) (stack : list frame) (c : codepoint)
  (rest : str) : state * nat :=
  let number :=
    match match_number (c :: rest) with
    | Some (n, len) =>
        (match number_value R n with
         | Ok v => deliver v stack
         | Raise e => Halt e
         end, pred len)
    | None => (Halt JSONDecodeError, 0%nat)
    end in
  if c =? QUOTE then
    match scanstring rest with
    | Some (txt, len) => (deliver (PStr txt) stack, len)
    | None => (Halt JSONDecodeError, 0%nat)
    end
  else if c =? 123 then (enter R (FObject []) KeyOrEnd stack, 0%nat)
  else if c =? 91 then (enter R (FArray []) ValueOrEnd stack, 0%nat)
  else
    constant "null" PNone stack c rest
   (constant "true" (PBool true) stack c rest
   (constant "false" (PBool false) stack c rest
   (constant "NaN" (PFloat S754_nan) stack c rest
   (constant "Infinity" (PFloat (S754_infinity false)) stack c rest
   (constant "-Infinity" (PFloat (S754_infinity true)) stack c rest
    number))))).

Definition scan_key (stack : list frame) (members : list (str * pyval))
  (rest : str) : state * nat :=
  match scanstring rest with
  | Some (key, len) => (Scanning Colon (FMember members key :: stack), len)
  | None => (Halt JSONDecodeError, 0%nat)
  end.

(** One step at the significant character [c], followed by [rest]: the
    next state and how many characters of [rest] the step has used. *)
Definition step (R : Runtime) (st : state) (c : codepoint) (rest : str)
  : state * nat :=
  match st with
  | Halt e => (Halt e, 0%nat)
  | Done _ => (Halt JSONDecodeError, 0%nat)
  | Scanning Value stack => scan_value R stack c rest
  | Scanning ValueOrEnd (FArray items :: stack) =>
      if c =? 93 then (deliver (PList (rev items)) stack, 0%nat)
      else scan_value R (FArray items :: stack) c rest
  | Scanning KeyOrEnd (FObject d :: stack) =>
      if c =? 125 then (deliver (PDict d) stack, 0%nat)
      else if c =? QUOTE then scan_key stack d rest
      else (Halt JSONDecodeError, 0%nat)
  | Scanning Key (FObject d :: stack) =>
      if c =? QUOTE then scan_key stack d rest
      else (Halt JSONDecodeError, 0%nat)
  | Scanning Colon stack =>
      if c =? 58 then (Scanning Value stack, 0%nat)
      else (Halt JSONDecodeError, 0%nat)
  | Scanning Next (FArray items :: stack) =>
      if c =? 44 then (Scanning Value (FArray items :: stack), 0%nat)
      else if c =? 93 then (deliver (PList (rev items)) stack, 0%nat)
      else (Halt JSONDecodeError, 0%nat)
  | Scanning Next (FObject d :: stack) =>
      if c =? 44 then (Scanning Key (FObject d :: stack), 0%nat)
      else if c =? 125 then (deliver (PDict d) stack, 0%nat)
      else (Halt JSONDecodeError, 0%nat)
  | Scanning _ _ => (Halt JSONDecodeError, 0%nat)
  end.

(** The scanner reads the text from left to right; [skip] characters
    belong to the token the last step has read. *)
Fixpoint run (R : Runtime) (skip : nat) (st : state) (s : str) : state :=
  match s with
  | [] => st
  | c :: rest =>
      match skip with
      | S k => run R k st rest
      | O =>
          match st with
          | Halt e => Halt e
          | _ =>
              if is_ws c then run R 0 st rest
              else let '(st', used) := step R st c rest in run R used st' rest
          end
      end
  end.

(** [json.loads(s)] for a [str]. *)
Definition loads (R : Runtime) (s : str) : result pyval :=
  if startswith [0xFEFF] s then Raise JSONDecodeError
  else
    match run R 0 (Scanning Value []) s with
    | Done v => Ok v
    | Halt e => Raise e
    | Scanning _ _ => Raise JSONDecodeError
    end.

End Json.

(** ** Unicode character classes *)

(** [str.isspace] of one character; also the class [\s] of [re]. *)
Definition is_space (c : codepoint) : bool :=
  ((9 <=? c) && (c <=? 13)) || ((0x1C <=? c) && (c <=? 0x20)) ||
  (c =? 0x85) || (c =? 0xA0) || (c =? 0x1680) ||
  ((0x2000 <=? c) && (c <=? 0x200A)) || (c =? 0x2028) || (c =? 0x2029) ||
  (c =? 0x202F) || (c =? 0x205F) || (c =? 0x3000).

(** The blocks of decimal digits (general category Nd, Unicode 14): first
    code point and length.  Inside a block the digit values count up
    from zero, ten by ten. *)
Definition decimal_blocks : list (N * N) :=
  [(0x30, 10); (0x660, 10); (0x6F0, 10); (0x7C0, 10); (0x966, 10);
   (0x9E6, 10); (0xA66, 10); (0xAE6, 10); (0xB66, 10); (0xBE6, 10);
   (0xC66, 10); (0xCE6, 10); (0xD66, 10); (0xDE6, 10); (0xE50, 10);
   (0xED0, 10); (0xF20, 10); (0x1040, 10); (0x1090, 10); (0x17E0, 10);
   (0x1810, 10); (0x1946, 10); (0x19D0, 10); (0x1A80, 10); (0x1A90, 10);
   (0x1B50, 10); (0x1BB0, 10); (0x1C40, 10); (0x1C50, 10); (0xA620, 10);
   (0xA8D0, 10); (0xA900, 10); (0xA9D0, 10); (0xA9F0, 10); (0xAA50, 10);
   (0xABF0, 10); (0xFF10, 10); (0x104A0, 10); (0x10D30, 10); (0x11066, 10);
   (0x110F0, 10); (0x11136, 10); (0x111D0, 10); (0x112F0, 10); (0x11450, 10);
   (0x114D0, 10); (0x11650, 10); (0x116C0, 10); (0x11730, 10); (0x118E0, 10);
   (0x11950, 10); (0x11C50, 10); (0x11D50, 10); (0x11DA0, 10); (0x16A60, 10);
   (0x16AC0, 10); (0x16B50, 10); (0x1D7CE, 50); (0x1E140, 10); (0x1E2F0, 10);
   (0x1E950, 10); (0x1FBF0, 10)].

Fixpoint decimal_in (blocks : list (N * N)) (c : codepoint) : option N :=
  match blocks with
  | [] => None
  | (first, len) :: blocks' =>
      if (first <=? c) && (c <? first + len) then Some ((c - first) mod 10)
      else decimal_in blocks' c
  end.

(** The digit value of a decimal digit ([str.isdecimal]). *)
Definition decimal_value (c : codepoint) : option N := decimal_in decimal_blocks c.

(** The class [\d] of [re] on text. *)
Definition is_decimal (c : codepoint) : bool :=
  match decimal_value c with Some _ => true | None => false end.

(** ** [int(text)] *)

(** The white space [int] strips: [is_space] without the four ASCII
    separators 0x1C to 0x1F. *)
Definition is_int_space (c : codepoint) : bool :=
  is_space c && negb ((0x1C <=? c) && (c <=? 0x1F)).

Fixpoint lstrip (s : str) : str :=
  match s with
  | c :: s' => if is_int_space c then lstrip s' else s
  | [] => []
  end.

(** Digits with single underscores between them, up to trailing white
    space: the value and the number of digits.  [after_digit] tells
    whether the last character read was a digit. *)
Fixpoint digits_and_underscores (s : str) (after_digit : bool) (acc : N) (count : nat)
  : option (N * nat) :=
  match s with
  | [] => if after_digit then Some (acc, count) else None
  | c :: s' =>
      match decimal_value c with
      | Some d => digits_and_underscores s' true (10 * acc + d) (S count)
      | None =>
          if c =? 95 then
            if after_digit then digits_and_underscores s' false acc count else None
          else if after_digit && forallb is_int_space s then Some (acc, count)
          else None
      end
  end.

(** [int(s)] in base ten; [None] is a [ValueError]. *)
Definition py_int (R : Runtime) (s : str) : option Z :=
  let s1 := lstrip s in
  let '(neg, s2) :=
    match s1 with
    | 45 :: s2 => (true, s2)
    | 43 :: s2 => (false, s2)
    | _ => (false, s1)
    end in
  match digits_and_underscores s2 false 0 0 with
  | Some (m, count) =>
      if within_digit_limit R count
      then Some (if neg then - Z.of_N m else Z.of_N m)%Z
      else None
  | None => None
  end.

(** ** [re.search] for the patterns of the fallback parser *)

Module Re.

Inductive class := Space | Digit | NotQuote.

Definition in_class (k : class) (c : codepoint) : bool :=
  match k with
  | Space => is_space c
  | Digit => is_decimal c
  | NotQuote => negb (c =? QUOTE)
  end.

(** The constructs the patterns use: a literal character, a greedy
    repetition of a class (at least once when [plus]), and the two
    ends of the capturing group. *)
Inductive node :=
| Lit (c : codepoint)
| Many (plus : bool) (k : class)
| GroupOpen
| GroupClose.

Definition pattern := list node.

Definition lits (s : str) : pattern := List.map Lit s.

(** A match of [p] at the start of [s], by backtracking; the result
    is the text of group 1.  [opened] is the text from where the
    group starts. *)
Fixpoint match_here (p : pattern) (s : str) (opened captured : str)
  : option str :=
  match p with
  | [] => Some captured
  | Lit c :: p' =>
      match s with
      | x :: s' => if x =? c then match_here p' s' opened captured else None
      | [] => None
      end
  | GroupOpen :: p' => match_here p' s s captured
  | GroupClose :: p' =>
      match_here p' s opened (take (length opened - length s) opened)
  | Many plus k :: p' =>
      (fix greedy (s : str) (need : bool) : option str :=
         let stop := if need then None else match_here p' s opened captured in
         match s with
         | x :: s' =>
             if in_class k x then
               match greedy s' false with
               | Some r => Some r
               | None => stop
               end
             else stop
         | [] => stop
         end) s plus
  end.

(** [re.search(p, s).group(1)]: the leftmost match. *)
Fixpoint search (p : pattern) (s : str) : option str :=
  match match_here p s [] [] with
  | Some g => Some g
  | None =>
      match s with
      | [] => None
      | _ :: s' => search p s'
      end
  end.

End Re.

(** ** [bytes.decode('utf-8')] *)

Definition continuation (b : N) : bool := (0x80 <=? b) && (b <=? 0xBF).

Fixpoint utf8_decode (bs : list N) : result str :=
  match bs with
  | [] => Ok []
  | b1 :: t1 =>
      if b1 <? 0x80 then
        let* s := utf8_decode t1 in Ok (b1 :: s)
      else if (0xC2 <=? b1) && (b1 <=? 0xDF) then
        match t1 with
        | b2 :: t2 =>
            if continuation b2 then
              let* s := utf8_decode t2 in
              Ok (((b1 - 0xC0) * 64 + (b2 - 0x80)) :: s)
            else Raise UnicodeDecodeError
        | _ => Raise UnicodeDecodeError
        end
      else if (0xE0 <=? b1) && (b1 <=? 0xEF) then
        match t1 with
        | b2 :: b3 :: t3 =>
            if continuation b2 && continuation b3 &&
               negb ((b1 =? 0xE0) && (b2 <? 0xA0)) &&
               negb ((b1 =? 0xED) && (0xA0 <=? b2))
            then
              let* s := utf8_decode t3 in
              Ok (((b1 - 0xE0) * 4096 + (b2 - 0x80) * 64 + (b3 - 0x80)) :: s)
            else Raise UnicodeDecodeError
        | _ => Raise UnicodeDecodeError
        end
      else if (0xF0 <=? b1) && (b1 <=? 0xF4) then
        match t1 with
        | b2 :: b3 :: b4 :: t4 =>
            if continuation b2 && continuation b3 && continuation b4 &&
               negb ((b1 =? 0xF0) && (b2 <? 0x90)) &&
               negb ((b1 =? 0xF4) && (0x90 <=? b2))
            then
              let* s := utf8_decode t4 in
              Ok (((b1 - 0xF0) * 262144 + (b2 - 0x80) * 4096 +
                   (b3 - 0x80) * 64 + (b4 - 0x80)) :: s)
            else Raise UnicodeDecodeError
        | _ => Raise UnicodeDecodeError
        end
      else Raise UnicodeDecodeError
  end.

(** A request body; [body.decode('utf-8')]. *)
Definition bytes := list Byte.byte.

Definition decode_utf8 (body : bytes) : result str :=
  utf8_decode (List.map Byte.to_N body).

(** ** Operations on Python values *)

(** [key in container] for a text [key]. *)
Definition py_contains (key : str) (container : pyval) : result bool :=
  match container with
  | PDict d => Ok (match dict_lookup key d with Some _ => true | None => false end)
  | PList l =>
      Ok (existsb (fun v => match v with PStr s => str_eqb key s | _ => false end) l)
  | PStr s => Ok (str_contains key s)
  | _ => Raise (TypeError NotIterable container)
  end.

(** [container[key]] for a text [key]. *)
Definition py_getitem (container : pyval) (key : str) : result pyval :=
  match container with
  | PDict d =>
      match dict_lookup key d with
      | Some v => Ok v
      | None => Raise (KeyError key)
      end
  | _ => Raise (TypeError BadIndex container)
  end.

(** [obj.get(key)]: only a dict has the method. *)
Definition py_get (obj : pyval) (key : string) : result pyval :=
  match obj with
  | PDict d =>
      Ok (match dict_lookup (py key) d with Some v => v | None => PNone end)
  | _ => Raise (AttributeError obj)
  end.

(** [1e12]. *)
Definition float_1e12 : pyfloat := binary_round prec emax false 1000000000000 0.

(** [v > 1e12] for a number. *)
Definition gt_1e12 (v : pynum) : bool :=
  match v with
  | NumInt n => (1000000000000 <? n)%Z
  | NumFloat f => SFltb float_1e12 f
  end.

(** [v / 1000]: true division, which yields a float. *)
Definition truediv_1000 (v : pynum) : result pyfloat :=
  match v with
  | NumInt n =>
      let q :=
        match n with
        | Z0 => S754_zero false
        | Zpos p => SFdiv prec emax (S754_finite false p 0) (S754_finite false 1000 0)
        | Zneg p => SFdiv prec emax (S754_finite true p 0) (S754_finite false 1000 0)
        end in
      match q with
      | S754_infinity _ => Raise OverflowError
      | _ => Ok q
      end
  | NumFloat f => Ok (SFdiv prec emax f (binary_round prec emax false 1000 0))
  end.

(** ** The message parser *)

Module ConfluentMessageParser.
Section Parser.
Context (R : Runtime) (amb : Ambient).

(** [datetime.fromtimestamp(x)], which may raise. *)
Definition fromtimestamp (x : pynum) : result str :=
  match fromtimestamp_isoformat R x with
  | Some iso => Ok iso
  | None => Raise ValueError
  end.

(** The body of the [try] of [_convert_timestamp] for a number. *)
Definition convert_epoch (x : pynum) : result str :=
  if gt_1e12 x then
    let* secs := truediv_1000 x in fromtimestamp (NumFloat secs)
  else fromtimestamp x.

Definition _convert_timestamp (timestamp_value : pyval) : option str :=
  if negb (truthy timestamp_value) then None
  else
    let fallback := Some (py_str R timestamp_value) in
    let numeric x :=
      match convert_epoch x with
      | Ok iso => Some iso
      | Raise _ => fallback
      end in
    match timestamp_value with
    | PStr s => Some s
    | PInt n => numeric (NumInt n)
    | PBool b => numeric (NumInt (if b then 1 else 0)%Z)
    | PFloat f => numeric (NumFloat f)
    | _ => fallback
    end.

Definition of_option_str (o : option str) : pyval :=
  match o with
  | Some s => PStr s
  | None => PNone
  end.

Definition _create_error_record (raw_data error_msg : str)
  : result BronzeTransHst2 :=
  BronzeTransHst2_new R amb
    {| kw_authorizer_usrnbr := PNone;
       kw_creat_time := PStr (now_isoformat amb);
       kw_creat_usrnbr := PNone;
       kw_data := PStr (py "PARSE_ERROR: " ++ error_msg);
       kw_description :=
         PStr (take 100 raw_data ++
               (if (100 <? length raw_data)%nat then py "..." else []));
       kw_description2 := PNone; kw_external_user := PNone;
       kw_four_eye_on := PNone;
       kw_name := PStr (py "PARSING_FAILED");
       kw_next_seqnbr := PNone; kw_oper := PNone; kw_owner_usrnbr := PNone;
       kw_protection := PNone;
       kw_record_id := PInt (-1);
       kw_seqnbr := PNone; kw_size := PNone; kw_transnbr := PNone;
       kw_trans_record_type := PNone; kw_updat_time := PNone;
       kw_updat_usrnbr := PNone; kw_version := PNone |}.

(** The keyword arguments [_parse_json_message] builds. *)
Definition json_kwargs (json_data : pyval) : result kwargs :=
  let* has_value := py_contains (py "value") json_data in
  let* data :=
    if has_value then py_getitem json_data (py "value")
    else
      let* has_payload := py_contains (py "payload") json_data in
      if has_payload then py_getitem json_data (py "payload")
      else Ok json_data in
  let* creat_time_value := py_get data "creat_time" in
  let creat_time := _convert_timestamp creat_time_value in
  let* updat_time_value := py_get data "updat_time" in
  let updat_time := _convert_timestamp updat_time_value in
  let* authorizer_usrnbr := py_get data "authorizer_usrnbr" in
  let* creat_usrnbr := py_get data "creat_usrnbr" in
  let* data_ := py_get data "data" in
  let* description := py_get data "description" in
  let* description2 := py_get data "description2" in
  let* external_user := py_get data "external_user" in
  let* four_eye_on := py_get data "four_eye_on" in
  let* name := py_get data "name" in
  let* next_seqnbr := py_get data "next_seqnbr" in
  let* oper := py_get data "oper" in
  let* owner_usrnbr := py_get data "owner_usrnbr" in
  let* protection := py_get data "protection" in
  let* record_id := py_get data "record_id" in
  let* seqnbr := py_get data "seqnbr" in
  let* size := py_get data "size" in
  let* transnbr := py_get data "transnbr" in
  let* trans_record_type := py_get data "trans_record_type" in
  let* updat_usrnbr := py_get data "updat_usrnbr" in
  let* version := py_get data "version" in
  Ok
    {| kw_authorizer_usrnbr := authorizer_usrnbr;
       kw_creat_time := of_option_str creat_time;
       kw_creat_usrnbr := creat_usrnbr;
       kw_data := data_;
       kw_description := description;
       kw_description2 := description2;
       kw_external_user := external_user;
       kw_four_eye_on := four_eye_on;
       kw_name := name;
       kw_next_seqnbr := next_seqnbr;
       kw_oper := oper;
       kw_owner_usrnbr := owner_usrnbr;
       kw_protection := protection;
       kw_record_id := record_id;
       kw_seqnbr := seqnbr;
       kw_size := size;
       kw_transnbr := transnbr;
       kw_trans_record_type := trans_record_type;
       kw_updat_time := of_option_str updat_time;
       kw_updat_usrnbr := updat_usrnbr;
       kw_version := version |}.

Definition _parse_json_message (json_data : pyval) : result BronzeTransHst2 :=
  let* arguments := json_kwargs json_data in
  BronzeTransHst2_new R amb arguments.

(** The four patterns of [extract_value], in the order they are tried. *)
Definition field_prefix (field_name : str) : Re.pattern :=
  [Re.Lit QUOTE] ++ Re.lits field_name ++
  [Re.Lit QUOTE; Re.Many false Re.Space; Re.Lit 58; Re.Many false Re.Space].

Definition wrapped (type_name : string) : Re.pattern :=
  [Re.Lit 123; Re.Many false Re.Space; Re.Lit QUOTE] ++
  Re.lits (py type_name) ++
  [Re.Lit QUOTE; Re.Many false Re.Space; Re.Lit 58; Re.Many false Re.Space].

Definition number_group : Re.pattern :=
  [Re.GroupOpen; Re.Many true Re.Digit; Re.GroupClose].

Definition string_group : Re.pattern :=
  [Re.Lit QUOTE; Re.GroupOpen; Re.Many true Re.NotQuote; Re.GroupClose;
   Re.Lit QUOTE].

Definition closing : Re.pattern := [Re.Many false Re.Space; Re.Lit 125].

Definition patterns (field_name : str) : list Re.pattern :=
  [field_prefix field_name ++ wrapped "int" ++ number_group ++ closing;
   field_prefix field_name ++ wrapped "string" ++ string_group ++ closing;
   field_prefix field_name ++ number_group;
   field_prefix field_name ++ string_group].

(** The loop over the patterns: the first one that matches decides. *)
Fixpoint first_match (ps : list Re.pattern) (avro_string : str) : pyval :=
  match ps with
  | [] => PNone
  | pattern :: ps' =>
      match Re.search pattern avro_string with
      | Some value =>
          match py_int R value with
          | Some n => PInt n
          | None => PStr value
          end
      | None => first_match ps' avro_string
      end
  end.

Definition extract_value (avro_string : str) (field_name : string) : pyval :=
  first_match (patterns (py field_name)) avro_string.

(** The keyword arguments [_parse_avro_string] builds. *)
Definition avro_kwargs (avro_string : str) : kwargs :=
  {| kw_authorizer_usrnbr := extract_value avro_string "authorizer_usrnbr";
     kw_creat_time := extract_value avro_string "creat_time";
     kw_creat_usrnbr := extract_value avro_string "creat_usrnbr";
     kw_data := extract_value avro_string "data";
     kw_description := extract_value avro_string "description";
     kw_description2 := extract_value avro_string "description2";
     kw_external_user := extract_value avro_string "external_user";
     kw_four_eye_on := extract_value avro_string "four_eye_on";
     kw_name := extract_value avro_string "name";
     kw_next_seqnbr := extract_value avro_string "next_seqnbr";
     kw_oper := extract_value avro_string "oper";
     kw_owner_usrnbr := extract_value avro_string "owner_usrnbr";
     kw_protection := extract_value avro_string "protection";
     kw_record_id := extract_value avro_string "record_id";
     kw_seqnbr := extract_value avro_string "seqnbr";
     kw_size := extract_value avro_string "size";
     kw_transnbr := extract_value avro_string "transnbr";
     kw_trans_record_type := extract_value avro_string "trans_record_type";
     kw_updat_time := extract_value avro_string "updat_time";
     kw_updat_usrnbr := extract_value avro_string "updat_usrnbr";
     kw_version := extract_value avro_string "version" |}.

Definition _parse_avro_string (avro_string : str) : result BronzeTransHst2 :=
  BronzeTransHst2_new R amb (avro_kwargs avro_string).

(** The inner [try]: JSON first, the fallback on [JSONDecodeError]. *)
Definition parse_either (raw_data : str) : result BronzeTransHst2 :=
  match (let* json_data := Json.loads R raw_data in
         _parse_json_message json_data) with
  | Raise JSONDecodeError => _parse_avro_string raw_data
  | outcome => outcome
  end.

Definition parse_confluent_message (raw_data : str) : result BronzeTransHst2 :=
  match parse_either raw_data with
  | Ok record => Ok record
  | Raise e => _create_error_record raw_data (str_exn R e)
  end.

End Parser.
End ConfluentMessageParser.

(** ** The in-memory storage and the endpoints *)

(** The two module-level variables. *)
Record Store := {
  record_counter : Z;
  bronze_storage : list BronzeTransHst2
}.

Definition initial_store : Store :=
  {| record_counter := 0; bronze_storage := [] |}.

(** A handler returns its value or raises [HTTPException]. *)
Inductive response (A : Type) :=
| Returns (a : A)
| HTTPException (status_code : Z) (detail : str).
Arguments Returns {A} a.
Arguments HTTPException {A} status_code detail.

(** The body of the answer of the POST endpoint. *)
Record Receipt := {
  total_count : Z;
  receipt_record_id : option Z;
  receipt_processing_id : str;
  receipt_received_at : datetime
}.

(** [l[-10:]]. *)
Definition last_10 {A} (l : list A) : list A := drop (length l - 10) l.

(** The lines under "Store record" and "Keep only last 10 records". *)
Definition store_record (bronze_record : BronzeTransHst2) (st : Store) : Store :=
  let storage := bronze_storage st ++ [bronze_record] in
  let counter := (record_counter st + 1)%Z in
  {| record_counter := counter;
     bronze_storage :=
       if (10 <? length storage)%nat then last_10 storage else storage |}.

Definition receive_bronze_record (R : Runtime) (amb : Ambient) (raw_body : bytes)
  (st : Store) : response Receipt * Store :=
  match (let* raw_data := decode_utf8 raw_body in
         ConfluentMessageParser.parse_confluent_message R amb raw_data) with
  | Ok bronze_record =>
      let st' := store_record bronze_record st in
      (Returns {| total_count := record_counter st';
                  receipt_record_id := record_id bronze_record;
                  receipt_processing_id := processing_id bronze_record;
                  receipt_received_at := received_at bronze_record |}, st')
  | Raise e =>
      (HTTPException 400 (py "Failed to process record: " ++ str_exn R e), st)
  end.

(** GET: the counter and the stored records, newest first. *)
Definition get_bronze_records (st : Store) : Z * list BronzeTransHst2 :=
  (record_counter st, rev (bronze_storage st)).

Record Stats := {
  total_records : Z;
  current_storage : nat;
  unique_record_ids : nat;
  unique_users : nat;
  last_record_id : option Z
}.

(** The test [if x] on an optional integer: [None] and [0] fail it. *)
Definition if_truthy (x : option Z) : option Z :=
  match x with
  | Some n => if (n =? 0)%Z then None else Some n
  | None => None
  end.

(** [max(l)] of a non-empty list, [None] for the empty one. *)
Definition max_or_None (l : list Z) : option Z :=
  match l with
  | [] => None
  | x :: l' => Some (foldl Z.max x l')
  end.

Definition get_bronze_stats (st : Store) : Stats :=
  let record_ids : list Z :=
    omap (fun r => if_truthy (record_id r)) (bronze_storage st) in
  let unique_users : gset Z :=
    list_to_set (omap (fun r => if_truthy (creat_usrnbr r)) (bronze_storage st)) in
  {| total_records := record_counter st;
     current_storage := length (bronze_storage st);
     unique_record_ids :=
       match record_ids with
       | [] => 0%nat
       | _ :: _ => base.size (list_to_set record_ids : gset Z)
       end;
     unique_users := base.size unique_users;
     last_record_id := max_or_None record_ids |}.

(** POST reset: the previous count, and both variables cleared. *)
Definition reset_bronze_counters (st : Store) : Z * Store :=
  (record_counter st, initial_store).

(** ** A runtime to evaluate the program on

    A host whose local time is UTC, a validation that takes exactly the
    values every pydantic version takes (a missing value, an [int] for an
    integer field, a [str] for a text field), the limits of CPython 3.11,
    and exception texts cut down to the name of the exception. *)

Module UtcHost.

Local Open Scope Z_scope.

(** The civil date of a day number counted from 1970-01-01. *)
Definition civil_from_days (days : Z) : Z * Z * Z :=
  let z := days + 719468 in
  let era := z / 146097 in
  let doe := z - era * 146097 in
  let yoe := (doe - doe / 1460 + doe / 36524 - doe / 146096) / 365 in
  let doy := doe - (365 * yoe + yoe / 4 - yoe / 100) in
  let mp := (5 * doy + 2) / 153 in
  let d := doy - (153 * mp + 2) / 5 + 1 in
  let m := if mp <? 10 then mp + 3 else mp - 9 in
  let y := yoe + era * 400 + (if m <=? 2 then 1 else 0) in
  (y, m, d).

(** A number in decimal, padded with zeros to [width] digits. *)
Definition padded (width : nat) (n : Z) : str :=
  let digits := str_of_N (Z.to_N n) in
  replicate (width - length digits) 48%N ++ digits.

(** [datetime.isoformat()] of the moment [secs] seconds and [micros]
    microseconds after the epoch.  [fromtimestamp] takes a moment from
    0001-01-02 (it also looks one day back) to the end of year 9999. *)
Definition isoformat (secs micros : Z) : option str :=
  let '(y, m, d) := civil_from_days (secs / 86400) in
  let rem := secs mod 86400 in
  if (-62135510400 <=? secs) && (y <=? 9999) then
    Some (padded 4 y ++ [45%N] ++ padded 2 m ++ [45%N] ++ padded 2 d ++
          [84%N] ++ padded 2 (rem / 3600) ++ [58%N] ++
          padded 2 (rem mod 3600 / 60) ++ [58%N] ++ padded 2 (rem mod 60) ++
          (if micros =? 0 then [] else 46%N :: padded 6 micros))
  else None.

(** The integer nearest to a float, ties to even. *)
Definition round_half_even (f : pyfloat) : Z :=
  match f with
  | S754_finite s m e =>
      let magnitude :=
        if 0 <=? e then Zpos m * 2 ^ e
        else
          let unit := 2 ^ (- e) in
          let q := Zpos m / unit in
          let r := 2 * (Zpos m mod unit) in
          if r <? unit then q
          else if unit <? r then q + 1
          else if Z.even q then q else q + 1 in
      if s then - magnitude else magnitude
  | _ => 0
  end.

(** The whole seconds and the microseconds of a float timestamp, as
    [datetime.fromtimestamp] splits it: the fraction is scaled in
    floating point and then rounded, ties to even. *)
Definition split_float (f : pyfloat) : option (Z * Z) :=
  match f with
  | S754_zero _ => Some (0, 0)
  | S754_finite s m e =>
      let unit := 2 ^ (- e) in
      let whole := if 0 <=? e then Zpos m * 2 ^ e else Zpos m / unit in
      let part := if 0 <=? e then 0 else Zpos m mod unit in
      let fraction := binary_normalize prec emax (if s then - part else part) e false in
      let scaled :=
        round_half_even
          (SFmul prec emax fraction (binary_round prec emax false 1000000 0)) in
      let whole := if s then - whole else whole in
      Some (if 1000000 <=? scaled then (whole + 1, scaled - 1000000)
            else if scaled <? 0 then (whole - 1, scaled + 1000000)
            else (whole, scaled))
  | _ => None
  end.

Definition fromtimestamp_utc (x : pynum) : option str :=
  match x with
  | NumInt n => isoformat n 0
  | NumFloat f =>
      match split_float f with
      | Some (secs, micros) => isoformat secs micros
      | None => None
      end
  end.

Definition exception_name (e : exn) : str :=
  match e with
  | JSONDecodeError => py "JSONDecodeError"
  | RecursionError => py "RecursionError"
  | ValueError => py "ValueError"
  | OverflowError => py "OverflowError"
  | KeyError _ => py "KeyError"
  | TypeError _ _ => py "TypeError"
  | AttributeError _ => py "AttributeError"
  | ValidationError _ => py "ValidationError"
  | UnicodeDecodeError => py "UnicodeDecodeError"
  end.

Definition exact_int (v : pyval) : option (option Z) :=
  match v with
  | PNone => Some None
  | PInt n => Some (Some n)
  | _ => None
  end.

Definition exact_str (v : pyval) : option (option str) :=
  match v with
  | PNone => Some None
  | PStr s => Some (Some s)
  | _ => None
  end.

Definition runtime : Runtime :=
  {| validate_int := exact_int;
     validate_str := exact_str;
     fromtimestamp_isoformat := fromtimestamp_utc;
     repr_other := fun _ => py "<object>";
     str_exn := exception_name;
     recursion_depth := 900;
     int_max_str_digits := Some 4300%nat;
     validate_int_None := eq_refl;
     validate_int_int := fun _ _ => eq_refl;
     validate_str_None := eq_refl;
     validate_str_str := fun _ _ => eq_refl;
     str_exn_scalar :=
       fun e => match e with
                | JSONDecodeError => eq_refl
                | RecursionError => eq_refl
                | ValueError => eq_refl
                | OverflowError => eq_refl
                | KeyError _ => eq_refl
                | TypeError _ _ => eq_refl
                | AttributeError _ => eq_refl
                | ValidationError _ => eq_refl
                | UnicodeDecodeError => eq_refl
                end |}.

(** The clock and the uuid generator at one call. *)
Definition ambient : Ambient :=
  {| now_isoformat := py "2024-01-01T00:00:00";
     now_received := Datetime 1704067200000000;
     uuid4 := py "00000000-0000-4000-8000-000000000000";
     now_isoformat_scalar := eq_refl |}.

End UtcHost.

(** ** Records and requests to state the properties with *)

(** The record no keyword argument builds: every field is [None]. *)
Definition null_record (amb : Ambient) : BronzeTransHst2 :=
  {| authorizer_usrnbr := None; creat_time := None; creat_usrnbr := None;
     data := None; description := None; description2 := None;
     external_user := None; four_eye_on := None; name := None;
     next_seqnbr := None; oper := None; owner_usrnbr := None;
     protection := None; record_id := None; seqnbr := None; size := None;
     transnbr := None; trans_record_type := None; updat_time := None;
     updat_usrnbr := None; version := None;
     received_at := now_received amb; processing_id := uuid4 amb |}.

(** The record [_create_error_record] describes. *)
Definition error_record (amb : Ambient) (raw_data error_msg : str)
  : BronzeTransHst2 :=
  {| authorizer_usrnbr := None;
     creat_time := Some (now_isoformat amb);
     creat_usrnbr := None;
     data := Some (py "PARSE_ERROR: " ++ error_msg);
     description :=
       Some (take 100 raw_data ++
             (if (100 <? length raw_data)%nat then py "..." else []));
     description2 := None; external_user := None; four_eye_on := None;
     name := Some (py "PARSING_FAILED");
     next_seqnbr := None; oper := None; owner_usrnbr := None;
     protection := None;
     record_id := Some (-1)%Z;
     seqnbr := None; size := None; transnbr := None;
     trans_record_type := None; updat_time := None; updat_usrnbr := None;
     version := None;
     received_at := now_received amb; processing_id := uuid4 amb |}.

(** A record with a given [record_id] and nothing else. *)
Definition numbered_record (amb : Ambient) (id : Z) : BronzeTransHst2 :=
  {| authorizer_usrnbr := None; creat_time := None; creat_usrnbr := None;
     data := None; description := None; description2 := None;
     external_user := None; four_eye_on := None; name := None;
     next_seqnbr := None; oper := None; owner_usrnbr := None;
     protection := None; record_id := Some id; seqnbr := None; size := None;
     transnbr := None; trans_record_type := None; updat_time := None;
     updat_usrnbr := None; version := None;
     received_at := now_received amb; processing_id := uuid4 amb |}.

(** An ASCII request body, written like a text literal. *)
Definition py_bytes (s : string) : bytes :=
  List.map (fun a => match Byte.of_N (py_char a) with
                     | Some b => b
                     | None => Byte.x00
                     end) (list_ascii_of_string s).


(** A value [json.loads] returns that is not a dict. *)
Definition not_a_dict (v : pyval) : bool :=
  match v with
  | PDict _ => false
  | _ => true
  end.

(** The exceptions a value that is not a dict runs into. *)
Definition type_or_attribute_error (e : exn) : bool :=
  match e with
  | TypeError _ _ | AttributeError _ => true
  | _ => false
  end.

(** ** The Avro-union shape and the plain JSON document *)

(** The text [s] between double quotes. *)
Definition quoted (s : str) : str := QUOTE :: s ++ [QUOTE].

(** The value of a wrapped field: the digits of ["field": {"int": N}] or
    the text of ["field": {"string": "S"}]. *)
Inductive wrapped_value :=
| WrappedInt (digits : str)
| WrappedString (text : str).

Definition type_name (w : wrapped_value) : string :=
  match w with
  | WrappedInt _ => "int"
  | WrappedString _ => "string"
  end.

(** The value as it is written, in the wrapped shape and in plain JSON. *)
Definition payload (w : wrapped_value) : str :=
  match w with
  | WrappedInt digits => digits
  | WrappedString text => quoted text
  end.

(** The Python value it denotes. *)
Definition value_of (w : wrapped_value) : pyval :=
  match w with
  | WrappedInt digits => PInt (Z.of_N (N_of_digits digits))
  | WrappedString text => PStr text
  end.

(** The white space of one occurrence of the wrapped shape, in the order
    of the six places where the patterns allow it. *)
Record spacing := {
  after_name : str;
  after_colon : str;
  after_brace : str;
  after_type : str;
  before_value : str;
  after_value : str
}.

Definition blank (g : spacing) : bool :=
  forallb is_space (after_name g) && forallb is_space (after_colon g) &&
  forallb is_space (after_brace g) && forallb is_space (after_type g) &&
  forallb is_space (before_value g) && forallb is_space (after_value g).

(** ["field" : { "type" : value }]. *)
Definition wrapped_text (field_name : str) (w : wrapped_value) (g : spacing)
  : str :=
  quoted field_name ++ after_name g ++ [58] ++ after_colon g ++ [123] ++
  after_brace g ++ quoted (py (type_name w)) ++ after_type g ++ [58] ++
  before_value g ++ payload w ++ after_value g ++ [125].

(** The equivalent plain JSON document, [{"field": value}]. *)
Definition plain_document (field_name : str) (w : wrapped_value) : str :=
  [123] ++ quoted field_name ++ [58; 32] ++ payload w ++ [125].

(** An integer literal of JSON without sign: ASCII digits, no leading
    zero. *)
Definition json_integer (digits : str) : bool :=
  forallb is_ascii_digit digits &&
  match digits with
  | [] => false
  | [_] => true
  | c :: _ => negb (c =? 48)
  end.

(** Text that a JSON string literal holds as it is: no quote, no
    backslash, no control character. *)
Definition json_plain (c : codepoint) : bool :=
  negb (c =? QUOTE) && negb (c =? BACKSLASH) && (0x1F <? c).

(** The values for which the two decoders are compared: an integer
    literal of JSON for a field that holds no timestamp, or a non-empty
    plain text that [int] does not read as a number. *)
Definition comparable (R : Runtime) (f : field) (w : wrapped_value) : bool :=
  match w with
  | WrappedInt digits =>
      negb (is_timestamp f) && json_integer digits &&
      within_digit_limit R (length digits)
  | WrappedString text =>
      match text with [] => false | _ :: _ => true end &&
      forallb json_plain text &&
      match py_int R text with Some _ => false | None => true end
  end.

(** The quoted name of a field starts at position [i] of a text. *)
Definition occurs_at (field_name text : str) (i : nat) : bool :=
  startswith (quoted field_name) (drop i text).

(** What the fallback passes to the constructor for a field, and what the
    structured decoder passes for it. *)
Definition fallback_argument (R : Runtime) (f : field) (text : str) : pyval :=
  kw_of f (ConfluentMessageParser.avro_kwargs R text).

Definition structured_argument (R : Runtime) (f : field) (text : str)
  : result pyval :=
  let* json_data := Json.loads R text in
  let* arguments := ConfluentMessageParser.json_kwargs R json_data in
  Ok (kw_of f arguments).

(** The four patterns after the quoted name of the field. *)
Definition int_tail : Re.pattern :=
  [Re.Many false Re.Space; Re.Lit 58; Re.Many false Re.Space; Re.Lit 123;
   Re.Many false Re.Space; Re.Lit QUOTE; Re.Lit 105; Re.Lit 110; Re.Lit 116;
   Re.Lit QUOTE; Re.Many false Re.Space; Re.Lit 58; Re.Many false Re.Space;
   Re.GroupOpen; Re.Many true Re.Digit; Re.GroupClose;
   Re.Many false Re.Space; Re.Lit 125].

Definition string_tail : Re.pattern :=
  [Re.Many false Re.Space; Re.Lit 58; Re.Many false Re.Space; Re.Lit 123;
   Re.Many false Re.Space; Re.Lit QUOTE; Re.Lit 115; Re.Lit 116; Re.Lit 114;
   Re.Lit 105; Re.Lit 110; Re.Lit 103; Re.Lit QUOTE;
   Re.Many false Re.Space; Re.Lit 58; Re.Many false Re.Space;
   Re.Lit QUOTE; Re.GroupOpen; Re.Many true Re.NotQuote; Re.GroupClose;
   Re.Lit QUOTE; Re.Many false Re.Space; Re.Lit 125].

Definition bare_number_tail : Re.pattern :=
  [Re.Many false Re.Space; Re.Lit 58; Re.Many false Re.Space;
   Re.GroupOpen; Re.Many true Re.Digit; Re.GroupClose].

Definition bare_string_tail : Re.pattern :=
  [Re.Many false Re.Space; Re.Lit 58; Re.Many false Re.Space;
   Re.Lit QUOTE; Re.GroupOpen; Re.Many true Re.NotQuote; Re.GroupClose;
   Re.Lit QUOTE].

(** The wrapped occurrence that follows [pre] is the one the patterns
    find: the quoted name of the field does not start earlier in the
    text and, for a text value, not later either (a later occurrence
    with an integer would be preferred by the first pattern). *)
Definition placed (field_name : str) (w : wrapped_value) (pre text : str)
  : Prop :=
  forall i, occurs_at field_name text i = true ->
            match w with
            | WrappedInt _ => (length pre <= i)%nat
            | WrappedString _ => i = length pre
            end.

(** ** The endpoints as one service *)

(** A request to one of the endpoints that read or write the store; a
    POST comes with its body and with what the clock and the uuid
    generator hand out while it is served. *)
Inductive request :=
| PostRecord (amb : Ambient) (raw_body : bytes)
| GetRecords
| GetStats
| ResetCounters.

(** The store a request leaves. *)
Definition serve (R : Runtime) (req : request) (st : Store) : Store :=
  match req with
  | PostRecord amb raw_body => snd (receive_bronze_record R amb raw_body st)
  | ResetCounters => snd (reset_bronze_counters st)
  | GetRecords | GetStats => st
  end.

Definition serve_all (R : Runtime) (requests : list request) (st : Store) : Store :=
  fold_left (fun st req => serve R req st) requests st.

(** ** Fields by name *)

(** The fields declared [Optional[int]]; the others are [Optional[str]]. *)
Definition is_int_field (f : field) : bool :=
  match f with
  | F_creat_time | F_data | F_description | F_description2
  | F_external_user | F_name | F_updat_time => false
  | _ => true
  end.

Definition of_option_int (o : option Z) : pyval :=
  match o with
  | Some n => PInt n
  | None => PNone
  end.

(** The value of a field of a record, as a Python value. *)
Definition field_of (f : field) (r : BronzeTransHst2) : pyval :=
  match f with
  | F_authorizer_usrnbr => of_option_int (authorizer_usrnbr r)
  | F_creat_time => ConfluentMessageParser.of_option_str (creat_time r)
  | F_creat_usrnbr => of_option_int (creat_usrnbr r)
  | F_data => ConfluentMessageParser.of_option_str (data r)
  | F_description => ConfluentMessageParser.of_option_str (description r)
  | F_description2 => ConfluentMessageParser.of_option_str (description2 r)
  | F_external_user => ConfluentMessageParser.of_option_str (external_user r)
  | F_four_eye_on => of_option_int (four_eye_on r)
  | F_name => ConfluentMessageParser.of_option_str (name r)
  | F_next_seqnbr => of_option_int (next_seqnbr r)
  | F_oper => of_option_int (oper r)
  | F_owner_usrnbr => of_option_int (owner_usrnbr r)
  | F_protection => of_option_int (protection r)
  | F_record_id => of_option_int (record_id r)
  | F_seqnbr => of_option_int (seqnbr r)
  | F_size => of_option_int (size r)
  | F_transnbr => of_option_int (transnbr r)
  | F_trans_record_type => of_option_int (trans_record_type r)
  | F_updat_time => ConfluentMessageParser.of_option_str (updat_time r)
  | F_updat_usrnbr => of_option_int (updat_usrnbr r)
  | F_version => of_option_int (version r)
  end.

(** The validation of the argument of a field. *)
Definition validate (R : Runtime) (f : field) (v : pyval) : option pyval :=
  if is_int_field f then option_map of_option_int (validate_int R v)
  else option_map ConfluentMessageParser.of_option_str (validate_str R v).

(** The values every pydantic version takes as they are for a field:
    nothing, a 64-bit integer for an integer field, a text without lone
    surrogate for a text field. *)
Definition well_typed (f : field) (v : pyval) : bool :=
  match v with
  | PNone => true
  | PInt n => is_int_field f && (- 2 ^ 63 <=? n)%Z && (n <? 2 ^ 63)%Z
  | PStr s => negb (is_int_field f) && scalar_text s
  | _ => false
  end.

(** The quoted name of a field starts at one place of a text only. *)
Definition only_at (field_name : str) (place : nat) (text : str) : Prop :=
  forall i, occurs_at field_name text i = true -> i = place.

(** What [extract_value] makes of a captured text: [int(value)], or the
    text when [int] raises. *)
Definition int_or_text (R : Runtime) (value : str) : pyval :=
  match py_int R value with
  | Some n => PInt n
  | None => PStr value
  end.

(** ** The record list of the dashboard *)

(** A text literal with characters outside ASCII, written in UTF-8. *)
Definition py_utf8 (s : string) : str :=
  match utf8_decode (List.map py_char (list_ascii_of_string s)) with
  | Ok text => text
  | Raise _ => []
  end.

(** [d.strftime('%Y-%m-%d %H:%M:%S')], for the years of four digits that
    the clock gives; the C library decides how earlier years are padded. *)
Definition strftime (d : datetime) : str :=
  let 'Datetime micros := d in
  let secs := (micros / 1000000)%Z in
  let '(y, m, day) := UtcHost.civil_from_days (secs / 86400)%Z in
  let rem := (secs mod 86400)%Z in
  UtcHost.padded 4 y ++ [45] ++ UtcHost.padded 2 m ++ [45] ++
  UtcHost.padded 2 day ++ [32] ++ UtcHost.padded 2 (rem / 3600)%Z ++ [58] ++
  UtcHost.padded 2 (rem mod 3600 / 60)%Z ++ [58] ++
  UtcHost.padded 2 (rem mod 60)%Z.

Definition no_records_html : str :=
  py_utf8 "<div class='no-records'>📭 No records received yet. Waiting for Kafka messages...</div>".

(** [field_data]: the labels and [str(field_value)] of the fields, [None]
    for a field that is [None]. *)
Definition field_data (record : BronzeTransHst2) : list (string * option str) :=
  [("Record ID"%string, option_map str_of_Z (record_id record));
   ("Transaction Number"%string, option_map str_of_Z (transnbr record));
   ("Sequence Number"%string, option_map str_of_Z (seqnbr record));
   ("Creator User"%string, option_map str_of_Z (creat_usrnbr record));
   ("Create Time"%string, creat_time record);
   ("Update Time"%string, updat_time record);
   ("Authorizer User"%string, option_map str_of_Z (authorizer_usrnbr record));
   ("Owner User"%string, option_map str_of_Z (owner_usrnbr record));
   ("Name"%string, name record);
   ("Description"%string, description record);
   ("Description 2"%string, description2 record);
   ("Data"%string, data record);
   ("External User"%string, external_user record);
   ("Operation"%string, option_map str_of_Z (oper record));
   ("Protection"%string, option_map str_of_Z (protection record));
   ("Four Eye On"%string, option_map str_of_Z (four_eye_on record));
   ("Next Seq Number"%string, option_map str_of_Z (next_seqnbr record));
   ("Size"%string, option_map str_of_Z (size record));
   ("Trans Record Type"%string, option_map str_of_Z (trans_record_type record));
   ("Update User"%string, option_map str_of_Z (updat_usrnbr record));
   ("Version"%string, option_map str_of_Z (version record))].

(** The value as it is shown: cut after 50 characters. *)
Definition display_value (text : str) : str :=
  if (50 <? length text)%nat then take 50 text ++ py "..." else text.

Definition field_html (field_name : string) (display_value : str) : str :=
  py "
                <div class='field'>
                    <span class='field-name'>" ++ py field_name ++
  py ":</span>
                    <span class='field-value'>" ++ display_value ++
  py "</span>
                </div>
                ".

(** The inner loop: one block for each field that is not [None]. *)
Definition fields_html (record : BronzeTransHst2) : str :=
  fold_left
    (fun html '(field_name, field_value) =>
       match field_value with
       | Some text => html ++ field_html field_name (display_value text)
       | None => html
       end)
    (field_data record) [].

(** [record.record_id or 'N/A'], formatted. *)
Definition record_id_or_NA (record : BronzeTransHst2) : str :=
  match if_truthy (record_id record) with
  | Some n => str_of_Z n
  | None => py "N/A"
  end.

Definition card_html (record : BronzeTransHst2) : str :=
  py "
        <div class='record-card'>
            <div class='record-header'>
                <span class='record-id'>#" ++ record_id_or_NA record ++
  py_utf8 "</span>
                <span class='received-time'>📅 " ++ strftime (received_at record) ++
  py "</span>
            </div>
            <div class='record-fields'>
                " ++ fields_html record ++
  py "
            </div>
        </div>
        ".

Definition _generate_records_html (records : list BronzeTransHst2) : str :=
  match records with
  | [] => no_records_html
  | _ :: _ => fold_left (fun html record => html ++ card_html record) records []
  end.

(** Whether a body is valid UTF-8. *)
Definition is_utf8 (raw_body : bytes) : bool :=
  match decode_utf8 raw_body with
  | Ok _ => true
  | Raise _ => false
  end.

(** The records received since the start or the last reset, counted over
    the requests: a POST counts when its body is UTF-8. *)
Definition count_received (requests : list request) (start : Z) : Z :=
  fold_left
    (fun n req =>
       match req with
       | PostRecord _ raw_body => if is_utf8 raw_body then (n + 1)%Z else n
       | ResetCounters => 0%Z
       | GetRecords | GetStats => n
       end)
    requests start.

(** The record ids the statistics look at: neither null nor zero. *)
Definition counted_ids (st : Store) : list Z :=
  omap (fun r => if_truthy (record_id r)) (bronze_storage st).

(** ** The structured decoder, field by field *)

(** [data.get(name)] for the field [f] and the dict [d]. *)
Definition member (f : field) (d : list (str * pyval)) : pyval :=
  match dict_lookup (py (field_name f)) d with
  | Some v => v
  | None => PNone
  end.

(** What [_parse_json_message] reads the fields from: what stands under
    the key value, else what stands under the key payload, else the
    message itself. *)
Definition enveloped (d : list (str * pyval)) : pyval :=
  match dict_lookup (py "value") d with
  | Some v => v
  | None =>
      match dict_lookup (py "payload") d with
      | Some v => v
      | None => PDict d
      end
  end.

(** What [_parse_json_message] passes to the constructor for a field. *)
Definition json_argument (R : Runtime) (f : field) (d : list (str * pyval))
  : pyval :=
  if is_timestamp f
  then ConfluentMessageParser.of_option_str
         (ConfluentMessageParser._convert_timestamp R (member f d))
  else member f d.

(** The arguments of a call of the constructor, as one of the two
    decoders builds them for a text. *)
Definition arguments_of (R : Runtime) (raw_data : str) (k : kwargs) : Prop :=
  (exists json_data,
     Json.loads R raw_data = Ok json_data /\
     ConfluentMessageParser.json_kwargs R json_data = Ok k) \/
  (Json.loads R raw_data = Raise JSONDecodeError /\
   k = ConfluentMessageParser.avro_kwargs R raw_data).

(** The arguments the structured decoder builds for a message whose
    record id is a text. *)
Definition rejected_arguments : kwargs :=
  Eval vm_compute in
  match ConfluentMessageParser.json_kwargs UtcHost.runtime
          (PDict [(py "record_id", PStr (py "abc"));
                  (py "name", PStr (py "Alice")); (py "seqnbr", PInt 3)]) with
  | Ok k => k
  | Raise _ => no_kwargs
  end.

(** ** The bare shape *)

(** ["field" : value], with the white space the patterns allow around the
    colon. *)
Definition bare_text (field_name after_name after_colon value : str) : str :=
  quoted field_name ++ after_name ++ [58] ++ after_colon ++ value.

(** The text does not go on with a decimal digit. *)
Definition no_digit_ahead (rest : str) : bool :=
  match rest with
  | [] => true
  | y :: _ => negb (is_decimal y)
  end.

(** ** The parts of the record list *)

(** What one entry of [field_data] adds to the page. *)
Definition shown_field (entry : string * option str) : str :=
  match entry with
  | (field_name, Some text) => field_html field_name (display_value text)
  | (_, None) => []
  end.

(** The element that shows a value, and the one that shows the id in the
    header of a card. *)
Definition value_element (text : str) : str :=
  py "<span class='field-value'>" ++ text ++ py "</span>".

Definition id_element (text : str) : str :=
  py "<span class='record-id'>#" ++ text ++ py "</span>".

(** ** The dashboard *)

(** What [dashboard] puts under the title of the record list: the page
    of the stored records, newest first. *)
Definition dashboard_records (st : Store) : str :=
  _generate_records_html (rev (bronze_storage st)).

(** A message with markup in a field, and the record it gives. *)
Definition markup_message : string :=
  "{'record_id': 5, 'name': '<script>alert(1)</script>'}".

Definition markup_record : BronzeTransHst2 :=
  Eval vm_compute in
  match ConfluentMessageParser.parse_confluent_message UtcHost.runtime
          UtcHost.ambient (py markup_message) with
  | Ok record => record
  | Raise _ => null_record UtcHost.ambient
  end.

(** ** POST requests in sequence *)

(** POST requests served one after the other by the handler, each with
    its clock and its body: the answers of [receive_bronze_record] and
    the store the calls leave. *)
Fixpoint post_all (R : Runtime) (posts : list (Ambient * bytes)) (st : Store)
  : list (response Receipt) * Store :=
  match posts with
  | [] => ([], st)
  | (amb, raw_body) :: posts' =>
      let '(answer, st') := receive_bronze_record R amb raw_body st in
      let '(answers, final) := post_all R posts' st' in
      (answer :: answers, final)
  end.

(** The [total_count] of an answer, when the handler returned one. *)
Definition total_of (answer : response Receipt) : option Z :=
  match answer with
  | Returns receipt => Some (total_count receipt)
  | HTTPException _ _ => None
  end.

(** The record [parse_confluent_message] returns for the decoded body of
    a POST request. *)
Definition parsed (R : Runtime) (post : Ambient * bytes)
  : option BronzeTransHst2 :=
  match decode_utf8 (snd post) with
  | Ok raw_data =>
      match ConfluentMessageParser.parse_confluent_message R (fst post) raw_data with
      | Ok record => Some record
      | Raise _ => None
      end
  | Raise _ => None
  end.

(** Fifteen requests, each with a record id of its own. *)
Definition fifteen_posts : list (Ambient * bytes) :=
  List.map (fun body => (UtcHost.ambient, py_bytes body))
    ["{'record_id': 101}"; "{'record_id': 102}"; "{'record_id': 103}";
     "{'record_id': 104}"; "{'record_id': 105}"; "{'record_id': 106}";
     "{'record_id': 107}"; "{'record_id': 108}"; "{'record_id': 109}";
     "{'record_id': 110}"; "{'record_id': 111}"; "{'record_id': 112}";
     "{'record_id': 113}"; "{'record_id': 114}"; "{'record_id': 115}"]%string.

(** * Properties *)

(** ** The store *)

Lemma last_10_short {A} (l : list A) : (length l <= 10)%nat -> last_10 l = l.
Proof.
  intros H. unfold last_10.
  replace (length l - 10)%nat with 0%nat by lia. reflexivity.
Qed.

Lemma last_10_length {A} (l : list A) :
  length (last_10 l) = Nat.min 10 (length l).
Proof. unfold last_10. rewrite length_drop. lia. Qed.

Lemma last_10_snoc {A} (l : list A) (x : A) :
  last_10 (last_10 l ++ [x]) = last_10 (l ++ [x]).
Proof.
  destruct (Nat.le_gt_cases (length l) 10) as [Hle | Hgt].
  - now rewrite (last_10_short l).
  - unfold last_10 at 1 3.
    rewrite !length_app, last_10_length. cbn [length].
    replace (Nat.min 10 (length l) + 1 - 10)%nat with 1%nat by lia.
    unfold last_10.
    rewrite (drop_app_le l [x] (length l + 1 - 10)) by lia.
    rewrite drop_app_le by (rewrite length_drop; lia).
    rewrite drop_drop. do 2 f_equal. lia.
Qed.

(** What one call changes: the counter goes up by one and the storage is
    the last ten of the old storage with the new record at its end. *)
Lemma store_record_spec (r : BronzeTransHst2) (st : Store) :
  store_record r st =
  {| record_counter := record_counter st + 1;
     bronze_storage := last_10 (bronze_storage st ++ [r]) |}.
Proof.
  unfold store_record. f_equal.
  destruct (10 <? length (bronze_storage st ++ [r]))%nat eqn:E; [reflexivity|].
  apply Nat.ltb_ge in E. now rewrite last_10_short.
Qed.

(** ** The constructor *)

Section ConstructorFacts.
Context (R : Runtime) (amb : Ambient).

Lemma int_field_None field :
  int_field R field PNone = (None, []).
Proof. unfold int_field. now rewrite validate_int_None. Qed.

Lemma str_field_None field :
  str_field R field PNone = (None, []).
Proof. unfold str_field. now rewrite validate_str_None. Qed.

Lemma int_field_int field n :
  (- 2 ^ 63 <= n < 2 ^ 63)%Z ->
  int_field R field (PInt n) = (Some n, []).
Proof. intros H. unfold int_field. now rewrite validate_int_int. Qed.

Lemma str_field_str field s :
  scalar_text s = true ->
  str_field R field (PStr s) = (Some s, []).
Proof. intros H. unfold str_field. now rewrite validate_str_str. Qed.

(** With no keyword argument the constructor builds the null record. *)
Lemma new_no_kwargs : BronzeTransHst2_new R amb no_kwargs = Ok (null_record amb).
Proof.
  unfold BronzeTransHst2_new, no_kwargs. cbn [kw_authorizer_usrnbr
    kw_creat_time kw_creat_usrnbr kw_data kw_description kw_description2
    kw_external_user kw_four_eye_on kw_name kw_next_seqnbr kw_oper
    kw_owner_usrnbr kw_protection kw_record_id kw_seqnbr kw_size
    kw_transnbr kw_trans_record_type kw_updat_time kw_updat_usrnbr
    kw_version].
  rewrite !int_field_None, !str_field_None. reflexivity.
Qed.

Lemma scalar_text_take (n : nat) (s : str) :
  scalar_text s = true -> scalar_text (take n s) = true.
Proof.
  unfold scalar_text. rewrite !forallb_forall.
  intros H c Hc. apply H. apply list_elem_of_In.
  apply list_elem_of_In in Hc. eapply subseteq_take, Hc.
Qed.

(** [_create_error_record] does not raise, and builds [error_record]. *)
Lemma create_error_record_ok raw_data error_msg :
  scalar_text raw_data = true ->
  scalar_text error_msg = true ->
  ConfluentMessageParser._create_error_record R amb raw_data error_msg =
  Ok (error_record amb raw_data error_msg).
Proof.
  intros Hraw Hmsg.
  assert (Hdata : scalar_text (py "PARSE_ERROR: " ++ error_msg) = true)
    by (unfold scalar_text; rewrite forallb_app; now apply andb_true_intro).
  assert (Hdesc : scalar_text
                    (take 100 raw_data ++
                     (if (100 <? length raw_data)%nat then py "..." else [])) = true).
  { unfold scalar_text. rewrite forallb_app. apply andb_true_intro. split.
    - now apply scalar_text_take.
    - now destruct (100 <? length raw_data)%nat. }
  unfold ConfluentMessageParser._create_error_record, BronzeTransHst2_new.
  cbn [kw_authorizer_usrnbr
    kw_creat_time kw_creat_usrnbr kw_data kw_description kw_description2
    kw_external_user kw_four_eye_on kw_name kw_next_seqnbr kw_oper
    kw_owner_usrnbr kw_protection kw_record_id kw_seqnbr kw_size
    kw_transnbr kw_trans_record_type kw_updat_time kw_updat_usrnbr
    kw_version].
  rewrite !int_field_None, !str_field_None.
  rewrite (str_field_str _ _ (now_isoformat_scalar amb)).
  rewrite (str_field_str _ _ Hdata), (str_field_str _ _ Hdesc).
  rewrite (str_field_str _ (py "PARSING_FAILED")) by reflexivity.
  rewrite int_field_int by lia.
  reflexivity.
Qed.

(** [parse_confluent_message] by cases on the inner [try]. *)
Lemma parse_confluent_message_cases raw_data :
  scalar_text raw_data = true ->
  ConfluentMessageParser.parse_confluent_message R amb raw_data =
  match ConfluentMessageParser.parse_either R amb raw_data with
  | Ok record => Ok record
  | Raise e => Ok (error_record amb raw_data (str_exn R e))
  end.
Proof.
  intros Hraw. unfold ConfluentMessageParser.parse_confluent_message.
  destruct (ConfluentMessageParser.parse_either R amb raw_data);
    [reflexivity | apply create_error_record_ok];
    [assumption | apply str_exn_scalar].
Qed.

(** The handler rejects a body that is not UTF-8 and leaves the store
    as it is. *)
Lemma receive_undecodable raw_body st e :
  decode_utf8 raw_body = Raise e ->
  receive_bronze_record R amb raw_body st =
  (HTTPException 400 (py "Failed to process record: " ++ str_exn R e), st).
Proof. intros H. unfold receive_bronze_record. now rewrite H. Qed.

(** The handler stores the record the parser returns and reports the
    new total. *)
Lemma receive_decodable raw_body raw_data record st :
  decode_utf8 raw_body = Ok raw_data ->
  ConfluentMessageParser.parse_confluent_message R amb raw_data = Ok record ->
  receive_bronze_record R amb raw_body st =
  (Returns {| total_count := record_counter st + 1;
              receipt_record_id := record_id record;
              receipt_processing_id := processing_id record;
              receipt_received_at := received_at record |},
   store_record record st).
Proof.
  intros Hd Hp. unfold receive_bronze_record. rewrite Hd. cbn [bind].
  rewrite Hp. now rewrite store_record_spec.
Qed.

End ConstructorFacts.

(** ** The error record *)

(** C3, as the program has it. Whenever an exception leaves the inner
    [try] of [parse_confluent_message] (the text has been decoded from
    the body by then, so it holds no lone surrogate), the function
    returns the error record: [record_id] -1, [name]
    PARSING_FAILED, [data] the text PARSE_ERROR followed by the failure
    description, [description] the first 100 characters of the raw text,
    followed by three dots exactly when the text is longer, [creat_time]
    the current time, every other field null. *)
Theorem failure_gives_error_record (R : Runtime) (amb : Ambient)
  (raw_data : str) (e : exn) :
  scalar_text raw_data = true ->
  ConfluentMessageParser.parse_either R amb raw_data = Raise e ->
  ConfluentMessageParser.parse_confluent_message R amb raw_data =
  Ok {| authorizer_usrnbr := None;
        creat_time := Some (now_isoformat amb);
        creat_usrnbr := None;
        data := Some (py "PARSE_ERROR: " ++ str_exn R e);
        description :=
          Some (if (100 <? length raw_data)%nat
                then take 100 raw_data ++ py "..."
                else raw_data);
        description2 := None; external_user := None; four_eye_on := None;
        name := Some (py "PARSING_FAILED");
        next_seqnbr := None; oper := None; owner_usrnbr := None;
        protection := None;
        record_id := Some (-1)%Z;
        seqnbr := None; size := None; transnbr := None;
        trans_record_type := None; updat_time := None; updat_usrnbr := None;
        version := None;
        received_at := now_received amb; processing_id := uuid4 amb |}.
Proof.
  intros Hraw H. rewrite parse_confluent_message_cases, H by assumption.
  unfold error_record. do 2 f_equal.
  destruct (100 <? length raw_data)%nat eqn:E; [reflexivity|].
  apply Nat.ltb_ge in E. rewrite app_nil_r. now rewrite take_ge.
Qed.

Lemma failure_gives_error_record_witness :
  ConfluentMessageParser.parse_confluent_message UtcHost.runtime UtcHost.ambient
    (py "[1, 2]") =
  Ok {| authorizer_usrnbr := None;
        creat_time := Some (py "2024-01-01T00:00:00");
        creat_usrnbr := None;
        data := Some (py "PARSE_ERROR: AttributeError");
        description := Some (py "[1, 2]");
        description2 := None; external_user := None; four_eye_on := None;
        name := Some (py "PARSING_FAILED");
        next_seqnbr := None; oper := None; owner_usrnbr := None;
        protection := None;
        record_id := Some (-1)%Z;
        seqnbr := None; size := None; transnbr := None;
        trans_record_type := None; updat_time := None; updat_usrnbr := None;
        version := None;
        received_at := Datetime 1704067200000000;
        processing_id := py "00000000-0000-4000-8000-000000000000" |}.
Proof.
  apply (failure_gives_error_record UtcHost.runtime UtcHost.ambient
           (py "[1, 2]") (AttributeError (PList [PInt 1; PInt 2]))).
  - reflexivity.
  - vm_compute. reflexivity.
Defined.

(** C3, as the claim has it, fails for a failure of the text decoding: a
    body that is not UTF-8 makes the handler raise HTTP 400 before the
    parser is called; no error record is built and nothing is stored. *)
Lemma undecodable_body_gives_no_record :
  receive_bronze_record UtcHost.runtime UtcHost.ambient [Byte.xff] initial_store =
  (HTTPException 400 (py "Failed to process record: UnicodeDecodeError"),
   initial_store).
Proof. vm_compute. reflexivity. Qed.

(** ** Timestamps *)

(** C5, as the program has it. [_convert_timestamp] maps null to null,
    the empty text to null as well, and every non-empty text to itself. *)
Theorem convert_timestamp_text (R : Runtime) :
  ConfluentMessageParser._convert_timestamp R PNone = None /\
  ConfluentMessageParser._convert_timestamp R (PStr []) = None /\
  forall (c : codepoint) (s : str),
    ConfluentMessageParser._convert_timestamp R (PStr (c :: s)) = Some (c :: s).
Proof. repeat split. Qed.

(** C5, as the claim has it, fails for the empty text: the guard
    [if not timestamp_value] sends it to null. *)
Lemma convert_timestamp_empty_text :
  ConfluentMessageParser._convert_timestamp UtcHost.runtime (PStr []) <> Some [].
Proof. discriminate. Qed.



(** The scenario of the specification: epoch milliseconds. *)
Example convert_timestamp_millis :
  ConfluentMessageParser._convert_timestamp UtcHost.runtime (PInt 1700000000000) =
  Some (py "2023-11-14T22:13:20").
Proof. vm_compute. reflexivity. Qed.

Example convert_timestamp_seconds :
  ConfluentMessageParser._convert_timestamp UtcHost.runtime (PInt 1700000000) =
  Some (py "2023-11-14T22:13:20").
Proof. vm_compute. reflexivity. Qed.


(** ** Statistics *)

(** What the statistics count: the distinct values that are neither null
    nor zero. *)
Lemma get_bronze_stats_spec (st : Store) :
  let ids := omap (fun r => if_truthy (record_id r)) (bronze_storage st) in
  let users := omap (fun r => if_truthy (creat_usrnbr r)) (bronze_storage st) in
  get_bronze_stats st =
  {| total_records := record_counter st;
     current_storage := length (bronze_storage st);
     unique_record_ids := base.size (list_to_set ids : gset Z);
     unique_users := base.size (list_to_set users : gset Z);
     last_record_id := max_or_None ids |}.
Proof.
  cbn zeta. unfold get_bronze_stats.
  destruct (omap (fun r => if_truthy (record_id r)) (bronze_storage st));
    reflexivity.
Qed.

(** C4 fails on the program. After the body
    [{"record_id": 0, "creat_usrnbr": 0}] has been received, the storage
    holds one record whose [record_id] and [creat_usrnbr] are 0, and the
    statistics report no record id, no user and no last record id: the
    tests [if r.record_id] and [if r.creat_usrnbr] drop the value 0
    together with null. *)
Theorem stats_drop_zero :
  let st := snd (receive_bronze_record UtcHost.runtime UtcHost.ambient
                   (py_bytes "{'record_id': 0, 'creat_usrnbr': 0}")
                   initial_store) in
  List.map record_id (bronze_storage st) = [Some 0%Z] /\
  List.map creat_usrnbr (bronze_storage st) = [Some 0%Z] /\
  unique_record_ids (get_bronze_stats st) = 0%nat /\
  unique_users (get_bronze_stats st) = 0%nat /\
  last_record_id (get_bronze_stats st) = None.
Proof. vm_compute. repeat split. Qed.

(** A non-zero id is counted, the error record's -1 included. *)
Example stats_count_nonzero :
  let st := fold_left (fun st record => store_record record st)
              (List.map (numbered_record UtcHost.ambient) [7; -1; 7; 3]%Z)
              initial_store in
  unique_record_ids (get_bronze_stats st) = 3%nat /\
  last_record_id (get_bronze_stats st) = Some 7%Z.
Proof. vm_compute. repeat split. Qed.

(** ** Text that is valid JSON but not an object *)

Lemma json_kwargs_not_a_dict (R : Runtime) (v : pyval) :
  not_a_dict v = true ->
  exists e, type_or_attribute_error e = true /\
            ConfluentMessageParser.json_kwargs R v = Raise e.
Proof.
  intros Hv. unfold ConfluentMessageParser.json_kwargs.
  destruct v; try discriminate; cbn [py_contains bind];
    try (eexists; split; [|reflexivity]; reflexivity).
  - destruct (str_contains (py "value") s); cbn [py_getitem bind];
      [eexists; split; [|reflexivity]; reflexivity|].
    destruct (str_contains (py "payload") s); cbn [py_getitem py_get bind];
      eexists; (split; [|reflexivity]); reflexivity.
  - destruct (existsb _ l); cbn [py_getitem bind];
      [eexists; split; [|reflexivity]; reflexivity|].
    destruct (existsb _ l); cbn [py_getitem py_get bind];
      eexists; (split; [|reflexivity]); reflexivity.
Qed.

(** C9. When the text (decoded from a body, so without lone surrogate)
    parses as JSON and the value is not an object (a number, a text, an
    array, a boolean, null), the envelope test or the
    first [data.get] raises a [TypeError] or an [AttributeError], and
    [parse_confluent_message] returns the error record, whose [record_id]
    is -1 and whose [name] is PARSING_FAILED, not a record of nulls. *)
Theorem non_object_json_gives_error_record (R : Runtime) (amb : Ambient)
  (raw_data : str) (v : pyval) :
  scalar_text raw_data = true ->
  Json.loads R raw_data = Ok v ->
  not_a_dict v = true ->
  exists e record,
    type_or_attribute_error e = true /\
    ConfluentMessageParser._parse_json_message R amb v = Raise e /\
    ConfluentMessageParser.parse_confluent_message R amb raw_data = Ok record /\
    record = error_record amb raw_data (str_exn R e) /\
    record_id record = Some (-1)%Z /\
    name record = Some (py "PARSING_FAILED") /\
    record <> null_record amb.
Proof.
  intros Hraw Hloads Hv.
  destruct (json_kwargs_not_a_dict R v Hv) as (e & He & Hk).
  exists e, (error_record amb raw_data (str_exn R e)).
  assert (Hj : ConfluentMessageParser._parse_json_message R amb v = Raise e).
  { unfold ConfluentMessageParser._parse_json_message. now rewrite Hk. }
  repeat split; try assumption.
  - rewrite parse_confluent_message_cases by assumption.
    unfold ConfluentMessageParser.parse_either. rewrite Hloads. cbn [bind].
    rewrite Hj. now destruct e.
  - discriminate.
Qed.

Lemma non_object_json_gives_error_record_witness :
  exists e record,
    type_or_attribute_error e = true /\
    ConfluentMessageParser._parse_json_message UtcHost.runtime UtcHost.ambient
      (PInt 42) = Raise e /\
    ConfluentMessageParser.parse_confluent_message UtcHost.runtime
      UtcHost.ambient (py "42") = Ok record /\
    record = error_record UtcHost.ambient (py "42") (str_exn UtcHost.runtime e) /\
    record_id record = Some (-1)%Z /\
    name record = Some (py "PARSING_FAILED") /\
    record <> null_record UtcHost.ambient.
Proof.
  apply (non_object_json_gives_error_record UtcHost.runtime UtcHost.ambient
           (py "42") (PInt 42)); reflexivity.
Defined.

Example text_value_gives_error_record :
  option_map (fun r => (record_id r, name r))
    (match ConfluentMessageParser.parse_confluent_message UtcHost.runtime
             UtcHost.ambient (py "'value'") with
     | Ok r => Some r
     | Raise _ => None
     end) = Some (Some (-1)%Z, Some (py "PARSING_FAILED")).
Proof. vm_compute. reflexivity. Qed.

(** ** Blank text *)

(** The characters of the class [is_space]. *)
Lemma is_space_cases (c : codepoint) :
  is_space c = true ->
  In c [9; 10; 11; 12; 13; 0x1C; 0x1D; 0x1E; 0x1F; 0x20; 0x85; 0xA0; 0x1680;
        0x2000; 0x2001; 0x2002; 0x2003; 0x2004; 0x2005; 0x2006; 0x2007;
        0x2008; 0x2009; 0x200A; 0x2028; 0x2029; 0x202F; 0x205F; 0x3000].
Proof.
  unfold is_space. intros H.
  repeat (apply orb_prop in H; destruct H as [H | H]);
    repeat (apply andb_prop in H; destruct H as [H ?]);
    repeat match goal with
           | H : (_ <=? _) = true |- _ => apply N.leb_le in H
           | H : (_ =? _) = true |- _ => apply N.eqb_eq in H
           end;
    cbn [In]; lia.
Qed.

Lemma space_is_not_quote (c : codepoint) : is_space c = true -> (c =? QUOTE) = false.
Proof.
  intros H. apply is_space_cases in H. cbn [In] in H.
  repeat (destruct H as [<- | H]; [reflexivity|]). destruct H.
Qed.

Lemma run_halt (R : Runtime) (e : exn) (s : str) :
  Json.run R 0 (Json.Halt e) s = Json.Halt e.
Proof. destruct s; reflexivity. Qed.

(** At the start of a document a space that is not JSON white space is
    no value. *)
Lemma step_space (R : Runtime) (c : codepoint) (rest : str) :
  is_space c = true ->
  Json.is_ws c = false ->
  Json.step R (Json.Scanning Json.Value []) c rest =
  (Json.Halt JSONDecodeError, 0%nat).
Proof.
  intros H Hws. apply is_space_cases in H. cbn [In] in H.
  repeat (destruct H as [<- | H];
          [first [discriminate Hws | vm_compute; reflexivity]|]).
  destruct H.
Qed.

Lemma run_blank (R : Runtime) (s : str) :
  forallb is_space s = true ->
  Json.run R 0 (Json.Scanning Json.Value []) s = Json.Scanning Json.Value [] \/
  Json.run R 0 (Json.Scanning Json.Value []) s = Json.Halt JSONDecodeError.
Proof.
  induction s as [|c s IH]; intros H; [now left|].
  cbn [forallb] in H. apply andb_prop in H as [Hc Hs].
  cbn [Json.run]. destruct (Json.is_ws c) eqn:Hws; [auto|].
  rewrite (step_space R c s Hc Hws), run_halt. now right.
Qed.

(** Blank text is not JSON. *)
Lemma loads_blank (R : Runtime) (s : str) :
  forallb is_space s = true -> Json.loads R s = Raise JSONDecodeError.
Proof.
  intros H. unfold Json.loads.
  assert (Hbom : startswith [0xFEFF] s = false).
  { destruct s as [|c s]; [reflexivity|].
    cbn [forallb] in H. apply andb_prop in H as [Hc _].
    apply is_space_cases in Hc. cbn [In] in Hc.
    repeat (destruct Hc as [<- | Hc]; [reflexivity|]). destruct Hc. }
  rewrite Hbom. destruct (run_blank R s H) as [-> | ->]; reflexivity.
Qed.

(** A pattern that starts with a quote finds nothing in a text without
    quotes. *)
Lemma search_without_quote (p : Re.pattern) (s : str) :
  forallb (fun c => negb (c =? QUOTE)) s = true ->
  Re.search (Re.Lit QUOTE :: p) s = None.
Proof.
  induction s as [|c s IH]; intros H; [reflexivity|].
  cbn [forallb] in H. apply andb_prop in H as [Hc Hs].
  apply negb_true_iff in Hc.
  cbn [Re.search Re.match_here]. rewrite Hc. auto.
Qed.

Lemma extract_value_without_quote (R : Runtime) (s : str) (field_name : string) :
  forallb (fun c => negb (c =? QUOTE)) s = true ->
  ConfluentMessageParser.extract_value R s field_name = PNone.
Proof.
  intros H. unfold ConfluentMessageParser.extract_value,
    ConfluentMessageParser.patterns, ConfluentMessageParser.field_prefix.
  cbn [app ConfluentMessageParser.first_match].
  now rewrite !search_without_quote.
Qed.

Ltac rewrite_field H f :=
  let E := fresh in
  pose proof (H f) as E; cbn [field_name] in E; rewrite E; clear E.

(** When no pattern matches for any field, the fallback builds the null
    record. *)
Lemma parse_avro_string_nothing (R : Runtime) (amb : Ambient) (s : str) :
  (forall f, ConfluentMessageParser.extract_value R s (field_name f) = PNone) ->
  ConfluentMessageParser._parse_avro_string R amb s = Ok (null_record amb).
Proof.
  intros H. unfold ConfluentMessageParser._parse_avro_string,
    ConfluentMessageParser.avro_kwargs.
  rewrite_field H F_authorizer_usrnbr.
  rewrite_field H F_creat_time.
  rewrite_field H F_creat_usrnbr.
  rewrite_field H F_data.
  rewrite_field H F_description.
  rewrite_field H F_description2.
  rewrite_field H F_external_user.
  rewrite_field H F_four_eye_on.
  rewrite_field H F_name.
  rewrite_field H F_next_seqnbr.
  rewrite_field H F_oper.
  rewrite_field H F_owner_usrnbr.
  rewrite_field H F_protection.
  rewrite_field H F_record_id.
  rewrite_field H F_seqnbr.
  rewrite_field H F_size.
  rewrite_field H F_transnbr.
  rewrite_field H F_trans_record_type.
  rewrite_field H F_updat_time.
  rewrite_field H F_updat_usrnbr.
  rewrite_field H F_version.
  apply new_no_kwargs.
Qed.

(** C10. For the empty text and for any text of white space only, the
    JSON parsing fails, no pattern of the fallback matches, the fallback
    does not raise, and [parse_confluent_message] returns the record whose
    21 fields are null, [name] included: not the PARSING_FAILED record. *)
Theorem blank_text_gives_null_record (R : Runtime) (amb : Ambient)
  (raw_data : str) :
  forallb is_space raw_data = true ->
  Json.loads R raw_data = Raise JSONDecodeError /\
  (forall f, ConfluentMessageParser.extract_value R raw_data (field_name f) = PNone) /\
  ConfluentMessageParser._parse_avro_string R amb raw_data = Ok (null_record amb) /\
  ConfluentMessageParser.parse_confluent_message R amb raw_data =
    Ok (null_record amb) /\
  name (null_record amb) = None /\
  forall error_msg, null_record amb <> error_record amb raw_data error_msg.
Proof.
  intros H.
  assert (Hq : forallb (fun c => negb (c =? QUOTE)) raw_data = true).
  { apply forallb_forall. intros c Hc.
    rewrite forallb_forall in H. now rewrite space_is_not_quote by auto. }
  assert (Hx : forall f,
             ConfluentMessageParser.extract_value R raw_data (field_name f) = PNone)
    by (intros f; now apply extract_value_without_quote).
  assert (Ha := parse_avro_string_nothing R amb raw_data Hx).
  repeat split; try assumption.
  - now apply loads_blank.
  - unfold ConfluentMessageParser.parse_confluent_message,
      ConfluentMessageParser.parse_either.
    rewrite (loads_blank R raw_data H). cbn [bind]. now rewrite Ha.
  - discriminate.
Qed.

Lemma blank_text_gives_null_record_witness :
  let raw_data := [32; 9; 10; 13; 0x3000] in
  Json.loads UtcHost.runtime raw_data = Raise JSONDecodeError /\
  (forall f, ConfluentMessageParser.extract_value UtcHost.runtime raw_data
               (field_name f) = PNone) /\
  ConfluentMessageParser._parse_avro_string UtcHost.runtime UtcHost.ambient
    raw_data = Ok (null_record UtcHost.ambient) /\
  ConfluentMessageParser.parse_confluent_message UtcHost.runtime UtcHost.ambient
    raw_data = Ok (null_record UtcHost.ambient) /\
  name (null_record UtcHost.ambient) = None /\
  forall error_msg,
    null_record UtcHost.ambient <> error_record UtcHost.ambient raw_data error_msg.
Proof.
  apply (blank_text_gives_null_record UtcHost.runtime UtcHost.ambient
           [32; 9; 10; 13; 0x3000]).
  reflexivity.
Defined.

Example empty_text_gives_null_record :
  ConfluentMessageParser.parse_confluent_message UtcHost.runtime UtcHost.ambient
    [] = Ok (null_record UtcHost.ambient).
Proof. vm_compute. reflexivity. Qed.

(** ** The parser never raises *)

(** C1, as the program has it. For every text decoded from a body (a
    text without lone surrogate, [decode_utf8_scalar])
    [parse_confluent_message] returns a record and does not raise.  The
    record is the one the inner [try] returns, or the PARSING_FAILED
    record when an exception leaves the inner [try].  When the text is
    not JSON and no pattern of the fallback matches for any field, the
    record is the record of nulls: its [name] and its [record_id] are
    null. *)
Theorem parse_confluent_message_total (R : Runtime) (amb : Ambient)
  (raw_data : str) :
  scalar_text raw_data = true ->
  exists record,
    ConfluentMessageParser.parse_confluent_message R amb raw_data = Ok record /\
    (ConfluentMessageParser.parse_either R amb raw_data = Ok record \/
     exists e,
       ConfluentMessageParser.parse_either R amb raw_data = Raise e /\
       record = error_record amb raw_data (str_exn R e)) /\
    (Json.loads R raw_data = Raise JSONDecodeError ->
     (forall f,
        ConfluentMessageParser.extract_value R raw_data (field_name f) = PNone) ->
     record = null_record amb /\ name record = None /\ record_id record = None).
Proof.
  intros Hraw. rewrite parse_confluent_message_cases by assumption.
  destruct (ConfluentMessageParser.parse_either R amb raw_data) as [r | e] eqn:E.
  - exists r. split; [reflexivity|]. split; [now left|].
    intros Hj Hx. unfold ConfluentMessageParser.parse_either in E.
    rewrite Hj in E. cbn [bind] in E.
    rewrite (parse_avro_string_nothing R amb raw_data Hx) in E.
    injection E as <-. repeat split.
  - exists (error_record amb raw_data (str_exn R e)).
    split; [reflexivity|]. split; [right; now exists e|].
    intros Hj Hx. unfold ConfluentMessageParser.parse_either in E.
    rewrite Hj in E. cbn [bind] in E.
    rewrite (parse_avro_string_nothing R amb raw_data Hx) in E. discriminate.
Qed.

Lemma parse_confluent_message_total_witness :
  let raw_data :=
    py "{'value': {'record_id': 42, 'creat_usrnbr': 7, 'creat_time': 1700000000000}}" in
  exists record,
    ConfluentMessageParser.parse_confluent_message UtcHost.runtime
      UtcHost.ambient raw_data = Ok record /\
    (ConfluentMessageParser.parse_either UtcHost.runtime UtcHost.ambient
       raw_data = Ok record \/
     exists e,
       ConfluentMessageParser.parse_either UtcHost.runtime UtcHost.ambient
         raw_data = Raise e /\
       record = error_record UtcHost.ambient raw_data
                  (str_exn UtcHost.runtime e)) /\
    (Json.loads UtcHost.runtime raw_data = Raise JSONDecodeError ->
     (forall f,
        ConfluentMessageParser.extract_value UtcHost.runtime raw_data
          (field_name f) = PNone) ->
     record = null_record UtcHost.ambient /\ name record = None /\
     record_id record = None).
Proof.
  intros raw_data.
  apply (parse_confluent_message_total UtcHost.runtime UtcHost.ambient raw_data).
  reflexivity.
Defined.

(** The scenario of the specification: a record in an envelope. *)
Example enveloped_record :
  option_map (fun r => (record_id r, creat_usrnbr r, creat_time r, name r))
    (match ConfluentMessageParser.parse_confluent_message UtcHost.runtime
             UtcHost.ambient
             (py "{'value': {'record_id': 42, 'creat_usrnbr': 7, 'creat_time': 1700000000000}}")
     with
     | Ok r => Some r
     | Raise _ => None
     end) =
  Some (Some 42%Z, Some 7%Z, Some (py "2023-11-14T22:13:20"), None).
Proof. vm_compute. reflexivity. Qed.

(** C1, as the claim has it, fails for a text from which nothing is
    recovered: the text below is not JSON, no pattern matches for any of
    the 21 fields, and the record returned has a null [name] and a null
    [record_id], not PARSING_FAILED and -1. *)
Lemma nothing_recovered_is_not_flagged :
  let raw_data := py "not a record" in
  let result :=
    ConfluentMessageParser.parse_confluent_message UtcHost.runtime
      UtcHost.ambient raw_data in
  Json.loads UtcHost.runtime raw_data = Raise JSONDecodeError /\
  Forall (fun f => ConfluentMessageParser.extract_value UtcHost.runtime raw_data
                     (field_name f) = PNone) all_fields /\
  result = Ok (null_record UtcHost.ambient) /\
  (forall record, result = Ok record ->
     name record <> Some (py "PARSING_FAILED") /\ record_id record <> Some (-1)%Z).
Proof.
  cbn zeta. split; [vm_compute; reflexivity|].
  split; [repeat constructor; vm_compute; reflexivity|].
  assert (H : ConfluentMessageParser.parse_confluent_message UtcHost.runtime
                UtcHost.ambient (py "not a record") =
              Ok (null_record UtcHost.ambient)) by (vm_compute; reflexivity).
  split; [exact H|].
  intros record Hr. rewrite H in Hr. injection Hr as <-. split; discriminate.
Qed.

(** ** The patterns of the fallback *)

Section Matching.
Context (opened captured : str).

Lemma match_lits (q : str) (p : Re.pattern) (s : str) :
  Re.match_here (Re.lits q ++ p) (q ++ s) opened captured =
  Re.match_here p s opened captured.
Proof.
  induction q as [|c q IH]; [reflexivity|].
  cbn [Re.lits List.map app Re.match_here]. now rewrite N.eqb_refl.
Qed.

Lemma match_lits_fail (q : str) (p : Re.pattern) (s : str) :
  startswith q s = false ->
  Re.match_here (Re.lits q ++ p) s opened captured = None.
Proof.
  revert s. induction q as [|c q IH]; intros s H; [discriminate|].
  destruct s as [|x s]; [reflexivity|].
  cbn [startswith] in H. cbn [Re.lits List.map app Re.match_here].
  rewrite N.eqb_sym. destruct (c =? x); [|reflexivity].
  apply IH. exact H.
Qed.

Lemma match_many_cons (plus : bool) (k : Re.class) (p : Re.pattern)
  (x : codepoint) (s : str) :
  Re.match_here (Re.Many plus k :: p) (x :: s) opened captured =
  let stop :=
    if plus then None else Re.match_here p (x :: s) opened captured in
  if Re.in_class k x then
    match Re.match_here (Re.Many false k :: p) s opened captured with
    | Some r => Some r
    | None => stop
    end
  else stop.
Proof. reflexivity. Qed.

Lemma match_many_nil (plus : bool) (k : Re.class) (p : Re.pattern) :
  Re.match_here (Re.Many plus k :: p) [] opened captured =
  if plus then None else Re.match_here p [] opened captured.
Proof. reflexivity. Qed.

(** White space before a literal that is no white space: the repetition
    takes all of it, and no shorter choice can go on. *)
Lemma match_spaces_lit (ws : str) (c : codepoint) (p : Re.pattern) (s : str) :
  forallb is_space ws = true ->
  is_space c = false ->
  Re.match_here (Re.Many false Re.Space :: Re.Lit c :: p) (ws ++ c :: s)
    opened captured =
  Re.match_here p s opened captured.
Proof.
  intros Hws Hc. induction ws as [|x ws IH].
  - cbn [app]. rewrite match_many_cons. cbn [Re.in_class]. rewrite Hc.
    cbn [Re.match_here]. now rewrite N.eqb_refl.
  - cbn [forallb] in Hws. apply andb_prop in Hws as [Hx Hws].
    cbn [app]. rewrite match_many_cons. cbn [Re.in_class]. rewrite Hx.
    rewrite (IH Hws). cbn [Re.match_here].
    destruct (x =? c) eqn:E; [|now destruct (Re.match_here p s opened captured)].
    apply N.eqb_eq in E. congruence.
Qed.

(** A repetition takes a whole run of its class when what follows the
    run is outside the class and the rest of the pattern matches there. *)
Lemma match_run (k : Re.class) (p : Re.pattern) (run rest r : str) :
  forallb (Re.in_class k) run = true ->
  match rest with [] => true | y :: _ => negb (Re.in_class k y) end = true ->
  Re.match_here p rest opened captured = Some r ->
  Re.match_here (Re.Many false k :: p) (run ++ rest) opened captured = Some r.
Proof.
  intros Hrun Hrest Hp. induction run as [|x run IH].
  - cbn [app]. destruct rest as [|y rest]; [now rewrite match_many_nil|].
    rewrite match_many_cons. apply negb_true_iff in Hrest. now rewrite Hrest.
  - cbn [forallb] in Hrun. apply andb_prop in Hrun as [Hx Hrun].
    cbn [app]. rewrite match_many_cons, Hx. now rewrite (IH Hrun).
Qed.

Lemma match_run_plus (k : Re.class) (p : Re.pattern) (x : codepoint)
  (run rest r : str) :
  forallb (Re.in_class k) (x :: run) = true ->
  match rest with [] => true | y :: _ => negb (Re.in_class k y) end = true ->
  Re.match_here p rest opened captured = Some r ->
  Re.match_here (Re.Many true k :: p) (x :: run ++ rest) opened captured = Some r.
Proof.
  intros Hrun Hrest Hp.
  cbn [forallb] in Hrun. apply andb_prop in Hrun as [Hx Hrun].
  rewrite match_many_cons, Hx. now rewrite (match_run k p run rest r).
Qed.

End Matching.

Lemma match_group_open (p : Re.pattern) (s opened captured : str) :
  Re.match_here (Re.GroupOpen :: p) s opened captured =
  Re.match_here p s s captured.
Proof. reflexivity. Qed.

Lemma match_group_close (p : Re.pattern) (s opened captured : str) :
  Re.match_here (Re.GroupClose :: p) s opened captured =
  Re.match_here p s opened (take (length opened - length s) opened).
Proof. reflexivity. Qed.

Lemma match_lit (c : codepoint) (p : Re.pattern) (s opened captured : str) :
  Re.match_here (Re.Lit c :: p) (c :: s) opened captured =
  Re.match_here p s opened captured.
Proof. cbn [Re.match_here]. now rewrite N.eqb_refl. Qed.

(** White space before the group of a number. *)
Lemma match_spaces_group (ws : str) (p : Re.pattern) (d : codepoint) (s : str)
  (opened captured : str) :
  forallb is_space ws = true ->
  forallb (fun x => negb (is_decimal x)) ws = true ->
  is_space d = false ->
  Re.match_here (Re.Many false Re.Space :: Re.GroupOpen :: Re.Many true Re.Digit :: p)
    (ws ++ d :: s) opened captured =
  Re.match_here (Re.Many true Re.Digit :: p) (d :: s) (d :: s) captured.
Proof.
  intros Hws Hnd Hd. induction ws as [|x ws IH].
  - cbn [app]. rewrite match_many_cons. cbn [Re.in_class]. rewrite Hd.
    apply match_group_open.
  - cbn [forallb] in Hws, Hnd.
    apply andb_prop in Hws as [Hx Hws]. apply andb_prop in Hnd as [Hxd Hnd].
    apply negb_true_iff in Hxd.
    cbn [app]. rewrite match_many_cons. cbn [Re.in_class]. rewrite Hx.
    rewrite (IH Hws Hnd).
    replace (Re.match_here (Re.GroupOpen :: Re.Many true Re.Digit :: p)
               (x :: ws ++ d :: s) opened captured) with (@None str).
    + now destruct (Re.match_here _ (d :: s) (d :: s) captured).
    + rewrite match_group_open.
      rewrite match_many_cons. cbn [Re.in_class]. now rewrite Hxd.
Qed.

(** ** [re.search] *)

Lemma search_skip (p : Re.pattern) (pre s : str) :
  (forall i, (i < length pre)%nat ->
     Re.match_here p (drop i (pre ++ s)) [] [] = None) ->
  Re.search p (pre ++ s) = Re.search p s.
Proof.
  induction pre as [|x pre IH]; intros H; [reflexivity|].
  assert (H0 := H 0%nat ltac:(cbn [length]; lia)). cbn [drop app] in H0.
  cbn [app Re.search]. rewrite H0.
  apply IH. intros i Hi. apply (H (S i)). cbn [length]. lia.
Qed.

Lemma search_here (p : Re.pattern) (s g : str) :
  Re.match_here p s [] [] = Some g -> Re.search p s = Some g.
Proof. intros H. destruct s; cbn [Re.search]; now rewrite H. Qed.

Lemma search_nowhere (p : Re.pattern) (s : str) :
  (forall i, Re.match_here p (drop i s) [] [] = None) ->
  Re.search p s = None.
Proof.
  induction s as [|x s IH]; intros H.
  - assert (H0 := H 0%nat). cbn [drop] in H0.
    cbn [Re.search]. now rewrite H0.
  - assert (H0 := H 0%nat). cbn [drop] in H0.
    cbn [Re.search]. rewrite H0. apply IH.
    intros i. apply (H (S i)).
Qed.

(** ** Digits *)

Lemma ascii_digit_cases (c : codepoint) :
  is_ascii_digit c = true -> In c [48; 49; 50; 51; 52; 53; 54; 55; 56; 57].
Proof.
  unfold is_ascii_digit. intros H. apply andb_prop in H as [H1 H2].
  apply N.leb_le in H1, H2. cbn [In]. lia.
Qed.

Ltac each_case H :=
  cbn [In] in H; repeat (destruct H as [<- | H]; [|]); [..|destruct H].

Lemma ascii_digit_decimal (c : codepoint) :
  is_ascii_digit c = true -> decimal_value c = Some (c - 48).
Proof. intros H. apply ascii_digit_cases in H. each_case H; reflexivity. Qed.

Lemma ascii_digit_is_decimal (c : codepoint) :
  is_ascii_digit c = true -> is_decimal c = true.
Proof. intros H. unfold is_decimal. now rewrite ascii_digit_decimal. Qed.

Lemma ascii_digit_not_space (c : codepoint) :
  is_ascii_digit c = true -> is_space c = false.
Proof. intros H. apply ascii_digit_cases in H. each_case H; reflexivity. Qed.

Lemma space_not_decimal (c : codepoint) :
  is_space c = true -> is_decimal c = false.
Proof. intros H. apply is_space_cases in H. each_case H; reflexivity. Qed.

Lemma digits_and_underscores_ascii (ds : str) :
  forallb is_ascii_digit ds = true ->
  forall (after_digit : bool) (acc : N) (count : nat),
    digits_and_underscores ds after_digit acc count =
    match ds with
    | [] => if after_digit then Some (acc, count) else None
    | _ :: _ =>
        Some (fold_left (fun acc c => 10 * acc + (c - 48)) ds acc,
              (count + length ds)%nat)
    end.
Proof.
  induction ds as [|c ds IH]; intros H after_digit acc count; [reflexivity|].
  cbn [forallb] in H. apply andb_prop in H as [Hc Hds].
  cbn [digits_and_underscores]. rewrite (ascii_digit_decimal c Hc).
  rewrite (IH Hds). destruct ds.
  - cbn [fold_left length]. do 2 f_equal. lia.
  - cbn [fold_left length]. do 2 f_equal. lia.
Qed.

(** [int] reads a run of ASCII digits as the number it writes. *)
Lemma py_int_digits (R : Runtime) (ds : str) :
  forallb is_ascii_digit ds = true ->
  ds <> [] ->
  within_digit_limit R (length ds) = true ->
  py_int R ds = Some (Z.of_N (N_of_digits ds)).
Proof.
  intros H Hne Hlim. destruct ds as [|d ds]; [congruence|].
  assert (Hall := H). cbn [forallb] in H. apply andb_prop in H as [Hd _].
  unfold py_int.
  assert (Hstrip : lstrip (d :: ds) = d :: ds).
  { cbn [lstrip]. unfold is_int_space. now rewrite (ascii_digit_not_space d Hd). }
  rewrite Hstrip.
  apply ascii_digit_cases in Hd.
  each_case Hd; cbv beta iota zeta;
    rewrite (digits_and_underscores_ascii _ Hall);
    cbn [Nat.add]; rewrite Hlim; reflexivity.
Qed.

(** ** The wrapped shape under the patterns *)

Lemma field_prefix_lits (field_name : str) (p : Re.pattern) :
  ConfluentMessageParser.field_prefix field_name ++ p =
  Re.lits (quoted field_name) ++
  Re.Many false Re.Space :: Re.Lit 58 :: Re.Many false Re.Space :: p.
Proof.
  unfold ConfluentMessageParser.field_prefix, quoted, Re.lits.
  cbn [app List.map]. rewrite List.map_app, <- !app_assoc. reflexivity.
Qed.

Lemma patterns_by_tail (field_name : str) :
  ConfluentMessageParser.patterns field_name =
  [Re.lits (quoted field_name) ++ int_tail;
   Re.lits (quoted field_name) ++ string_tail;
   Re.lits (quoted field_name) ++ bare_number_tail;
   Re.lits (quoted field_name) ++ bare_string_tail].
Proof.
  unfold ConfluentMessageParser.patterns.
  rewrite !field_prefix_lits. reflexivity.
Qed.

Lemma blank_parts (g : spacing) :
  blank g = true ->
  forallb is_space (after_name g) = true /\
  forallb is_space (after_colon g) = true /\
  forallb is_space (after_brace g) = true /\
  forallb is_space (after_type g) = true /\
  forallb is_space (before_value g) = true /\
  forallb is_space (after_value g) = true.
Proof.
  unfold blank. intros H.
  repeat (apply andb_prop in H as [H ?]). repeat split; assumption.
Qed.

(** The text of the wrapped shape, laid out character by character. *)
Lemma wrapped_text_int (field_name ds post : str) (g : spacing) :
  wrapped_text field_name (WrappedInt ds) g ++ post =
  quoted field_name ++ after_name g ++ 58 :: after_colon g ++ 123 ::
  after_brace g ++ QUOTE :: 105 :: 110 :: 116 :: QUOTE :: after_type g ++ 58 ::
  before_value g ++ ds ++ after_value g ++ 125 :: post.
Proof.
  unfold wrapped_text. cbn [payload type_name].
  change (quoted (py "int")) with [QUOTE; 105; 110; 116; QUOTE].
  rewrite <- !app_assoc. reflexivity.
Qed.

Lemma wrapped_text_string (field_name text post : str) (g : spacing) :
  wrapped_text field_name (WrappedString text) g ++ post =
  quoted field_name ++ after_name g ++ 58 :: after_colon g ++ 123 ::
  after_brace g ++ QUOTE :: 115 :: 116 :: 114 :: 105 :: 110 :: 103 :: QUOTE ::
  after_type g ++ 58 :: before_value g ++ QUOTE :: text ++ QUOTE ::
  after_value g ++ 125 :: post.
Proof.
  unfold wrapped_text. cbn [payload type_name].
  change (quoted (py "string")) with [QUOTE; 115; 116; 114; 105; 110; 103; QUOTE].
  unfold quoted at 2. rewrite <- !app_assoc. cbn [app].
  rewrite <- !app_assoc. reflexivity.
Qed.

Lemma after_value_head (k : Re.class) (ws post : str) :
  forallb is_space ws = true ->
  (forall x, is_space x = true -> Re.in_class k x = false) ->
  Re.in_class k 125 = false ->
  match ws ++ 125 :: post with
  | [] => true
  | y :: _ => negb (Re.in_class k y)
  end = true.
Proof.
  intros Hws Hk H125. destruct ws as [|x ws]; cbn [app].
  - now rewrite H125.
  - cbn [forallb] in Hws. apply andb_prop in Hws as [Hx _].
    now rewrite (Hk x Hx).
Qed.

(** The first pattern matches the shape with an integer, and its group
    is the run of digits. *)
Lemma match_wrapped_int (field_name ds post : str) (g : spacing) :
  blank g = true ->
  forallb is_ascii_digit ds = true ->
  ds <> [] ->
  Re.match_here (Re.lits (quoted field_name) ++ int_tail)
    (wrapped_text field_name (WrappedInt ds) g ++ post) [] [] = Some ds.
Proof.
  intros Hg Hds Hne.
  destruct (blank_parts g Hg) as (H1 & H2 & H3 & H4 & H5 & H6).
  destruct ds as [|d ds]; [congruence|].
  assert (Hall := Hds). cbn [forallb] in Hds. apply andb_prop in Hds as [Hd Hds].
  rewrite wrapped_text_int, match_lits. unfold int_tail.
  rewrite (match_spaces_lit _ _ _ 58) by (assumption || reflexivity).
  rewrite (match_spaces_lit _ _ _ 123) by (assumption || reflexivity).
  rewrite (match_spaces_lit _ _ _ QUOTE) by (assumption || reflexivity).
  rewrite !match_lit.
  rewrite (match_spaces_lit _ _ _ 58) by (assumption || reflexivity).
  cbn [app].
  rewrite match_spaces_group; [| assumption | | now apply ascii_digit_not_space].
  - apply match_run_plus.
    + cbn [forallb Re.in_class]. rewrite (ascii_digit_is_decimal d Hd).
      cbn [andb]. apply forallb_forall. intros x Hx.
      rewrite forallb_forall in Hds. apply ascii_digit_is_decimal. auto.
    + apply after_value_head; [assumption | | reflexivity].
      intros x Hx. now apply space_not_decimal.
    + rewrite match_group_close.
      rewrite (match_spaces_lit _ _ _ 125) by (assumption || reflexivity).
      cbn [Re.match_here]. f_equal.
      change (d :: ds ++ after_value g ++ 125 :: post)
        with ((d :: ds) ++ after_value g ++ 125 :: post).
      rewrite length_app, Nat.add_sub. apply take_app_length.
  - apply forallb_forall. intros x Hx. rewrite forallb_forall in H5.
    now rewrite space_not_decimal by auto.
Qed.

(** The second pattern matches the shape with a text, and its group is
    the text. *)
Lemma match_wrapped_string (field_name text post : str) (g : spacing) :
  blank g = true ->
  forallb (Re.in_class Re.NotQuote) text = true ->
  text <> [] ->
  Re.match_here (Re.lits (quoted field_name) ++ string_tail)
    (wrapped_text field_name (WrappedString text) g ++ post) [] [] = Some text.
Proof.
  intros Hg Htext Hne.
  destruct (blank_parts g Hg) as (H1 & H2 & H3 & H4 & H5 & H6).
  destruct text as [|c text]; [congruence|].
  rewrite wrapped_text_string, match_lits. unfold string_tail.
  rewrite (match_spaces_lit _ _ _ 58) by (assumption || reflexivity).
  rewrite (match_spaces_lit _ _ _ 123) by (assumption || reflexivity).
  rewrite (match_spaces_lit _ _ _ QUOTE) by (assumption || reflexivity).
  rewrite !match_lit.
  rewrite (match_spaces_lit _ _ _ 58) by (assumption || reflexivity).
  rewrite (match_spaces_lit _ _ _ QUOTE) by (assumption || reflexivity).
  rewrite match_group_open. cbn [app].
  apply match_run_plus; [assumption | reflexivity |].
  rewrite match_group_close, match_lit.
  rewrite (match_spaces_lit _ _ _ 125) by (assumption || reflexivity).
  cbn [Re.match_here]. f_equal.
  change (c :: text ++ QUOTE :: after_value g ++ 125 :: post)
    with ((c :: text) ++ QUOTE :: after_value g ++ 125 :: post).
  rewrite length_app, Nat.add_sub. apply take_app_length.
Qed.

(** The first pattern does not match the shape with a text. *)
Lemma mismatch_wrapped_string (field_name text post : str) (g : spacing) :
  blank g = true ->
  Re.match_here (Re.lits (quoted field_name) ++ int_tail)
    (wrapped_text field_name (WrappedString text) g ++ post) [] [] = None.
Proof.
  intros Hg.
  destruct (blank_parts g Hg) as (H1 & H2 & H3 & H4 & H5 & H6).
  rewrite wrapped_text_string, match_lits. unfold int_tail.
  rewrite (match_spaces_lit _ _ _ 58) by (assumption || reflexivity).
  rewrite (match_spaces_lit _ _ _ 123) by (assumption || reflexivity).
  rewrite (match_spaces_lit _ _ _ QUOTE) by (assumption || reflexivity).
  reflexivity.
Qed.

(** Where the quoted name does not start, no pattern matches. *)
Lemma no_match_elsewhere (field_name : str) (tail : Re.pattern) (text : str)
  (i : nat) :
  occurs_at field_name text i = false ->
  Re.match_here (Re.lits (quoted field_name) ++ tail) (drop i text) [] [] = None.
Proof. intros H. now apply match_lits_fail. Qed.

Lemma not_true_is_false' (b : bool) : (b = true -> False) -> b = false.
Proof. destruct b; intuition. Qed.

(** The value [extract_value] finds for a field in the wrapped shape. *)
Lemma extract_wrapped (R : Runtime) (f : field) (w : wrapped_value)
  (g : spacing) (pre post : str) :
  let text := pre ++ wrapped_text (py (field_name f)) w g ++ post in
  comparable R f w = true ->
  blank g = true ->
  placed (py (field_name f)) w pre text ->
  ConfluentMessageParser.extract_value R text (field_name f) = value_of w.
Proof.
  intros text Hw Hg Hplaced.
  unfold ConfluentMessageParser.extract_value. rewrite patterns_by_tail.
  assert (Hbefore : forall tail i, (i < length pre)%nat ->
            Re.match_here (Re.lits (quoted (py (field_name f))) ++ tail)
              (drop i text) [] [] = None).
  { intros tail i Hi. apply no_match_elsewhere. apply not_true_is_false'.
    intros Ho. apply Hplaced in Ho. destruct w; lia. }
  destruct w as [ds | s]; cbn [comparable] in Hw.
  - apply andb_prop in Hw as [Hw Hlim]. apply andb_prop in Hw as [_ Hds].
    unfold json_integer in Hds. apply andb_prop in Hds as [Hds Hcanon].
    assert (Hne : ds <> []) by (destruct ds; [discriminate | congruence]).
    cbn [ConfluentMessageParser.first_match].
    unfold text. rewrite search_skip by (intros i Hi; now apply Hbefore).
    rewrite (search_here _ _ ds) by now apply match_wrapped_int.
    rewrite (py_int_digits R ds Hds Hne Hlim). reflexivity.
  - apply andb_prop in Hw as [Hw Hint]. apply andb_prop in Hw as [Hne Hplain].
    assert (Hne' : s <> []) by (destruct s; [discriminate | congruence]).
    assert (Hnq : forallb (Re.in_class Re.NotQuote) s = true).
    { apply forallb_forall. intros c Hc. rewrite forallb_forall in Hplain.
      specialize (Hplain c Hc). unfold json_plain in Hplain.
      apply andb_prop in Hplain as [Hplain _].
      apply andb_prop in Hplain as [Hplain _]. exact Hplain. }
    cbn [ConfluentMessageParser.first_match].
    rewrite search_nowhere.
    + unfold text. rewrite search_skip by (intros i Hi; now apply Hbefore).
      rewrite (search_here _ _ s) by now apply match_wrapped_string.
      cbn [value_of]. now destruct (py_int R s).
    + intros i. destruct (Nat.eq_dec i (length pre)) as [-> | Hi].
      * unfold text. rewrite drop_app_length.
        now apply mismatch_wrapped_string.
      * apply no_match_elsewhere. apply not_true_is_false'.
        intros Ho. apply Hplaced in Ho. contradiction.
Qed.

(** ** The plain document under [json.loads] *)

Lemma run_skip (R : Runtime) (st : Json.state) (pre s : str) :
  Json.run R (length pre) st (pre ++ s) = Json.run R 0 st s.
Proof.
  induction pre as [|c pre IH]; [reflexivity|].
  cbn [length app Json.run]. exact IH.
Qed.

Lemma run_step (R : Runtime) (m : Json.mode) (stack : list Json.frame)
  (c : codepoint) (rest : str) (st' : Json.state) (used : nat) :
  Json.is_ws c = false ->
  Json.step R (Json.Scanning m stack) c rest = (st', used) ->
  Json.run R 0 (Json.Scanning m stack) (c :: rest) = Json.run R used st' rest.
Proof. intros Hws Hstep. cbn [Json.run]. now rewrite Hws, Hstep. Qed.

Lemma scanstring_cons_plain (c : codepoint) (s : str) :
  json_plain c = true ->
  Json.scanstring (c :: s) = Json.cons_char c (Json.scanstring s) 1.
Proof.
  unfold json_plain. intros H.
  apply andb_prop in H as [H Hctl]. apply andb_prop in H as [Hq Hb].
  apply negb_true_iff in Hq, Hb. apply N.ltb_lt in Hctl.
  assert (Hle : (c <=? 0x1F) = false) by (apply N.leb_gt; exact Hctl).
  cbn [Json.scanstring]. now rewrite Hq, Hb, Hle.
Qed.

(** A string literal of plain text is read as it is. *)
Lemma scanstring_plain (s rest : str) :
  forallb json_plain s = true ->
  Json.scanstring (s ++ QUOTE :: rest) = Some (s, S (length s)).
Proof.
  induction s as [|c s IH]; intros H; [reflexivity|].
  cbn [forallb] in H. apply andb_prop in H as [Hc Hs].
  cbn [app]. rewrite (scanstring_cons_plain c _ Hc), (IH Hs). reflexivity.
Qed.

Lemma span_run (cls : codepoint -> bool) (run rest : str) :
  forallb cls run = true ->
  match rest with [] => true | y :: _ => negb (cls y) end = true ->
  span cls (run ++ rest) = (run, rest).
Proof.
  intros Hrun Hrest. induction run as [|x run IH].
  - destruct rest as [|y rest]; [reflexivity|].
    cbn [app span]. apply negb_true_iff in Hrest. now rewrite Hrest.
  - cbn [forallb] in Hrun. apply andb_prop in Hrun as [Hx Hrun].
    cbn [app span]. now rewrite Hx, (IH Hrun).
Qed.

(** An integer literal followed by a closing brace is read as a whole. *)
Lemma match_number_integer (ds tail : str) :
  json_integer ds = true ->
  Json.match_number (ds ++ 125 :: tail) =
  Some ({| Json.negative := false; Json.int_digits := ds;
           Json.frac_digits := None; Json.exponent := None |}, length ds).
Proof.
  unfold json_integer. intros H. apply andb_prop in H as [Hds Hcanon].
  destruct ds as [|d ds]; [discriminate|].
  assert (Hspan : span is_ascii_digit ((d :: ds) ++ 125 :: tail) =
                  (d :: ds, 125 :: tail)) by now apply span_run.
  cbn [forallb] in Hds. apply andb_prop in Hds as [Hd Hds].
  apply ascii_digit_cases in Hd. unfold Json.match_number.
  each_case Hd;
    try (destruct ds; [reflexivity | discriminate]);
    cbn [app] in Hspan |- *; cbv beta iota zeta;
    change (is_ascii_digit _) with true at 1; cbv beta iota;
    rewrite Hspan; cbn; rewrite ?Nat.add_0_r; reflexivity.
Qed.

Lemma number_value_integer (R : Runtime) (ds : str) :
  within_digit_limit R (length ds) = true ->
  Json.number_value R
    {| Json.negative := false; Json.int_digits := ds;
       Json.frac_digits := None; Json.exponent := None |} =
  Ok (PInt (Z.of_N (N_of_digits ds))).
Proof.
  intros H. unfold Json.number_value.
  cbn [Json.frac_digits Json.exponent Json.int_digits Json.negative].
  now rewrite H.
Qed.

(** The scanner at the first digit of an integer literal. *)
Lemma scan_value_integer (R : Runtime) (stack : list Json.frame)
  (d : codepoint) (ds tail : str) :
  json_integer (d :: ds) = true ->
  within_digit_limit R (length (d :: ds)) = true ->
  Json.scan_value R stack d (ds ++ 125 :: tail) =
  (Json.deliver (PInt (Z.of_N (N_of_digits (d :: ds)))) stack, length ds).
Proof.
  intros Hds Hlim.
  assert (Hm := match_number_integer (d :: ds) tail Hds).
  assert (Hv := number_value_integer R (d :: ds) Hlim).
  unfold json_integer in Hds. apply andb_prop in Hds as [Hds _].
  cbn [forallb] in Hds. apply andb_prop in Hds as [Hd _].
  unfold Json.scan_value. cbn [app] in Hm. rewrite Hm, Hv.
  apply ascii_digit_cases in Hd. each_case Hd; reflexivity.
Qed.

(** The scanner at the opening quote of a plain text. *)
Lemma scan_value_text (R : Runtime) (stack : list Json.frame) (s rest : str) :
  forallb json_plain s = true ->
  Json.scan_value R stack QUOTE (s ++ QUOTE :: rest) =
  (Json.deliver (PStr s) stack, S (length s)).
Proof.
  intros H. unfold Json.scan_value.
  rewrite (scanstring_plain s rest H). reflexivity.
Qed.

(** The plain document [{"field": value}] parses to the dict with that
    one member. *)
Lemma loads_plain_document (R : Runtime) (field_name : str) (w : wrapped_value) :
  recursion_depth R <> 0%nat ->
  forallb json_plain field_name = true ->
  match w with
  | WrappedInt ds =>
      json_integer ds = true /\ within_digit_limit R (length ds) = true
  | WrappedString s => forallb json_plain s = true
  end ->
  Json.loads R (plain_document field_name w) =
  Ok (PDict [(field_name, value_of w)]).
Proof.
  intros Hdepth Hname Hw.
  unfold Json.loads, plain_document, quoted.
  cbn [app startswith]. change (0xFEFF =? 123) with false. cbn [andb].
  (* the opening brace *)
  rewrite (run_step R _ _ 123 _ (Json.Scanning Json.KeyOrEnd [Json.FObject []]) 0%nat);
    [| reflexivity |].
  2:{ cbn [Json.step]. unfold Json.scan_value.
      change (123 =? QUOTE) with false. change (123 =? 123) with true.
      cbv beta iota. unfold Json.enter. cbn [length].
      destruct (recursion_depth R); [congruence | reflexivity]. }
  (* the name *)
  rewrite <- app_assoc. cbn [app].
  rewrite (run_step R _ _ QUOTE _
             (Json.Scanning Json.Colon [Json.FMember [] field_name])
             (S (length field_name)));
    [| reflexivity |].
  2:{ cbn [Json.step]. change (QUOTE =? 125) with false.
      change (QUOTE =? QUOTE) with true. cbv beta iota.
      unfold Json.scan_key. now rewrite (scanstring_plain field_name _ Hname). }
  change (field_name ++ QUOTE :: 58 :: 32 :: payload w ++ [125])
    with (field_name ++ [QUOTE] ++ 58 :: 32 :: payload w ++ [125]).
  rewrite app_assoc.
  replace (S (length field_name)) with (length (field_name ++ [QUOTE]))
    by (rewrite length_app; cbn [length]; lia).
  rewrite run_skip.
  (* the colon and the space *)
  rewrite (run_step R _ _ 58 _
             (Json.Scanning Json.Value [Json.FMember [] field_name]) 0%nat);
    [| reflexivity | reflexivity].
  change (Json.run R 0 ?st (32 :: ?rest)) with (Json.run R 0 st rest).
  (* the value and the closing brace *)
  destruct w as [ds | s]; cbn [payload value_of].
  - destruct Hw as [Hds Hlim].
    destruct ds as [|d ds]; [discriminate|]. cbn [app].
    rewrite (run_step R _ _ d _
               (Json.deliver (PInt (Z.of_N (N_of_digits (d :: ds))))
                  [Json.FMember [] field_name]) (length ds)).
    + cbn [Json.deliver dict_setitem]. rewrite run_skip. reflexivity.
    + assert (Hd : is_ascii_digit d = true).
      { unfold json_integer in Hds. apply andb_prop in Hds as [Hds _].
        cbn [forallb] in Hds. now apply andb_prop in Hds as [Hd _]. }
      apply ascii_digit_cases in Hd. each_case Hd; reflexivity.
    + cbn [Json.step]. now apply scan_value_integer.
  - unfold quoted. cbn [app]. rewrite <- app_assoc. cbn [app].
    rewrite (run_step R _ _ QUOTE _
               (Json.deliver (PStr s) [Json.FMember [] field_name])
               (S (length s)));
      [| reflexivity | cbn [Json.step]; now apply scan_value_text].
    cbn [Json.deliver dict_setitem].
    change (s ++ [QUOTE; 125]) with (s ++ [QUOTE] ++ [125]).
    rewrite app_assoc.
    replace (S (length s)) with (length (s ++ [QUOTE]))
      by (rewrite length_app; cbn [length]; lia).
    rewrite run_skip. reflexivity.
Qed.

(** ** The two decoders on one field *)

Lemma field_name_plain (f : field) : forallb json_plain (py (field_name f)) = true.
Proof. destruct f; reflexivity. Qed.

Lemma fallback_argument_extract (R : Runtime) (f : field) (text : str) :
  fallback_argument R f text =
  ConfluentMessageParser.extract_value R text (field_name f).
Proof. destruct f; reflexivity. Qed.

(** What the structured decoder passes on for the field of a document
    with that one member: the value, which goes through
    [_convert_timestamp] for the two timestamp fields. *)
Lemma json_kwargs_member (R : Runtime) (f : field) (v : pyval) :
  exists arguments,
    ConfluentMessageParser.json_kwargs R (PDict [(py (field_name f), v)]) =
      Ok arguments /\
    kw_of f arguments =
      if is_timestamp f
      then ConfluentMessageParser.of_option_str
             (ConfluentMessageParser._convert_timestamp R v)
      else v.
Proof. destruct f; eexists; (split; [reflexivity|]); reflexivity. Qed.

(** C7, as the program has it.  Take a text that is not JSON and in which
    a field is in the wrapped shape, this being the occurrence the
    patterns find ([placed]).  For ["field": {"int": N}], [N] an unsigned
    integer literal of JSON and the field not a timestamp, the fallback
    passes the integer [N] to the constructor; for
    ["field": {"string": "S"}], [S] a non-empty text without quote,
    backslash or control character that [int] does not read as a number,
    it passes the text [S], for the timestamp fields too.  In both cases
    this is the value the structured decoder passes for the plain
    document [{"field": N}] or [{"field": "S"}]. *)
Theorem wrapped_field_agrees (R : Runtime) (amb : Ambient) (f : field)
  (w : wrapped_value) (g : spacing) (pre post : str) :
  let text := pre ++ wrapped_text (py (field_name f)) w g ++ post in
  Json.loads R text = Raise JSONDecodeError ->
  recursion_depth R <> 0%nat ->
  comparable R f w = true ->
  blank g = true ->
  placed (py (field_name f)) w pre text ->
  ConfluentMessageParser.parse_either R amb text =
    ConfluentMessageParser._parse_avro_string R amb text /\
  fallback_argument R f text = value_of w /\
  structured_argument R f (plain_document (py (field_name f)) w) =
    Ok (value_of w).
Proof.
  intros text Hjson Hdepth Hw Hg Hplaced. split; [|split].
  - unfold ConfluentMessageParser.parse_either. now rewrite Hjson.
  - rewrite fallback_argument_extract. now apply extract_wrapped.
  - unfold structured_argument.
    rewrite (loads_plain_document R (py (field_name f)) w Hdepth
               (field_name_plain f)).
    + cbn [bind].
      destruct (json_kwargs_member R f (value_of w)) as (k & -> & Hk).
      cbn [bind]. rewrite Hk. f_equal.
      destruct w as [ds | s]; cbn [comparable] in Hw.
      * apply andb_prop in Hw as [Hw _]. apply andb_prop in Hw as [Hts _].
        apply negb_true_iff in Hts. now rewrite Hts.
      * apply andb_prop in Hw as [Hw _]. apply andb_prop in Hw as [Hne _].
        destruct s; [discriminate|]. cbn [value_of].
        now destruct (is_timestamp f).
    + destruct w as [ds | s]; cbn [comparable] in Hw.
      * apply andb_prop in Hw as [Hw Hlim]. apply andb_prop in Hw as [_ Hds].
        now split.
      * apply andb_prop in Hw as [Hw _]. now apply andb_prop in Hw as [_ Hplain].
Qed.

(** [placed], checked position by position. *)
Lemma placed_by_check (field_name : str) (w : wrapped_value) (pre text : str) :
  forallb (fun i => negb (occurs_at field_name text i) ||
                    match w with
                    | WrappedInt _ => (length pre <=? i)%nat
                    | WrappedString _ => (i =? length pre)%nat
                    end) (seq 0 (S (length text))) = true ->
  placed field_name w pre text.
Proof.
  intros H i Hi. rewrite forallb_forall in H.
  destruct (Nat.le_gt_cases i (length text)) as [Hle | Hgt].
  - assert (Hin : In i (seq 0 (S (length text)))) by (apply in_seq; lia).
    specialize (H i Hin). rewrite Hi in H. cbn [negb orb] in H.
    destruct w; [now apply Nat.leb_le | now apply Nat.eqb_eq].
  - unfold occurs_at in Hi. rewrite drop_ge in Hi by lia. discriminate.
Qed.

Lemma wrapped_field_agrees_witness :
  let g := {| after_name := []; after_colon := [32]; after_brace := [];
              after_type := []; before_value := [32]; after_value := [] |} in
  let text := py "'record_id': {'int': 99}, " ++
              wrapped_text (py "name") (WrappedString (py "Alice")) g ++ [] in
  ConfluentMessageParser.parse_either UtcHost.runtime UtcHost.ambient text =
    ConfluentMessageParser._parse_avro_string UtcHost.runtime UtcHost.ambient
      text /\
  fallback_argument UtcHost.runtime F_name text = PStr (py "Alice") /\
  structured_argument UtcHost.runtime F_name (py "{'name': 'Alice'}") =
    Ok (PStr (py "Alice")).
Proof.
  apply (wrapped_field_agrees UtcHost.runtime UtcHost.ambient F_name
           (WrappedString (py "Alice"))
           {| after_name := []; after_colon := [32]; after_brace := [];
              after_type := []; before_value := [32]; after_value := [] |}
           (py "'record_id': {'int': 99}, ") []).
  - vm_compute. reflexivity.
  - vm_compute. lia.
  - vm_compute. reflexivity.
  - vm_compute. reflexivity.
  - apply placed_by_check. vm_compute. reflexivity.
Defined.

(** The scenario of the specification: a fragment that is not JSON. *)
Example wrapped_fragment :
  ConfluentMessageParser.parse_confluent_message UtcHost.runtime UtcHost.ambient
    (py "'record_id': {'int': 99}, 'name': {'string': 'Alice'}") =
  Ok {| authorizer_usrnbr := None; creat_time := None; creat_usrnbr := None;
        data := None; description := None; description2 := None;
        external_user := None; four_eye_on := None;
        name := Some (py "Alice");
        next_seqnbr := None; oper := None; owner_usrnbr := None;
        protection := None;
        record_id := Some 99%Z;
        seqnbr := None; size := None; transnbr := None;
        trans_record_type := None; updat_time := None; updat_usrnbr := None;
        version := None;
        received_at := now_received UtcHost.ambient;
        processing_id := uuid4 UtcHost.ambient |}.
Proof. vm_compute. reflexivity. Qed.

(** C7, as the claim has it, fails.  A timestamp in the wrapped shape is
    passed on as the integer it is, while the structured decoder converts
    it; a text with an escape is passed on with its backslashes, while
    the structured decoder decodes them; a negative integer is not found
    by the patterns at all. None of the three texts is JSON. *)
Lemma wrapped_field_differs :
  Json.loads UtcHost.runtime (py "'creat_time': {'int': 1700000000000}") =
    Raise JSONDecodeError /\
  fallback_argument UtcHost.runtime F_creat_time
    (py "'creat_time': {'int': 1700000000000}") = PInt 1700000000000 /\
  structured_argument UtcHost.runtime F_creat_time
    (py "{'creat_time': 1700000000000}") = Ok (PStr (py "2023-11-14T22:13:20")) /\
  Json.loads UtcHost.runtime (py "'name': {'string': 'a\\b'}") =
    Raise JSONDecodeError /\
  fallback_argument UtcHost.runtime F_name (py "'name': {'string': 'a\\b'}") =
    PStr [97; 92; 92; 98] /\
  structured_argument UtcHost.runtime F_name (py "{'name': 'a\\b'}") =
    Ok (PStr [97; 92; 98]) /\
  Json.loads UtcHost.runtime (py "'oper': {'int': -5}") = Raise JSONDecodeError /\
  fallback_argument UtcHost.runtime F_oper (py "'oper': {'int': -5}") = PNone /\
  structured_argument UtcHost.runtime F_oper (py "{'oper': -5}") =
    Ok (PInt (-5)).
Proof. vm_compute. repeat split. Qed.

(** ** Bodies *)

Ltac to_prop :=
  repeat match goal with
         | H : (_ && _) = true |- _ => apply andb_prop in H as [? ?]
         | H : negb _ = true |- _ => apply negb_true_iff in H
         | H : (_ && _) = false |- _ => apply andb_false_iff in H
         | H : (_ <? _) = true |- _ => apply N.ltb_lt in H
         | H : (_ <? _) = false |- _ => apply N.ltb_ge in H
         | H : (_ <=? _) = true |- _ => apply N.leb_le in H
         | H : (_ <=? _) = false |- _ => apply N.leb_gt in H
         | H : (_ =? _) = true |- _ => apply N.eqb_eq in H
         | H : (_ =? _) = false |- _ => apply N.eqb_neq in H
         | H : _ \/ _ |- _ => destruct H
         end.

Ltac scalar_by_bounds :=
  unfold is_scalar; apply orb_true_iff;
  rewrite andb_true_iff, !N.ltb_lt; to_prop; lia.

(** Text decoded from UTF-8 holds no lone surrogate. *)
Lemma utf8_decode_scalar (bs : list N) (s : str) :
  utf8_decode bs = Ok s -> scalar_text s = true.
Proof.
  revert s. induction bs as [bs IH] using (induction_ltof1 _ (@length N)).
  unfold ltof in IH. intros s H.
  destruct bs as [|b1 t1]; [now injection H as <-|].
  cbn [utf8_decode] in H.
  destruct (b1 <? 0x80) eqn:E1.
  { destruct (utf8_decode t1) as [s1|] eqn:D; [|discriminate].
    injection H as <-. cbn [scalar_text forallb].
    apply andb_true_intro. split; [scalar_by_bounds|].
    apply (IH t1); [cbn [length]; lia | exact D]. }
  destruct ((0xC2 <=? b1) && (b1 <=? 0xDF)) eqn:E2.
  { destruct t1 as [|b2 t2]; [discriminate|].
    unfold continuation in H.
    destruct ((0x80 <=? b2) && (b2 <=? 0xBF)) eqn:C2; [|discriminate].
    destruct (utf8_decode t2) as [s1|] eqn:D; [|discriminate].
    injection H as <-. cbn [scalar_text forallb].
    apply andb_true_intro. split; [scalar_by_bounds|].
    apply (IH t2); [cbn [length]; lia | exact D]. }
  destruct ((0xE0 <=? b1) && (b1 <=? 0xEF)) eqn:E3.
  { destruct t1 as [|b2 [|b3 t3]]; try discriminate.
    unfold continuation in H.
    destruct ((0x80 <=? b2) && (b2 <=? 0xBF)) eqn:C2; [|discriminate].
    destruct ((0x80 <=? b3) && (b3 <=? 0xBF)) eqn:C3; [|discriminate].
    cbn [andb] in H.
    destruct (negb ((b1 =? 0xE0) && (b2 <? 0xA0))) eqn:O1; [|discriminate].
    destruct (negb ((b1 =? 0xED) && (0xA0 <=? b2))) eqn:O2; [|discriminate].
    cbn [andb] in H.
    destruct (utf8_decode t3) as [s1|] eqn:D; [|discriminate].
    injection H as <-. cbn [scalar_text forallb].
    apply andb_true_intro. split; [scalar_by_bounds|].
    apply (IH t3); [cbn [length]; lia | exact D]. }
  destruct ((0xF0 <=? b1) && (b1 <=? 0xF4)) eqn:E4; [|discriminate].
  destruct t1 as [|b2 [|b3 [|b4 t4]]]; try discriminate.
  unfold continuation in H.
  destruct ((0x80 <=? b2) && (b2 <=? 0xBF)) eqn:C2; [|discriminate].
  destruct ((0x80 <=? b3) && (b3 <=? 0xBF)) eqn:C3; [|discriminate].
  destruct ((0x80 <=? b4) && (b4 <=? 0xBF)) eqn:C4; [|discriminate].
  cbn [andb] in H.
  destruct (negb ((b1 =? 0xF0) && (b2 <? 0x90))) eqn:O1; [|discriminate].
  destruct (negb ((b1 =? 0xF4) && (0x90 <=? b2))) eqn:O2; [|discriminate].
  cbn [andb] in H.
  destruct (utf8_decode t4) as [s1|] eqn:D; [|discriminate].
  injection H as <-. cbn [scalar_text forallb].
  apply andb_true_intro. split; [scalar_by_bounds|].
  apply (IH t4); [cbn [length]; lia | exact D].
Qed.

Lemma decode_utf8_scalar (raw_body : bytes) (raw_data : str) :
  decode_utf8 raw_body = Ok raw_data -> scalar_text raw_data = true.
Proof. apply utf8_decode_scalar. Qed.

(** The handler on any body: a body that is not UTF-8 is answered with
    HTTP 400 and the store stays as it is; any other body is parsed to a
    record, which is stored, and the new total is reported. *)
Lemma receive_bronze_record_cases (R : Runtime) (amb : Ambient)
  (raw_body : bytes) (st : Store) :
  (exists e,
     decode_utf8 raw_body = Raise e /\
     receive_bronze_record R amb raw_body st =
     (HTTPException 400 (py "Failed to process record: " ++ str_exn R e), st)) \/
  (exists raw_data record,
     decode_utf8 raw_body = Ok raw_data /\
     ConfluentMessageParser.parse_confluent_message R amb raw_data = Ok record /\
     receive_bronze_record R amb raw_body st =
     (Returns {| total_count := record_counter st + 1;
                 receipt_record_id := record_id record;
                 receipt_processing_id := processing_id record;
                 receipt_received_at := received_at record |},
      store_record record st)).
Proof.
  destruct (decode_utf8 raw_body) as [raw_data | e] eqn:D.
  - right.
    assert (Hp := parse_confluent_message_cases R amb raw_data
                    (decode_utf8_scalar _ _ D)).
    destruct (ConfluentMessageParser.parse_either R amb raw_data) as [r | e];
      eexists raw_data, _; (split; [reflexivity|]); (split; [exact Hp|]);
      now apply (receive_decodable R amb raw_body raw_data).
  - left. exists e. split; [reflexivity|]. now apply receive_undecodable.
Qed.

(** ** Fifteen POST requests *)

(** The answers and the store after any number of POST requests with
    UTF-8 bodies, from a store whose storage is the last ten of the
    records [before]. *)
Lemma post_all_spec (R : Runtime) (posts : list (Ambient * bytes))
  (before : list BronzeTransHst2) (st : Store) :
  forallb (fun post => is_utf8 (snd post)) posts = true ->
  bronze_storage st = last_10 before ->
  exists records,
    List.map (parsed R) posts = List.map Some records /\
    List.map total_of (fst (post_all R posts st)) =
      List.map (fun i => Some (record_counter st + Z.of_nat i)%Z)
               (seq 1 (length posts)) /\
    snd (post_all R posts st) =
      {| record_counter := record_counter st + Z.of_nat (length posts);
         bronze_storage := last_10 (before ++ records) |}.
Proof.
  revert before st.
  induction posts as [|[amb raw_body] posts IH]; intros before st Hutf8 Hst.
  - exists []. cbn. rewrite app_nil_r, Z.add_0_r, <- Hst.
    split; [reflexivity|]. split; [reflexivity|]. now destruct st.
  - cbn [forallb snd] in Hutf8. apply andb_prop in Hutf8 as [Hbody Hutf8].
    destruct (receive_bronze_record_cases R amb raw_body st)
      as [(e & Hd & _) | (raw_data & record & Hd & Hparse & Hreceive)].
    { unfold is_utf8 in Hbody. rewrite Hd in Hbody. discriminate. }
    destruct (IH (before ++ [record]) (store_record record st) Hutf8)
      as (records & Hparsed & Htotals & Hfinal).
    { rewrite store_record_spec. cbn [bronze_storage].
      rewrite Hst. apply last_10_snoc. }
    exists (record :: records).
    cbn [post_all]. rewrite Hreceive.
    destruct (post_all R posts (store_record record st)) as [answers final].
    cbn [fst snd] in Htotals, Hfinal |- *.
    split; [|split].
    + cbn [List.map]. rewrite Hparsed. f_equal.
      unfold parsed. cbn [fst snd]. now rewrite Hd, Hparse.
    + cbn [List.map total_of total_count length seq]. rewrite Htotals.
      rewrite store_record_spec. cbn [record_counter].
      change (Z.of_nat 1) with 1%Z. f_equal.
      rewrite <- (seq_shift (length posts) 1), List.map_map.
      apply List.map_ext. intros i. f_equal. lia.
    + rewrite Hfinal, store_record_spec. cbn [record_counter length].
      rewrite <- app_assoc. cbn [app]. f_equal. lia.
Qed.

(** C2. From the empty store, fifteen POST requests with UTF-8 bodies
    served in sequence by [receive_bronze_record] leave ten records in
    the storage and fifteen in the counter; the storage holds the
    records parsed from the sixth to the fifteenth body in the order of
    arrival, and the answers of the handler carry the totals 1 to 15. *)
Theorem fifteen_appends (R : Runtime) (posts : list (Ambient * bytes)) :
  length posts = 15%nat ->
  forallb (fun post => is_utf8 (snd post)) posts = true ->
  let '(answers, st) := post_all R posts initial_store in
  List.map total_of answers =
    List.map Some [1; 2; 3; 4; 5; 6; 7; 8; 9; 10; 11; 12; 13; 14; 15]%Z /\
  record_counter st = 15%Z /\
  length (bronze_storage st) = 10%nat /\
  List.map Some (bronze_storage st) = drop 5 (List.map (parsed R) posts).
Proof.
  intros Hlen Hutf8.
  destruct (post_all_spec R posts [] initial_store Hutf8 eq_refl)
    as (records & Hparsed & Htotals & Hfinal).
  destruct (post_all R posts initial_store) as [answers st].
  cbn [fst snd] in Htotals, Hfinal. subst st.
  assert (Hrecords : length records = 15%nat).
  { rewrite <- Hlen, <- (length_map (parsed R) posts), Hparsed.
    symmetry. apply length_map. }
  rewrite Hlen in Htotals |- *.
  cbn [app record_counter bronze_storage initial_store].
  unfold last_10. rewrite Hrecords. cbn [Nat.sub].
  split; [exact Htotals|]. split; [reflexivity|].
  split; [rewrite length_drop; lia|].
  rewrite Hparsed. symmetry. apply skipn_map.
Qed.

Lemma fifteen_appends_witness :
  let '(answers, st) := post_all UtcHost.runtime fifteen_posts initial_store in
  List.map total_of answers =
    List.map Some [1; 2; 3; 4; 5; 6; 7; 8; 9; 10; 11; 12; 13; 14; 15]%Z /\
  record_counter st = 15%Z /\
  length (bronze_storage st) = 10%nat /\
  List.map Some (bronze_storage st) =
    drop 5 (List.map (parsed UtcHost.runtime) fifteen_posts).
Proof.
  apply (fifteen_appends UtcHost.runtime fifteen_posts).
  - reflexivity.
  - vm_compute. reflexivity.
Defined.

(** The ids the storage holds after the fifteen requests. *)
Example fifteen_posts_ids :
  List.map record_id
    (bronze_storage (snd (post_all UtcHost.runtime fifteen_posts initial_store))) =
  List.map Some [106; 107; 108; 109; 110; 111; 112; 113; 114; 115]%Z.
Proof. vm_compute. reflexivity. Qed.

(** * Further properties of the service *)

(** ** The store under any sequence of requests *)

Lemma serve_post (R : Runtime) (amb : Ambient) (raw_body : bytes) (st : Store) :
  (is_utf8 raw_body = false /\ serve R (PostRecord amb raw_body) st = st) \/
  (is_utf8 raw_body = true /\
   exists record, serve R (PostRecord amb raw_body) st = store_record record st).
Proof.
  unfold serve, is_utf8.
  destruct (receive_bronze_record_cases R amb raw_body st)
    as [(e & -> & ->) | (raw & record & -> & _ & ->)].
  - now left.
  - right. split; [reflexivity|]. now exists record.
Qed.

(** X1. Whatever requests are served from the start, the storage holds
    as many records as the counter says, up to ten: its length is the
    smaller of 10 and [record_counter], and the counter is not negative. *)
Theorem storage_bounded (R : Runtime) (requests : list request) :
  let st := serve_all R requests initial_store in
  length (bronze_storage st) = Z.to_nat (Z.min 10 (record_counter st)) /\
  (0 <= record_counter st)%Z /\
  (length (bronze_storage st) <= 10)%nat.
Proof.
  cbn zeta. unfold serve_all.
  assert (H : forall st,
             length (bronze_storage st) = Z.to_nat (Z.min 10 (record_counter st)) /\
             (0 <= record_counter st)%Z ->
             let st' := fold_left (fun st req => serve R req st) requests st in
             length (bronze_storage st') =
               Z.to_nat (Z.min 10 (record_counter st')) /\
             (0 <= record_counter st')%Z).
  { induction requests as [|req requests IH]; intros st Hst; [exact Hst|].
    cbn [fold_left]. apply IH. destruct Hst as [Hlen Hpos].
    destruct req as [amb raw_body | | |]; cbn [serve].
    - destruct (serve_post R amb raw_body st) as [[_ Hs] | [_ (record & Hs)]];
        unfold serve in Hs; rewrite Hs; [now split|].
      rewrite store_record_spec. cbn [record_counter bronze_storage].
      rewrite last_10_length, length_app, Hlen. cbn [length]. lia.
    - now split.
    - now split.
    - cbn. lia. }
  destruct (H initial_store) as [Hlen Hpos]; [cbn; lia|].
  cbn zeta in Hlen, Hpos. repeat split; try assumption.
  rewrite Hlen. lia.
Qed.

(** X2. The counter is the number of POST requests with a UTF-8 body
    since the start or the last reset, whatever these bodies hold: a
    record that failed to parse is counted like any other.  A reset
    reports that number and leaves the store as at the start. *)
Theorem counter_counts_received (R : Runtime) (requests : list request) :
  let st := serve_all R requests initial_store in
  record_counter st = count_received requests 0 /\
  reset_bronze_counters st = (count_received requests 0, initial_store) /\
  get_bronze_records (snd (reset_bronze_counters st)) = (0%Z, []).
Proof.
  cbn zeta.
  assert (H : forall st,
             record_counter (serve_all R requests st) =
             count_received requests (record_counter st)).
  { unfold serve_all, count_received.
    induction requests as [|req requests IH]; intros st; [reflexivity|].
    cbn [fold_left]. rewrite IH. f_equal.
    destruct req as [amb raw_body | | |]; cbn [serve]; try reflexivity.
    destruct (serve_post R amb raw_body st) as [[-> Hs] | [-> (record & Hs)]];
      unfold serve in Hs; rewrite Hs; [reflexivity|].
    now rewrite store_record_spec. }
  unfold reset_bronze_counters. rewrite (H initial_store). repeat split.
Qed.

(** X3. After a POST with a UTF-8 body, the GET endpoint reports the
    total one higher and lists the record just parsed first, followed by
    the records stored before, newest first, ten records at most. *)
Theorem get_after_post (R : Runtime) (amb : Ambient) (raw_body : bytes)
  (raw_data : str) (st : Store) :
  decode_utf8 raw_body = Ok raw_data ->
  exists record,
    ConfluentMessageParser.parse_confluent_message R amb raw_data = Ok record /\
    get_bronze_records (snd (receive_bronze_record R amb raw_body st)) =
    ((record_counter st + 1)%Z, take 10 (record :: rev (bronze_storage st))).
Proof.
  intros Hd.
  destruct (receive_bronze_record_cases R amb raw_body st)
    as [(e & He & _) | (raw & record & Hraw & Hp & ->)]; [congruence|].
  assert (raw = raw_data) as -> by congruence.
  exists record. split; [exact Hp|].
  cbn [snd]. rewrite store_record_spec. unfold get_bronze_records, last_10.
  cbn [record_counter bronze_storage]. f_equal.
  rewrite <- firstn_rev, rev_app_distr. reflexivity.
Qed.

Lemma get_after_post_witness :
  exists record,
    ConfluentMessageParser.parse_confluent_message UtcHost.runtime
      UtcHost.ambient (py "{'record_id': 5}") = Ok record /\
    get_bronze_records
      (snd (receive_bronze_record UtcHost.runtime UtcHost.ambient
              (py_bytes "{'record_id': 5}") initial_store)) =
    ((record_counter initial_store + 1)%Z,
     take 10 (record :: rev (bronze_storage initial_store))).
Proof.
  apply (get_after_post UtcHost.runtime UtcHost.ambient
           (py_bytes "{'record_id': 5}") (py "{'record_id': 5}") initial_store).
  reflexivity.
Defined.


(** ** Statistics *)

Lemma foldl_max_spec (l : list Z) (x : Z) :
  In (foldl Z.max x l) (x :: l) /\
  Forall (fun y => (y <= foldl Z.max x l)%Z) (x :: l).
Proof.
  revert x. induction l as [|a l IH]; intros x; cbn [foldl].
  - split; [now left | constructor; [lia | constructor]].
  - destruct (IH (Z.max x a)) as [Hin Hall]. split.
    + destruct Hin as [Heq | Hin]; [|right; now right].
      rewrite <- Heq. destruct (Z.max_spec x a) as [[_ ->] | [_ ->]];
        [right; now left | now left].
    + apply Forall_cons_1 in Hall as [Hx Hall].
      constructor; [lia|]. constructor; [lia | exact Hall].
Qed.

Lemma in_counted_ids (st : Store) (m : Z) :
  In m (counted_ids st) <->
  m <> 0%Z /\ exists r, In r (bronze_storage st) /\ record_id r = Some m.
Proof.
  unfold counted_ids. rewrite <- list_elem_of_In, list_elem_of_omap. split.
  - intros (r & Hr & Hid). apply list_elem_of_In in Hr.
    unfold if_truthy in Hid.
    destruct (record_id r) as [n|] eqn:Hr'; [|discriminate].
    destruct (n =? 0)%Z eqn:E; [discriminate|]. injection Hid as ->.
    apply Z.eqb_neq in E. split; [exact E|]. now exists r.
  - intros (Hm & r & Hr & Hid). exists r.
    split; [now apply list_elem_of_In|].
    unfold if_truthy. rewrite Hid.
    destruct (m =? 0)%Z eqn:E; [apply Z.eqb_eq in E; contradiction | reflexivity].
Qed.

(** X5. [last_record_id] is the largest record id in the storage, not
    the id of the record received last: when it is given, it is the id
    of a stored record, it is not zero, and no stored record has a
    larger non-zero id; it is absent exactly when every stored record
    has the id null or zero. *)
Theorem last_record_id_is_largest (st : Store) :
  match last_record_id (get_bronze_stats st) with
  | Some m =>
      m <> 0%Z /\
      (exists r, In r (bronze_storage st) /\ record_id r = Some m) /\
      forall r x, In r (bronze_storage st) -> record_id r = Some x ->
                  x <> 0%Z -> (x <= m)%Z
  | None =>
      forall r, In r (bronze_storage st) ->
                record_id r = None \/ record_id r = Some 0%Z
  end.
Proof.
  rewrite (get_bronze_stats_spec st). cbn [last_record_id].
  fold (counted_ids st).
  destruct (counted_ids st) as [|x l] eqn:E; cbn [max_or_None].
  - intros r Hr. destruct (record_id r) as [n|] eqn:Hid; [|now left].
    right. destruct (Z.eq_dec n 0%Z) as [-> | Hn]; [reflexivity|].
    assert (Hin : In n (counted_ids st))
      by (apply in_counted_ids; split; [exact Hn | now exists r]).
    rewrite E in Hin. destruct Hin.
  - destruct (foldl_max_spec l x) as [Hin Hall].
    rewrite <- E in Hin, Hall.
    apply in_counted_ids in Hin as [Hm Hr]. split; [exact Hm|].
    split; [exact Hr|].
    intros r y Hr' Hid Hy. rewrite Forall_forall in Hall. apply Hall.
    apply list_elem_of_In, in_counted_ids. split; [exact Hy | now exists r].
Qed.

Lemma size_list_to_set_distinct (l : list Z) :
  base.size (list_to_set l : gset Z) = length (remove_dups l).
Proof.
  rewrite <- (size_list_to_set (C := gset Z) (remove_dups l))
    by apply NoDup_remove_dups.
  f_equal. apply set_eq. intros x.
  now rewrite !elem_of_list_to_set, elem_of_remove_dups.
Qed.

Lemma remove_dups_shorter (l : list Z) : (length (remove_dups l) <= length l)%nat.
Proof.
  induction l as [|x l IH]; [reflexivity|].
  cbn [remove_dups]. destruct (decide_rel elem_of x l); cbn [length]; lia.
Qed.

Lemma omap_shorter {A B} (f : A -> option B) (l : list A) :
  (length (omap f l) <= length l)%nat.
Proof.
  induction l as [|x l IH]; [reflexivity|].
  cbn [omap list_omap]. destruct (f x); cbn [length]; lia.
Qed.

(** The values a filter of the statistics keeps: those of the stored
    records that are neither null nor zero. *)
Lemma in_truthy (g : BronzeTransHst2 -> option Z) (l : list BronzeTransHst2)
  (x : Z) :
  In x (omap (fun r => if_truthy (g r)) l) <->
  x <> 0%Z /\ exists r, In r l /\ g r = Some x.
Proof.
  rewrite <- list_elem_of_In, list_elem_of_omap. split.
  - intros (r & Hr & Hx). apply list_elem_of_In in Hr.
    unfold if_truthy in Hx.
    destruct (g r) as [n|] eqn:Hg; [|discriminate].
    destruct (n =? 0)%Z eqn:E; [discriminate|]. injection Hx as ->.
    apply Z.eqb_neq in E. split; [exact E|]. now exists r.
  - intros (Hx & r & Hr & Hg). exists r.
    split; [now apply list_elem_of_In|].
    unfold if_truthy. rewrite Hg.
    destruct (x =? 0)%Z eqn:E; [apply Z.eqb_eq in E; contradiction | reflexivity].
Qed.

(** The number of distinct values a filter keeps, by a list that holds
    each of them once. *)
Lemma distinct_truthy (g : BronzeTransHst2 -> option Z)
  (l : list BronzeTransHst2) :
  exists values,
    NoDup values /\
    (forall x, In x values <->
               x <> 0%Z /\ exists r, In r l /\ g r = Some x) /\
    base.size (list_to_set (omap (fun r => if_truthy (g r)) l) : gset Z) =
      length values.
Proof.
  exists (remove_dups (omap (fun r => if_truthy (g r)) l)).
  split; [apply NoDup_remove_dups|]. split.
  - intros x. rewrite <- in_truthy, <- !list_elem_of_In.
    apply elem_of_remove_dups.
  - apply size_list_to_set_distinct.
Qed.

(** X6. [unique_record_ids] is the number of distinct values, 0 apart,
    that the stored records have as [record_id], and [unique_users] the
    number of distinct values, 0 apart, they have as [creat_usrnbr]: a
    value that several records carry is counted once, null and 0 are
    not counted, and neither number exceeds [current_storage]. *)
Theorem unique_counts_distinct (st : Store) :
  let stats := get_bronze_stats st in
  (exists ids,
     NoDup ids /\
     (forall x, In x ids <->
                x <> 0%Z /\
                exists r, In r (bronze_storage st) /\ record_id r = Some x) /\
     unique_record_ids stats = length ids) /\
  (exists users,
     NoDup users /\
     (forall x, In x users <->
                x <> 0%Z /\
                exists r, In r (bronze_storage st) /\ creat_usrnbr r = Some x) /\
     unique_users stats = length users) /\
  (unique_record_ids stats <= current_storage stats)%nat /\
  (unique_users stats <= current_storage stats)%nat.
Proof.
  cbn zeta. rewrite (get_bronze_stats_spec st).
  cbn [unique_record_ids unique_users current_storage].
  split; [apply (distinct_truthy record_id)|].
  split; [apply (distinct_truthy creat_usrnbr)|].
  rewrite !size_list_to_set_distinct.
  split; (etransitivity; [apply remove_dups_shorter | apply omap_shorter]).
Qed.

(** ** The constructor *)

Section ConstructorCases.
Context (R : Runtime) (amb : Ambient).

Lemma validate_accepted_int (f : field) (v : pyval) :
  is_int_field f = true ->
  validate R f v <> None ->
  validate R f v = Some (of_option_int (accepted (validate_int R v))).
Proof.
  intros Hf. unfold validate. rewrite Hf.
  destruct (validate_int R v); [reflexivity | contradiction].
Qed.

Lemma validate_accepted_str (f : field) (v : pyval) :
  is_int_field f = false ->
  validate R f v <> None ->
  validate R f v =
  Some (ConfluentMessageParser.of_option_str (accepted (validate_str R v))).
Proof.
  intros Hf. unfold validate. rewrite Hf.
  destruct (validate_str R v); [reflexivity | contradiction].
Qed.

Ltac find_in_errors :=
  first [ left; reflexivity
        | apply in_or_app; first [left; left; reflexivity | right; find_in_errors] ].

(** The constructor, by the validation of each argument. *)
Lemma new_by_validate (k : kwargs) :
  match BronzeTransHst2_new R amb k with
  | Ok r =>
      (forall f, validate R f (kw_of f k) = Some (field_of f r)) /\
      received_at r = now_received amb /\ processing_id r = uuid4 amb
  | Raise e =>
      exists errors,
        e = ValidationError errors /\
        forall f, validate R f (kw_of f k) = None ->
                  In (py (field_name f), kw_of f k) errors
  end.
Proof.
  unfold BronzeTransHst2_new. cbv zeta.
  unfold int_field, str_field, rejected. cbn [fst snd].
  match goal with |- context [ValidationError ?l] => set (errors := l) end.
  assert (Hin : forall f, validate R f (kw_of f k) = None ->
                          In (py (field_name f), kw_of f k) errors).
  { intros f Hf. unfold validate in Hf. subst errors.
    destruct f; cbn [is_int_field kw_of field_name] in Hf |- *;
      match type of Hf with
      | option_map _ ?o = None =>
          destruct o; [discriminate | find_in_errors]
      end. }
  destruct errors as [|e errors'] eqn:E.
  - split; [|split; reflexivity].
    assert (Hok : forall f, validate R f (kw_of f k) <> None).
    { intros f Hf. exact (Hin f Hf). }
    intros f. destruct f; cbn [field_of];
      first [ apply validate_accepted_int; [reflexivity | apply Hok]
            | apply validate_accepted_str; [reflexivity | apply Hok] ].
  - exists (e :: errors'). split; [reflexivity | exact Hin].
Qed.

(** The validation of the field [f] did not fail: only its success is
    left to consider. *)
Ltac accept f :=
  match goal with
  | Hok : forall f, validate _ f (kw_of f _) <> None |- _ =>
      let H := fresh in
      pose proof (Hok f) as H; unfold validate in H;
      cbn [is_int_field kw_of] in H;
      match type of H with
      | option_map _ ?o <> None =>
          destruct o; [clear H | exfalso; apply H; reflexivity]
      end
  end.

(** When no argument is rejected, the constructor returns. *)
Lemma new_accepts (k : kwargs) :
  (forall f, validate R f (kw_of f k) <> None) ->
  exists r, BronzeTransHst2_new R amb k = Ok r.
Proof.
  intros Hok. unfold BronzeTransHst2_new. cbv zeta.
  unfold int_field, str_field, rejected. cbn [fst snd].
  accept F_authorizer_usrnbr.
  accept F_creat_time.
  accept F_creat_usrnbr.
  accept F_data.
  accept F_description.
  accept F_description2.
  accept F_external_user.
  accept F_four_eye_on.
  accept F_name.
  accept F_next_seqnbr.
  accept F_oper.
  accept F_owner_usrnbr.
  accept F_protection.
  accept F_record_id.
  accept F_seqnbr.
  accept F_size.
  accept F_transnbr.
  accept F_trans_record_type.
  accept F_updat_time.
  accept F_updat_usrnbr.
  accept F_version.
  cbn [app]. eexists. reflexivity.
Qed.

(** The values of the declared types pass the validation unchanged. *)
Lemma validate_well_typed (f : field) (v : pyval) :
  well_typed f v = true -> validate R f v = Some v.
Proof.
  unfold well_typed, validate. intros H.
  destruct v; try discriminate.
  - rewrite validate_int_None, validate_str_None. now destruct (is_int_field f).
  - apply andb_prop in H as [H Hhi]. apply andb_prop in H as [-> Hlo].
    rewrite validate_int_int; [reflexivity|].
    apply Z.leb_le in Hlo. apply Z.ltb_lt in Hhi. lia.
  - apply andb_prop in H as [Hf Hs]. apply negb_true_iff in Hf. rewrite Hf.
    now rewrite validate_str_str.
Qed.

End ConstructorCases.

(** Whichever decoder builds the arguments, the result of the inner
    [try] is the result of the constructor. *)
Lemma parse_either_arguments (R : Runtime) (amb : Ambient) (raw_data : str)
  (k : kwargs) :
  arguments_of R raw_data k ->
  ConfluentMessageParser.parse_either R amb raw_data = BronzeTransHst2_new R amb k.
Proof.
  intros [(json_data & Hloads & Hk) | [Hloads ->]];
    unfold ConfluentMessageParser.parse_either; rewrite Hloads; cbn [bind].
  - unfold ConfluentMessageParser._parse_json_message. rewrite Hk. cbn [bind].
    pose proof (new_by_validate R amb k) as H.
    destruct (BronzeTransHst2_new R amb k) as [r | e]; [reflexivity|].
    destruct H as (errors & -> & _). reflexivity.
  - reflexivity.
Qed.

(** X7. One argument the model rejects costs the whole record: when the
    validation of one field fails, in the structured decoder or in the
    fallback, the constructor raises a validation error that lists this
    field, and [parse_confluent_message] returns the error record, in
    which the values of the other fields are lost. *)
Theorem rejected_field_loses_record (R : Runtime) (amb : Ambient)
  (raw_data : str) (k : kwargs) (f : field) :
  scalar_text raw_data = true ->
  arguments_of R raw_data k ->
  validate R f (kw_of f k) = None ->
  exists errors,
    In (py (field_name f), kw_of f k) errors /\
    ConfluentMessageParser.parse_either R amb raw_data =
      Raise (ValidationError errors) /\
    ConfluentMessageParser.parse_confluent_message R amb raw_data =
      Ok (error_record amb raw_data (str_exn R (ValidationError errors))).
Proof.
  intros Hscalar Hk Hf.
  rewrite (parse_confluent_message_cases R amb raw_data Hscalar).
  rewrite (parse_either_arguments R amb raw_data k Hk).
  pose proof (new_by_validate R amb k) as H.
  destruct (BronzeTransHst2_new R amb k) as [r | e].
  - destruct H as [H _]. rewrite (H f) in Hf. discriminate.
  - destruct H as (errors & -> & H). exists errors.
    split; [now apply H | split; reflexivity].
Qed.

Lemma rejected_field_loses_record_witness :
  let raw_data := py "{'record_id': 'abc', 'name': 'Alice', 'seqnbr': 3}" in
  exists errors,
    In (py "record_id", PStr (py "abc")) errors /\
    ConfluentMessageParser.parse_either UtcHost.runtime UtcHost.ambient raw_data =
      Raise (ValidationError errors) /\
    ConfluentMessageParser.parse_confluent_message UtcHost.runtime
      UtcHost.ambient raw_data =
      Ok (error_record UtcHost.ambient raw_data
            (str_exn UtcHost.runtime (ValidationError errors))).
Proof.
  intros raw_data.
  apply (rejected_field_loses_record UtcHost.runtime UtcHost.ambient raw_data
           rejected_arguments F_record_id).
  - reflexivity.
  - left.
    exists (PDict [(py "record_id", PStr (py "abc"));
                   (py "name", PStr (py "Alice")); (py "seqnbr", PInt 3)]).
    split; vm_compute; reflexivity.
  - reflexivity.
Defined.

(** ** The structured decoder *)

(** The arguments for a message that is a dict: read from what stands
    under the envelope key, which has to be a dict itself. *)
Lemma json_kwargs_dict (R : Runtime) (d : list (str * pyval)) :
  match enveloped d with
  | PDict inner =>
      exists k, ConfluentMessageParser.json_kwargs R (PDict d) = Ok k /\
                forall f, kw_of f k = json_argument R f inner
  | v => ConfluentMessageParser.json_kwargs R (PDict d) = Raise (AttributeError v)
  end.
Proof.
  unfold enveloped, ConfluentMessageParser.json_kwargs.
  cbn [py_contains py_getitem bind].
  destruct (dict_lookup (py "value") d) as [v|]; cbn [bind].
  - destruct v; try reflexivity.
    cbn [py_get bind]. eexists. split; [reflexivity|].
    intros f. destruct f; reflexivity.
  - destruct (dict_lookup (py "payload") d) as [v|]; cbn [bind].
    + destruct v; try reflexivity.
      cbn [py_get bind]. eexists. split; [reflexivity|].
      intros f. destruct f; reflexivity.
    + cbn [py_get bind]. eexists. split; [reflexivity|].
      intros f. destruct f; reflexivity.
Qed.

Lemma enveloped_single (key : str) (v : pyval) :
  key = py "value" \/ key = py "payload" ->
  enveloped [(key, v)] = v.
Proof. intros [-> | ->]; reflexivity. Qed.

Lemma kwargs_by_field (k k' : kwargs) :
  (forall f, kw_of f k = kw_of f k') -> k = k'.
Proof.
  intros H. destruct k, k'.
  pose proof (H F_authorizer_usrnbr). pose proof (H F_creat_time).
  pose proof (H F_creat_usrnbr). pose proof (H F_data).
  pose proof (H F_description). pose proof (H F_description2).
  pose proof (H F_external_user). pose proof (H F_four_eye_on).
  pose proof (H F_name). pose proof (H F_next_seqnbr). pose proof (H F_oper).
  pose proof (H F_owner_usrnbr). pose proof (H F_protection).
  pose proof (H F_record_id). pose proof (H F_seqnbr). pose proof (H F_size).
  pose proof (H F_transnbr). pose proof (H F_trans_record_type).
  pose proof (H F_updat_time). pose proof (H F_updat_usrnbr).
  pose proof (H F_version). cbn in *. subst. reflexivity.
Qed.

(** X8. The envelope key decides alone. When the message has the key
    value, or has no such key but the key payload, the record is built
    from what stands under that key only: every other member of the
    message, fields at the top level included, has no influence on the
    result. *)
Theorem envelope_decides (R : Runtime) (amb : Ambient)
  (d : list (str * pyval)) (key : str) (v : pyval) :
  key = py "value" \/
  (key = py "payload" /\ dict_lookup (py "value") d = None) ->
  dict_lookup key d = Some v ->
  ConfluentMessageParser._parse_json_message R amb (PDict d) =
  ConfluentMessageParser._parse_json_message R amb (PDict [(key, v)]).
Proof.
  intros Hkey Hv.
  assert (Hd : enveloped d = v).
  { unfold enveloped. destruct Hkey as [-> | [-> Hnone]].
    - now rewrite Hv.
    - now rewrite Hnone, Hv. }
  assert (Hs : enveloped [(key, v)] = v)
    by (apply enveloped_single; tauto).
  unfold ConfluentMessageParser._parse_json_message.
  pose proof (json_kwargs_dict R d) as H1.
  pose proof (json_kwargs_dict R [(key, v)]) as H2.
  rewrite Hd in H1. rewrite Hs in H2.
  destruct v; try (rewrite H1, H2; reflexivity).
  destruct H1 as (k1 & -> & Hk1). destruct H2 as (k2 & -> & Hk2).
  assert (Heq : k1 = k2)
    by (apply kwargs_by_field; intros f; now rewrite Hk1, Hk2).
  now rewrite Heq.
Qed.

Lemma envelope_decides_witness :
  let inner := PDict [(py "record_id", PInt 42)] in
  ConfluentMessageParser._parse_json_message UtcHost.runtime UtcHost.ambient
    (PDict [(py "record_id", PInt 7); (py "name", PStr (py "outside"));
            (py "payload", PDict [(py "record_id", PInt 8)]);
            (py "value", inner)]) =
  ConfluentMessageParser._parse_json_message UtcHost.runtime UtcHost.ambient
    (PDict [(py "value", inner)]).
Proof.
  intros inner.
  apply (envelope_decides UtcHost.runtime UtcHost.ambient _ (py "value") inner).
  - left. reflexivity.
  - reflexivity.
Defined.

(** X9. A message whose fields have the declared types is taken over as
    it is. When the text is a JSON object and what the fields are read
    from (the object under value, else under payload, else the message)
    is an object whose members, the two timestamps after their
    conversion, are null, 64-bit integers for the integer fields and
    texts for the text fields, [parse_confluent_message] returns a
    record that holds exactly these values; a field that is absent is
    null, and members that are no fields are ignored. *)
Theorem structured_record (R : Runtime) (amb : Ambient) (raw_data : str)
  (d inner : list (str * pyval)) :
  Json.loads R raw_data = Ok (PDict d) ->
  enveloped d = PDict inner ->
  (forall f, well_typed f (json_argument R f inner) = true) ->
  exists r,
    ConfluentMessageParser.parse_confluent_message R amb raw_data = Ok r /\
    (forall f, field_of f r = json_argument R f inner) /\
    received_at r = now_received amb /\ processing_id r = uuid4 amb.
Proof.
  intros Hloads Hd Htyped.
  pose proof (json_kwargs_dict R d) as Hk. rewrite Hd in Hk.
  destruct Hk as (k & Hk & Hfields).
  assert (Hvalid : forall f, validate R f (kw_of f k) = Some (kw_of f k)).
  { intros f. apply validate_well_typed. rewrite Hfields. apply Htyped. }
  destruct (new_accepts R amb k) as [r Hr].
  { intros f. rewrite Hvalid. discriminate. }
  exists r.
  unfold ConfluentMessageParser.parse_confluent_message.
  rewrite (parse_either_arguments R amb raw_data k)
    by (left; exists (PDict d); now split).
  pose proof (new_by_validate R amb k) as Hnew. rewrite Hr in Hnew |- *.
  destruct Hnew as (Hall & Hat & Hid).
  split; [reflexivity|]. split; [|now split].
  intros f. specialize (Hall f). rewrite Hvalid in Hall.
  injection Hall as Hall. now rewrite <- Hall, Hfields.
Qed.

Lemma structured_record_witness :
  let raw_data :=
    py "{'offset': 5, 'value': {'record_id': 42, 'name': 'Alice', 'creat_time': 1700000000000, 'value': {'record_id': 1}, 'color': [1]}}" in
  exists r,
    ConfluentMessageParser.parse_confluent_message UtcHost.runtime
      UtcHost.ambient raw_data = Ok r /\
    (forall f, field_of f r =
               json_argument UtcHost.runtime f
                 [(py "record_id", PInt 42); (py "name", PStr (py "Alice"));
                  (py "creat_time", PInt 1700000000000);
                  (py "value", PDict [(py "record_id", PInt 1)]);
                  (py "color", PList [PInt 1])]) /\
    received_at r = now_received UtcHost.ambient /\
    processing_id r = uuid4 UtcHost.ambient.
Proof.
  intros raw_data.
  apply (structured_record UtcHost.runtime UtcHost.ambient raw_data
           [(py "offset", PInt 5);
            (py "value",
             PDict [(py "record_id", PInt 42); (py "name", PStr (py "Alice"));
                    (py "creat_time", PInt 1700000000000);
                    (py "value", PDict [(py "record_id", PInt 1)]);
                    (py "color", PList [PInt 1])])]).
  - vm_compute. reflexivity.
  - reflexivity.
  - intros f. destruct f; vm_compute; reflexivity.
Defined.

(** X10. A message whose value is no object is an error record. When
    the text is a JSON object and what stands under the key value (or,
    without that key, under payload) is not an object, null included,
    [parse_confluent_message] returns the error record, whatever else
    the message holds. *)
Theorem tombstone_gives_error_record (R : Runtime) (amb : Ambient)
  (raw_data : str) (d : list (str * pyval)) :
  scalar_text raw_data = true ->
  Json.loads R raw_data = Ok (PDict d) ->
  not_a_dict (enveloped d) = true ->
  ConfluentMessageParser.parse_either R amb raw_data =
    Raise (AttributeError (enveloped d)) /\
  ConfluentMessageParser.parse_confluent_message R amb raw_data =
    Ok (error_record amb raw_data (str_exn R (AttributeError (enveloped d)))).
Proof.
  intros Hscalar Hloads Hnot.
  assert (Hk : ConfluentMessageParser.json_kwargs R (PDict d) =
               Raise (AttributeError (enveloped d))).
  { pose proof (json_kwargs_dict R d) as Hk.
    destruct (enveloped d); try exact Hk. discriminate. }
  assert (He : ConfluentMessageParser.parse_either R amb raw_data =
               Raise (AttributeError (enveloped d))).
  { unfold ConfluentMessageParser.parse_either,
      ConfluentMessageParser._parse_json_message.
    rewrite Hloads. cbn [bind]. rewrite Hk. reflexivity. }
  split; [exact He|].
  rewrite (parse_confluent_message_cases R amb raw_data Hscalar), He.
  reflexivity.
Qed.

Lemma tombstone_gives_error_record_witness :
  let raw_data := py "{'key': 'k1', 'value': null, 'record_id': 5}" in
  ConfluentMessageParser.parse_either UtcHost.runtime UtcHost.ambient raw_data =
    Raise (AttributeError PNone) /\
  ConfluentMessageParser.parse_confluent_message UtcHost.runtime
    UtcHost.ambient raw_data =
    Ok (error_record UtcHost.ambient raw_data
          (str_exn UtcHost.runtime (AttributeError PNone))).
Proof.
  intros raw_data.
  apply (tombstone_gives_error_record UtcHost.runtime UtcHost.ambient raw_data
           [(py "key", PStr (py "k1")); (py "value", PNone);
            (py "record_id", PInt 5)]).
  - reflexivity.
  - vm_compute. reflexivity.
  - reflexivity.
Defined.

(** ** The fallback on the bare shape *)

Lemma str_contains_drop (needle hay : str) (i : nat) :
  str_contains needle hay = false ->
  startswith needle (drop i hay) = false.
Proof.
  revert i. induction hay as [|c hay IH]; intros i H.
  - destruct i; cbn [drop]; cbn [str_contains] in H;
      now apply orb_false_iff in H as [H _].
  - cbn [str_contains] in H. apply orb_false_iff in H as [H0 H].
    destruct i; [exact H0|]. cbn [drop]. now apply IH.
Qed.

(** X11. A field whose name, between double quotes, stands nowhere in
    the text is passed as null by the fallback. *)
Theorem absent_name_gives_null (R : Runtime) (f : field) (text : str) :
  str_contains (quoted (py (field_name f))) text = false ->
  fallback_argument R f text = PNone.
Proof.
  intros H. rewrite fallback_argument_extract.
  unfold ConfluentMessageParser.extract_value. rewrite patterns_by_tail.
  cbn [ConfluentMessageParser.first_match].
  rewrite !search_nowhere; [reflexivity | | | |];
    intros i; apply no_match_elsewhere; now apply str_contains_drop.
Qed.

Lemma absent_name_gives_null_witness :
  fallback_argument UtcHost.runtime F_name
    (py "'names': {'string': 'Alice'}, name: 'Bob'") = PNone.
Proof.
  apply (absent_name_gives_null UtcHost.runtime F_name). reflexivity.
Defined.

Section BareShape.
Context (opened captured : str).

(** White space, then a character that is neither white space nor the
    one the pattern asks for. *)
Lemma mismatch_spaces_lit (ws : str) (c x : codepoint) (p : Re.pattern) (s : str) :
  forallb is_space ws = true ->
  is_space c = false ->
  is_space x = false ->
  (x =? c) = false ->
  Re.match_here (Re.Many false Re.Space :: Re.Lit c :: p) (ws ++ x :: s)
    opened captured = None.
Proof.
  intros Hws Hc Hx Hxc. induction ws as [|w ws IH].
  - cbn [app]. rewrite match_many_cons. cbn [Re.in_class]. rewrite Hx.
    cbn [Re.match_here]. now rewrite Hxc.
  - cbn [forallb] in Hws. apply andb_prop in Hws as [Hw Hws].
    cbn [app]. rewrite match_many_cons. cbn [Re.in_class]. rewrite Hw.
    rewrite (IH Hws). cbn [Re.match_here].
    destruct (w =? c) eqn:E; [|reflexivity].
    apply N.eqb_eq in E. subst w. congruence.
Qed.

End BareShape.

(** The two patterns of the wrapped shape do not match a bare value. *)
Lemma mismatch_bare (field_name ws1 ws2 : str) (x : codepoint) (s : str)
  (p : Re.pattern) :
  forallb is_space ws1 = true ->
  forallb is_space ws2 = true ->
  is_space x = false ->
  (x =? 123) = false ->
  Re.match_here
    (Re.lits (quoted field_name) ++
     Re.Many false Re.Space :: Re.Lit 58 :: Re.Many false Re.Space ::
     Re.Lit 123 :: p)
    (bare_text field_name ws1 ws2 (x :: s)) [] [] = None.
Proof.
  intros H1 H2 Hx Hx'. unfold bare_text.
  rewrite match_lits. cbn [app].
  rewrite (match_spaces_lit _ _ _ 58) by (assumption || reflexivity).
  now apply mismatch_spaces_lit.
Qed.

(** The third pattern on a bare number: the group is the run of digits. *)
Lemma match_bare_number (field_name ws1 ws2 ds rest : str) :
  forallb is_space ws1 = true ->
  forallb is_space ws2 = true ->
  forallb is_ascii_digit ds = true ->
  ds <> [] ->
  no_digit_ahead rest = true ->
  Re.match_here (Re.lits (quoted field_name) ++ bare_number_tail)
    (bare_text field_name ws1 ws2 (ds ++ rest)) [] [] = Some ds.
Proof.
  intros H1 H2 Hds Hne Hrest.
  destruct ds as [|d ds]; [congruence|].
  assert (Hall := Hds). cbn [forallb] in Hds. apply andb_prop in Hds as [Hd Hds].
  unfold bare_text, bare_number_tail.
  rewrite match_lits. cbn [app].
  rewrite (match_spaces_lit _ _ _ 58) by (assumption || reflexivity).
  rewrite match_spaces_group; [| assumption | | now apply ascii_digit_not_space].
  - apply match_run_plus.
    + cbn [forallb Re.in_class]. rewrite (ascii_digit_is_decimal d Hd).
      cbn [andb]. apply forallb_forall. intros x Hx.
      rewrite forallb_forall in Hds. apply ascii_digit_is_decimal. auto.
    + exact Hrest.
    + rewrite match_group_close. cbn [Re.match_here]. f_equal.
      change (d :: ds ++ rest) with ((d :: ds) ++ rest).
      rewrite length_app, Nat.add_sub. apply take_app_length.
  - apply forallb_forall. intros x Hx. rewrite forallb_forall in H2.
    now rewrite space_not_decimal by auto.
Qed.

(** X12. A bare number is read up to its last digit. When the text is
    not decoded as JSON and the name of a field stands in it once,
    followed by a colon and a run of ASCII digits, the fallback passes
    the number these digits denote: leading zeros are dropped, and
    whatever follows the digits (a fraction, an exponent, letters) is
    ignored. *)
Theorem bare_number_prefix (R : Runtime) (f : field)
  (pre ws1 ws2 ds rest : str) :
  let text := pre ++ bare_text (py (field_name f)) ws1 ws2 (ds ++ rest) in
  only_at (py (field_name f)) (length pre) text ->
  forallb is_space ws1 = true ->
  forallb is_space ws2 = true ->
  forallb is_ascii_digit ds = true ->
  ds <> [] ->
  within_digit_limit R (length ds) = true ->
  no_digit_ahead rest = true ->
  fallback_argument R f text = PInt (Z.of_N (N_of_digits ds)).
Proof.
  intros text Honly H1 H2 Hds Hne Hlim Hrest.
  rewrite fallback_argument_extract.
  unfold ConfluentMessageParser.extract_value. rewrite patterns_by_tail.
  assert (Helse : forall tail i, i <> length pre ->
            Re.match_here (Re.lits (quoted (py (field_name f))) ++ tail)
              (drop i text) [] [] = None).
  { intros tail i Hi. apply no_match_elsewhere. apply not_true_is_false'.
    intros Ho. apply Honly in Ho. contradiction. }
  assert (Hx : exists d ds', ds = d :: ds' /\ is_space d = false /\
                             (d =? 123) = false).
  { destruct ds as [|d ds']; [congruence|]. exists d, ds'.
    cbn [forallb] in Hds. apply andb_prop in Hds as [Hd _].
    split; [reflexivity|]. split; [now apply ascii_digit_not_space|].
    apply ascii_digit_cases in Hd. each_case Hd; reflexivity. }
  destruct Hx as (d & ds' & Eds & Hd & Hd').
  cbn [ConfluentMessageParser.first_match].
  rewrite search_nowhere.
  2:{ intros i. destruct (Nat.eq_dec i (length pre)) as [-> | Hi];
        [|now apply Helse].
      unfold text. rewrite drop_app_length. rewrite Eds. cbn [app].
      unfold int_tail. now apply mismatch_bare. }
  rewrite search_nowhere.
  2:{ intros i. destruct (Nat.eq_dec i (length pre)) as [-> | Hi];
        [|now apply Helse].
      unfold text. rewrite drop_app_length. rewrite Eds. cbn [app].
      unfold string_tail. now apply mismatch_bare. }
  unfold text.
  rewrite search_skip by (intros i Hi; apply Helse; lia).
  rewrite (search_here _ _ ds) by now apply match_bare_number.
  now rewrite (py_int_digits R ds Hds Hne Hlim).
Qed.

Lemma only_at_by_check (field_name : str) (place : nat) (text : str) :
  forallb (fun i => negb (occurs_at field_name text i) || (i =? place)%nat)
    (seq 0 (S (length text))) = true ->
  only_at field_name place text.
Proof.
  intros H i Hi. rewrite forallb_forall in H.
  destruct (Nat.le_gt_cases i (length text)) as [Hle | Hgt].
  - assert (Hin : In i (seq 0 (S (length text)))) by (apply in_seq; lia).
    specialize (H i Hin). rewrite Hi in H. cbn [negb orb] in H.
    now apply Nat.eqb_eq.
  - unfold occurs_at in Hi. rewrite drop_ge in Hi by lia. discriminate.
Qed.

Lemma bare_number_prefix_witness :
  fallback_argument UtcHost.runtime F_size
    (py "{'name': 'Alice', " ++
     bare_text (py "size") [] [32] (py "0012" ++ py ".5e3, 'oper': }")) =
  PInt 12.
Proof.
  apply (bare_number_prefix UtcHost.runtime F_size (py "{'name': 'Alice', ")
           [] [32] (py "0012") (py ".5e3, 'oper': }")).
  - apply only_at_by_check. vm_compute. reflexivity.
  - reflexivity.
  - reflexivity.
  - reflexivity.
  - discriminate.
  - reflexivity.
  - reflexivity.
Defined.

(** The third pattern does not match a bare text. *)
Lemma mismatch_bare_number (field_name ws1 ws2 s : str) :
  forallb is_space ws1 = true ->
  forallb is_space ws2 = true ->
  Re.match_here (Re.lits (quoted field_name) ++ bare_number_tail)
    (bare_text field_name ws1 ws2 (QUOTE :: s)) [] [] = None.
Proof.
  intros H1 H2. unfold bare_text, bare_number_tail.
  rewrite match_lits. cbn [app].
  rewrite (match_spaces_lit _ _ _ 58) by (assumption || reflexivity).
  rewrite match_spaces_group; [| assumption | | reflexivity].
  - now rewrite match_many_cons.
  - apply forallb_forall. intros x Hx. rewrite forallb_forall in H2.
    now rewrite space_not_decimal by auto.
Qed.

(** The fourth pattern on a bare text: the group is the text between the
    quotes. *)
Lemma match_bare_string (field_name ws1 ws2 value rest : str) :
  forallb is_space ws1 = true ->
  forallb is_space ws2 = true ->
  forallb (Re.in_class Re.NotQuote) value = true ->
  value <> [] ->
  Re.match_here (Re.lits (quoted field_name) ++ bare_string_tail)
    (bare_text field_name ws1 ws2 (quoted value ++ rest)) [] [] = Some value.
Proof.
  intros H1 H2 Hvalue Hne.
  destruct value as [|c value]; [congruence|].
  unfold bare_text, bare_string_tail, quoted.
  rewrite match_lits. cbn [app]. rewrite <- !app_assoc. cbn [app].
  rewrite (match_spaces_lit _ _ _ 58) by (assumption || reflexivity).
  rewrite (match_spaces_lit _ _ _ QUOTE) by (assumption || reflexivity).
  rewrite match_group_open.
  apply match_run_plus; [assumption | reflexivity |].
  rewrite match_group_close, match_lit.
  cbn [Re.match_here]. f_equal.
  change (c :: value ++ QUOTE :: rest) with ((c :: value) ++ QUOTE :: rest).
  rewrite length_app, Nat.add_sub. apply take_app_length.
Qed.

(** X13. A bare text that reads as a number becomes a number. When the
    text is not decoded as JSON and the name of a field stands in it
    once, followed by a colon and a non-empty text between double
    quotes, the fallback passes [int(value)] when [int] accepts the text
    (digits with leading zeros, a sign, surrounding white space or
    underscores between digits) and the text itself otherwise, whatever
    the type of the field. *)
Theorem bare_text_coerced (R : Runtime) (f : field)
  (pre ws1 ws2 value rest : str) :
  let text :=
    pre ++ bare_text (py (field_name f)) ws1 ws2 (quoted value ++ rest) in
  only_at (py (field_name f)) (length pre) text ->
  forallb is_space ws1 = true ->
  forallb is_space ws2 = true ->
  forallb (Re.in_class Re.NotQuote) value = true ->
  value <> [] ->
  fallback_argument R f text = int_or_text R value.
Proof.
  intros text Honly H1 H2 Hvalue Hne.
  rewrite fallback_argument_extract.
  unfold ConfluentMessageParser.extract_value. rewrite patterns_by_tail.
  assert (Helse : forall tail i, i <> length pre ->
            Re.match_here (Re.lits (quoted (py (field_name f))) ++ tail)
              (drop i text) [] [] = None).
  { intros tail i Hi. apply no_match_elsewhere. apply not_true_is_false'.
    intros Ho. apply Honly in Ho. contradiction. }
  cbn [ConfluentMessageParser.first_match].
  rewrite search_nowhere.
  2:{ intros i. destruct (Nat.eq_dec i (length pre)) as [-> | Hi];
        [|now apply Helse].
      unfold text. rewrite drop_app_length. unfold quoted at 2. cbn [app].
      unfold int_tail. now apply mismatch_bare. }
  rewrite search_nowhere.
  2:{ intros i. destruct (Nat.eq_dec i (length pre)) as [-> | Hi];
        [|now apply Helse].
      unfold text. rewrite drop_app_length. unfold quoted at 2. cbn [app].
      unfold string_tail. now apply mismatch_bare. }
  rewrite search_nowhere.
  2:{ intros i. destruct (Nat.eq_dec i (length pre)) as [-> | Hi];
        [|now apply Helse].
      unfold text. rewrite drop_app_length. unfold quoted at 2. cbn [app].
      now apply mismatch_bare_number. }
  unfold text.
  rewrite search_skip by (intros i Hi; apply Helse; lia).
  rewrite (search_here _ _ value) by now apply match_bare_string.
  reflexivity.
Qed.

Lemma bare_text_coerced_witness :
  fallback_argument UtcHost.runtime F_name
    (py "'record_id': 7, " ++
     bare_text (py "name") [] [32] (quoted (py " 0_07 ") ++ py ", 'x'")) =
  PInt 7.
Proof.
  apply (bare_text_coerced UtcHost.runtime F_name (py "'record_id': 7, ")
           [] [32] (py " 0_07 ") (py ", 'x'")).
  - apply only_at_by_check. vm_compute. reflexivity.
  - reflexivity.
  - reflexivity.
  - reflexivity.
  - discriminate.
Defined.

(** ** The record list of the dashboard *)

Lemma fold_left_append {A} (g : A -> str) (l : list A) (acc : str) :
  fold_left (fun html x => html ++ g x) l acc = acc ++ concat (List.map g l).
Proof.
  revert acc. induction l as [|x l IH]; intros acc; cbn [fold_left List.map concat].
  - now rewrite app_nil_r.
  - now rewrite IH, app_assoc.
Qed.

Lemma concat_map_in {A} (g : A -> str) (l : list A) (x : A) :
  In x l -> exists before after, concat (List.map g l) = before ++ g x ++ after.
Proof.
  intros H. apply in_split in H as (l1 & l2 & ->).
  exists (concat (List.map g l1)), (concat (List.map g l2)).
  now rewrite map_app, concat_app.
Qed.

Lemma fields_html_concat (record : BronzeTransHst2) :
  fields_html record = concat (List.map shown_field (field_data record)).
Proof.
  unfold fields_html.
  rewrite <- (app_nil_l (concat _)).
  generalize (field_data record) (@nil codepoint).
  intros l. induction l as [|[label [text|]] l IH]; intros acc;
    cbn [fold_left List.map concat shown_field].
  - now rewrite app_nil_r.
  - now rewrite IH, app_assoc.
  - now rewrite IH.
Qed.

Ltac name_literals :=
  repeat match goal with
         | |- context [py ?s] => generalize (py s); intro
         | |- context [py_utf8 ?s] => generalize (py_utf8 s); intro
         end.

(** The markup of a field holds the shown value as one element. *)
Lemma field_html_value (label : string) (text : str) :
  exists before after,
    field_html label text = before ++ value_element text ++ after.
Proof.
  exists (py "
                <div class='field'>
                    <span class='field-name'>" ++ py label ++
          py ":</span>
                    "),
         (py "
                </div>
                ").
  unfold field_html, value_element.
  replace (py ":</span>
                    <span class='field-value'>")
    with (py ":</span>
                    " ++
          py "<span class='field-value'>") by reflexivity.
  replace (py "</span>
                </div>
                ")
    with (py "</span>" ++ py "
                </div>
                ") by reflexivity.
  name_literals. now rewrite <- !app_assoc.
Qed.

(** The markup of a card: the header with the id, then the fields. *)
Lemma card_html_parts (record : BronzeTransHst2) :
  exists before between after,
    card_html record =
    before ++ id_element (record_id_or_NA record) ++ between ++
    fields_html record ++ after.
Proof.
  exists (py "
        <div class='record-card'>
            <div class='record-header'>
                "),
         (py_utf8 "
                <span class='received-time'>📅 " ++ strftime (received_at record) ++
          py "</span>
            </div>
            <div class='record-fields'>
                "),
         (py "
            </div>
        </div>
        ").
  unfold card_html, id_element.
  replace (py "
        <div class='record-card'>
            <div class='record-header'>
                <span class='record-id'>#")
    with (py "
        <div class='record-card'>
            <div class='record-header'>
                " ++
          py "<span class='record-id'>#") by reflexivity.
  replace (py_utf8 "</span>
                <span class='received-time'>📅 ")
    with (py "</span>" ++
          py_utf8 "
                <span class='received-time'>📅 ") by (vm_compute; reflexivity).
  generalize (strftime (received_at record)) (fields_html record)
             (record_id_or_NA record).
  intros. name_literals. now rewrite <- !app_assoc.
Qed.

(** The page for a list that holds [record]: its card, between the
    cards of the others. *)
Lemma records_html_card (records : list BronzeTransHst2)
  (record : BronzeTransHst2) :
  In record records ->
  exists before after,
    _generate_records_html records = before ++ card_html record ++ after.
Proof.
  intros Hin. unfold _generate_records_html.
  destruct records as [|r0 records]; [destruct Hin|].
  rewrite fold_left_append. cbn [app].
  now apply concat_map_in.
Qed.

(** The card of a record holds the element of each entry of
    [field_data] that is not [None]. *)
Lemma card_html_value (record : BronzeTransHst2) (label : string) (text : str) :
  In (label, Some text) (field_data record) ->
  exists before between after,
    card_html record =
    before ++ id_element (record_id_or_NA record) ++ between ++
    value_element (display_value text) ++ after.
Proof.
  intros Hin.
  destruct (card_html_parts record) as (b1 & m1 & a1 & ->).
  rewrite fields_html_concat.
  destruct (concat_map_in shown_field _ _ Hin) as (b2 & a2 & ->).
  cbn [shown_field].
  destruct (field_html_value label (display_value text)) as (b3 & a3 & ->).
  exists b1, (m1 ++ b2 ++ b3), (a3 ++ a2 ++ a1).
  now rewrite <- !app_assoc.
Qed.

(** X14. Field values reach the page as they are. For every record of
    the list and every field of it that is not null, the page holds an
    element whose content is the value itself, cut to its first 50
    characters and three dots when it is longer: no character of the
    value is escaped, so markup in a value becomes markup of the page. *)
Theorem value_shown_unescaped (records : list BronzeTransHst2)
  (record : BronzeTransHst2) (label : string) (text : str) :
  In record records ->
  In (label, Some text) (field_data record) ->
  exists before after,
    _generate_records_html records =
    before ++
    value_element (if (50 <? length text)%nat
                   then take 50 text ++ py "..." else text) ++
    after.
Proof.
  intros Hrecord Hfield.
  destruct (records_html_card records record Hrecord) as (b1 & a1 & ->).
  destruct (card_html_value record label text Hfield) as (b2 & m2 & a2 & ->).
  fold (display_value text).
  exists (b1 ++ b2 ++ id_element (record_id_or_NA record) ++ m2), (a2 ++ a1).
  now rewrite <- !app_assoc.
Qed.

Lemma value_shown_unescaped_witness :
  let record :=
    {| authorizer_usrnbr := None; creat_time := None; creat_usrnbr := None;
       data := None; description := None; description2 := None;
       external_user := None; four_eye_on := None;
       name := Some (py "<script>alert(1)</script>");
       next_seqnbr := None; oper := None; owner_usrnbr := None;
       protection := None; record_id := Some 5%Z; seqnbr := None;
       size := None; transnbr := None; trans_record_type := None;
       updat_time := None; updat_usrnbr := None; version := None;
       received_at := now_received UtcHost.ambient;
       processing_id := uuid4 UtcHost.ambient |} in
  exists before after,
    _generate_records_html [null_record UtcHost.ambient; record] =
    before ++ value_element (py "<script>alert(1)</script>") ++ after.
Proof.
  intros record.
  apply (value_shown_unescaped [null_record UtcHost.ambient; record] record
           "Name" (py "<script>alert(1)</script>")).
  - right. left. reflexivity.
  - do 8 right. left. reflexivity.
Defined.

(** X15. The id 0 is shown in two ways. For a record of the list whose
    [record_id] is 0, the header of its card shows N/A in place of the
    id, as it does for a record without id, while the field list of the
    same card shows the id 0. *)
Theorem zero_id_shown_two_ways (records : list BronzeTransHst2)
  (record : BronzeTransHst2) :
  In record records ->
  record_id record = Some 0%Z ->
  exists before between after,
    _generate_records_html records =
    before ++ id_element (py "N/A") ++ between ++
    value_element (py "0") ++ after.
Proof.
  intros Hrecord Hid.
  destruct (records_html_card records record Hrecord) as (b1 & a1 & ->).
  assert (Hfield : In ("Record ID"%string, Some (py "0")) (field_data record)).
  { unfold field_data. rewrite Hid. left. reflexivity. }
  destruct (card_html_value record _ _ Hfield) as (b2 & m2 & a2 & ->).
  assert (Hna : record_id_or_NA record = py "N/A").
  { unfold record_id_or_NA. now rewrite Hid. }
  rewrite Hna.
  change (display_value (py "0")) with (py "0").
  exists (b1 ++ b2), m2, (a2 ++ a1).
  now rewrite <- !app_assoc.
Qed.

Lemma zero_id_shown_two_ways_witness :
  exists before between after,
    _generate_records_html [numbered_record UtcHost.ambient 0] =
    before ++ id_element (py "N/A") ++ between ++
    value_element (py "0") ++ after.
Proof.
  apply (zero_id_shown_two_ways [numbered_record UtcHost.ambient 0]
           (numbered_record UtcHost.ambient 0)).
  - left. reflexivity.
  - reflexivity.
Defined.

(** ** From the request to the dashboard and the statistics *)

(** The record just stored is in the storage. *)
Lemma stored_record_kept (record : BronzeTransHst2) (st : Store) :
  In record (bronze_storage (store_record record st)).
Proof.
  rewrite store_record_spec. cbn [bronze_storage]. unfold last_10.
  rewrite drop_app_le by (rewrite length_app; cbn [length]; lia).
  apply in_or_app. right. now left.
Qed.

(** X16. What is posted is served as markup. After a POST whose body is
    UTF-8, every field of the parsed record that is not null stands
    unescaped in the record list of the dashboard (cut to 50 characters
    and three dots when longer): markup sent in a message becomes markup
    of the page. *)
Theorem posted_value_reaches_dashboard (R : Runtime) (amb : Ambient)
  (raw_body : bytes) (raw_data : str) (record : BronzeTransHst2)
  (label : string) (text : str) (st : Store) :
  decode_utf8 raw_body = Ok raw_data ->
  ConfluentMessageParser.parse_confluent_message R amb raw_data = Ok record ->
  In (label, Some text) (field_data record) ->
  exists before after,
    dashboard_records (snd (receive_bronze_record R amb raw_body st)) =
    before ++
    value_element (if (50 <? length text)%nat
                   then take 50 text ++ py "..." else text) ++
    after.
Proof.
  intros Hbody Hparse Hfield.
  rewrite (receive_decodable R amb raw_body raw_data record st Hbody Hparse).
  cbn [snd]. unfold dashboard_records.
  assert (Hin : In record (rev (bronze_storage (store_record record st))))
    by (apply in_rev; rewrite rev_involutive; apply stored_record_kept).
  destruct (records_html_card _ record Hin) as (b1 & a1 & ->).
  destruct (card_html_value record label text Hfield) as (b2 & m2 & a2 & ->).
  fold (display_value text).
  exists (b1 ++ b2 ++ id_element (record_id_or_NA record) ++ m2), (a2 ++ a1).
  now rewrite <- !app_assoc.
Qed.

Lemma posted_value_reaches_dashboard_witness :
  exists before after,
    dashboard_records
      (snd (receive_bronze_record UtcHost.runtime UtcHost.ambient
              (py_bytes markup_message) initial_store)) =
    before ++ value_element (py "<script>alert(1)</script>") ++ after.
Proof.
  apply (posted_value_reaches_dashboard UtcHost.runtime UtcHost.ambient
           (py_bytes markup_message) (py markup_message) markup_record
           "Name" (py "<script>alert(1)</script>") initial_store).
  - vm_compute. reflexivity.
  - vm_compute. reflexivity.
  - do 8 right. left. reflexivity.
Defined.

Lemma distinct_nonempty (l : list Z) (x : Z) :
  In x l -> (1 <= length (remove_dups l))%nat.
Proof.
  intros H. apply list_elem_of_In, elem_of_remove_dups in H.
  destruct (remove_dups l); [inversion H | cbn [length]; lia].
Qed.

(** X17. A message that fails is counted with the id -1. After a POST
    whose text makes the inner [try] raise, the error record is in the
    storage like any other record: the statistics count at least one
    record id, and [last_record_id] is given and is at least -1. *)
Theorem failed_message_is_counted (R : Runtime) (amb : Ambient)
  (raw_body : bytes) (raw_data : str) (e : exn) (st : Store) :
  decode_utf8 raw_body = Ok raw_data ->
  ConfluentMessageParser.parse_either R amb raw_data = Raise e ->
  let st' := snd (receive_bronze_record R amb raw_body st) in
  In (error_record amb raw_data (str_exn R e)) (bronze_storage st') /\
  (1 <= unique_record_ids (get_bronze_stats st'))%nat /\
  exists m, last_record_id (get_bronze_stats st') = Some m /\ (-1 <= m)%Z.
Proof.
  intros Hbody Hraise st'.
  assert (Hparse : ConfluentMessageParser.parse_confluent_message R amb raw_data =
                   Ok (error_record amb raw_data (str_exn R e))).
  { rewrite parse_confluent_message_cases by now apply (decode_utf8_scalar raw_body).
    now rewrite Hraise. }
  assert (Hin : In (error_record amb raw_data (str_exn R e)) (bronze_storage st')).
  { unfold st'. rewrite (receive_decodable R amb raw_body raw_data _ st Hbody Hparse).
    apply stored_record_kept. }
  assert (Hid : In (-1)%Z (counted_ids st')).
  { apply in_counted_ids. split; [discriminate|]. eexists. split; [exact Hin|].
    reflexivity. }
  split; [exact Hin|].
  rewrite (get_bronze_stats_spec st'). cbn [unique_record_ids last_record_id].
  fold (counted_ids st'). split.
  - rewrite size_list_to_set_distinct. now apply (distinct_nonempty _ (-1)%Z).
  - destruct (counted_ids st') as [|x l] eqn:E; [destruct Hid|].
    cbn [max_or_None]. eexists. split; [reflexivity|].
    destruct (foldl_max_spec l x) as [_ Hall].
    rewrite Forall_forall in Hall. apply Hall. now apply list_elem_of_In.
Qed.

Lemma failed_message_is_counted_witness :
  let st' := snd (receive_bronze_record UtcHost.runtime UtcHost.ambient
                    (py_bytes "[1, 2]") initial_store) in
  In (error_record UtcHost.ambient (py "[1, 2]")
        (str_exn UtcHost.runtime (AttributeError (PList [PInt 1; PInt 2]))))
     (bronze_storage st') /\
  (1 <= unique_record_ids (get_bronze_stats st'))%nat /\
  exists m, last_record_id (get_bronze_stats st') = Some m /\ (-1 <= m)%Z.
Proof.
  apply (failed_message_is_counted UtcHost.runtime UtcHost.ambient
           (py_bytes "[1, 2]") (py "[1, 2]")
           (AttributeError (PList [PInt 1; PInt 2])) initial_store).
  - vm_compute. reflexivity.
  - vm_compute. reflexivity.
Defined.
